(** * asmblai-backend: SKU ingestion pipeline, status polling and usage analytics

    A shallow embedding of the Express route handlers of the backend
    ([routes/skus.js], [routes/analytics.js], [middleware/auth.js],
    [lib/video.js], [server.js]) over an explicit model of the relational
    store, followed by the properties of the specification. *)

From Stdlib Require Import ZArith List String Ascii Bool Lia Arith.
From Stdlib Require Import Sorting.Sorted Sorting.Permutation.
From Stdlib Require DecimalString OrderedTypeEx.
Import ListNotations.

Local Open Scope string_scope.
Local Open Scope Z_scope.

(** ** JavaScript values used by the handlers *)

Module JS.

(** A string taken from a JSON body or a form field is [undefined] or a
    string; [!s] holds for [undefined] and for the empty string. *)
Definition falsy (s : option string) : bool :=
  match s with
  | None => true
  | Some s => String.eqb s ""
  end.

(** [s || d] on such a value. *)
Definition or_default (s : option string) (d : string) : string :=
  match s with
  | Some s => if String.eqb s "" then d else s
  | None => d
  end.

(** [n || null] on an optional number: [0] is falsy. *)
Definition num_or_null (n : option Z) : option Z :=
  match n with
  | Some n => if n =? 0 then None else Some n
  | None => None
  end.

(** [String(n)] for an integer. *)
Definition string_of_Z (n : Z) : string :=
  DecimalString.NilZero.string_of_int (Z.to_int n).

Fixpoint repeat_string (c : ascii) (n : nat) : string :=
  match n with
  | O => EmptyString
  | S n => String c (repeat_string c n)
  end.

(** [s.padStart(w, '0')]. *)
Definition padStart0 (w : nat) (s : string) : string :=
  repeat_string "0"%char (w - String.length s) ++ s.

(** A call that may throw. *)
Inductive result (A : Type) : Type :=
| Ok (a : A)
| Throw (err : string).
Arguments Ok {A} a.
Arguments Throw {A} err.

End JS.
Export JS.

(** ** Rows of the relational store (schema.sql) *)

Definition Id := nat.

Record Company := mkCompany {
  company_id : Id;
  company_name : string;
  company_plan : string;
  company_sku_limit : Z
}.

Record User := mkUser {
  user_id : Id;
  user_company_id : Id;
  user_email : string
}.

(** The [skus] table.  The derived columns are nullable and carry no
    default, [status] is free text with default ['processing'].  The
    bookkeeping columns [created_at] and [updated_at] are left out. *)
Record Sku := mkSku {
  sku_id : Id;
  sku_company_id : Id;
  sku_code : string;
  product_name : string;
  category : string;
  status : string;
  file_url : option string;
  video_url : option string;
  qr_code_url : option string;
  qr_target_url : option string;
  step_count : option Z;
  video_duration : option Z
}.

Record Scan := mkScan {
  scan_id : Id;
  scan_sku_id : Id;
  scan_company_id : Id;
  scan_session_id : string;
  scan_user_agent : option string;
  hour_of_day : Z;
  completed : bool;
  completion_step : option Z;
  rating : option Z;
  scanned_at : Z
}.

Record Question := mkQuestion {
  question_id : Id;
  question_sku_id : Id;
  question_company_id : Id;
  question_session_id : string;
  question_text : string;
  step_number : option Z;
  asked_at : Z
}.

Record NotificationPreference := mkPref {
  pref_user_id : Id;
  qr_ready : bool
}.

(** The store: one list of rows per table, in insertion order, and the
    supply of generated primary keys. *)
Record DB := mkDB {
  skus : list Sku;
  scans : list Scan;
  questions : list Question;
  notification_preferences : list NotificationPreference;
  next_id : Id
}.

Definition set_skus (l : list Sku) (db : DB) : DB :=
  mkDB l (scans db) (questions db) (notification_preferences db) (next_id db).

Definition set_scans (l : list Scan) (db : DB) : DB :=
  mkDB (skus db) l (questions db) (notification_preferences db) (next_id db).

(** ** The query layer *)

Module Query.

(** Modelled from the spec: the storage client ([lib/supabase.js] and the
    query builder behind it) is not part of the sources.  [.single()]
    is the single-row query: it yields the row when the filter selects
    exactly one row and no data otherwise. *)
Definition single {A : Type} (rows : list A) : option A :=
  match rows with
  | [r] => Some r
  | _ => None
  end.

(** [select('*', { count: 'exact', head: true })]. *)
Definition count {A : Type} (rows : list A) : Z :=
  Z.of_nat (List.length rows).

(** [.order('scanned_at', { ascending: false })]: a stable insertion
    sort, latest first. *)
Fixpoint insert_desc (r : Scan) (l : list Scan) : list Scan :=
  match l with
  | [] => [r]
  | x :: l' =>
      if scanned_at x <? scanned_at r then r :: l
      else x :: insert_desc r l'
  end.

Definition order_desc (l : list Scan) : list Scan :=
  fold_right insert_desc [] l.

(** [.limit(n)]. *)
Definition limit {A : Type} (n : nat) (l : list A) : list A := firstn n l.

(** Modelled from the spec: an [update] carrying filters, an order and a
    limit changes the rows that the same filters, order and limit
    select, identified by primary key, and leaves every other row as it
    is. *)
Definition update_selected (selected : list Scan) (f : Scan -> Scan)
  (table : list Scan) : list Scan :=
  map (fun r => if existsb (fun s => Nat.eqb (scan_id s) (scan_id r)) selected
                then f r else r) table.

(** [update(...).eq('id', id)] on [skus]. *)
Definition update_sku_by_id (id : Id) (f : Sku -> Sku) (table : list Sku)
  : list Sku :=
  map (fun r => if Nat.eqb (sku_id r) id then f r else r) table.

End Query.

(** ** HTTP responses *)

Inductive Body : Type :=
| JsonError (error : string)
| JsonLimit (error message : string) (currentCount limit : Z)
| JsonSuccess
| JsonCreated (message : string) (id : Id) (skuCode productName st : string)
| JsonStatus (st : string) (id : Id) (qrCodeUrl qrTargetUrl videoUrl : option string)
    (stepCount : option Z)
| HtmlNotFound
| HtmlGuide (productName skuCode : string) (stepCount videoDuration : option Z).

Record Response := mkResponse {
  code : Z;
  body : Body
}.

(** ** middleware/auth.js *)

(** A request once [requireAuth] has attached the user and the company. *)
Record Auth := mkAuth {
  req_user : User;
  req_company : Company
}.

Definition req_companyId (a : Auth) : Id := user_company_id (req_user a).

Definition is_live (s : Sku) : bool := String.eqb (status s) "live".

Definition of_company (c : Id) (s : Sku) : bool := Nat.eqb (sku_company_id s) c.

(** The rows counted by [checkSkuLimit]:
    [.eq('company_id', req.companyId).eq('status', 'live')]. *)
Definition live_skus (c : Id) (db : DB) : list Sku :=
  filter is_live (filter (of_company c) (skus db)).

Definition liveCount (c : Id) (db : DB) : Z := Query.count (live_skus c db).

Definition limit_message (plan : string) (lim : Z) : string :=
  "Your " ++ plan ++ " plan allows " ++ string_of_Z lim
    ++ " active SKUs. Upgrade to add more.".

(** [checkSkuLimit]: [None] is [next()], [Some r] the response sent. *)
Definition checkSkuLimit (a : Auth) (db : DB) : option Response :=
  let company := req_company a in
  if company_sku_limit company =? -1 then None
  else
    let count := liveCount (req_companyId a) db in
    if count >=? company_sku_limit company then
      Some (mkResponse 403
              (JsonLimit "SKU limit reached"
                 (limit_message (company_plan company) (company_sku_limit company))
                 count (company_sku_limit company)))
    else None.

(** ** lib/video.js *)

Module Video.

Record Step := mkStep {
  stepNumber : Z;
  description : string
}.

(** [parseSteps]: the placeholder extractor returns the same six steps
    for every file. *)
Definition parseSteps (fileContent : string) : list Step :=
  [ mkStep 1 "Lay out all parts on a flat surface and identify each component using the parts list.";
    mkStep 2 "Attach the side panels to the base using the provided cam locks. Do not fully tighten yet.";
    mkStep 3 "Insert the shelf pins into the pre-drilled holes at your desired height.";
    mkStep 4 "Slide the shelves into position on the shelf pins.";
    mkStep 5 "Attach the back panel by pressing it into the frame grooves.";
    mkStep 6 "Fully tighten all cam locks and check that the unit is stable." ].

Record VideoResult := mkVideo {
  videoUrl : string;
  videoDuration : Z;
  stepCount : Z
}.

(** [generateVideo]: after the simulated delay, a URL built from the
    item id, 38 seconds per step and the number of steps. *)
Definition generateVideo (skuId : Id) (skuCode productName : string)
  (steps : list Step) : VideoResult :=
  let videoUrl := "https://storage.assemblyai.app/videos/"
                    ++ string_of_Z (Z.of_nat skuId) ++ "/assembly.mp4" in
  let videoDuration := Z.of_nat (List.length steps) * 38 in
  mkVideo videoUrl videoDuration (Z.of_nat (List.length steps)).

End Video.

(** ** routes/skus.js *)

Record File := mkFile {
  file_filename : string;
  file_path : string
}.

Record EmailArgs := mkEmail {
  email_to : string;
  email_productName : string;
  email_skuCode : string;
  email_qrCodeUrl : string;
  email_qrTargetUrl : string
}.

(** The collaborators of the pipeline whose implementation lies outside the
    route: the step extractor, the code generator ([lib/qr.js]) and the
    mail transport behind [sendQRReadyEmail].  Each call returns or
    throws. *)
Record Services := mkServices {
  svc_parseSteps : string -> result (list Video.Step);
  svc_generateQRCode : Id -> string -> result (string * string);
  svc_sendQRReadyEmail : EmailArgs -> result unit
}.

(** Store-passing computations that may throw; the store written so far
    survives a throw. *)
Definition M (A : Type) : Type := DB -> DB * result A.

Definition ret {A} (a : A) : M A := fun db => (db, Ok a).

Definition bind {A B} (m : M A) (k : A -> M B) : M B :=
  fun db =>
    match m db with
    | (db', Ok a) => k a db'
    | (db', Throw e) => (db', Throw e)
    end.

Definition call {A} (r : result A) : M A := fun db => (db, r).

Definition gets {A} (f : DB -> A) : M A := fun db => (db, Ok (f db)).

Definition modify (f : DB -> DB) : M unit := fun db => (f db, Ok tt).

Notation "x <- m ;; k" := (bind m (fun x => k))
  (at level 61, m at next level, right associativity).
Notation "m ;;; k" := (bind m (fun _ => k))
  (at level 61, right associativity).

(** The [update] of step 4: status and the five derived columns at once. *)
Definition commit_live (v : Video.VideoResult) (qr : string * string) (s : Sku) : Sku :=
  mkSku (sku_id s) (sku_company_id s) (sku_code s) (product_name s) (category s)
    "live" (file_url s)
    (Some (Video.videoUrl v)) (Some (fst qr)) (Some (snd qr))
    (Some (Video.stepCount v)) (Some (Video.videoDuration v)).

(** [update({ status: 'error' })]: no other column is written. *)
Definition mark_error (s : Sku) : Sku :=
  mkSku (sku_id s) (sku_company_id s) (sku_code s) (product_name s) (category s)
    "error" (file_url s)
    (video_url s) (qr_code_url s) (qr_target_url s)
    (step_count s) (video_duration s).

Definition read_prefs (u : User) (db : DB) : option NotificationPreference :=
  Query.single
    (filter (fun p => Nat.eqb (pref_user_id p) (user_id u)) (notification_preferences db)).

(** [!prefs.data || prefs.data.qr_ready] *)
Definition wants_email (p : option NotificationPreference) : bool :=
  match p with
  | None => true
  | Some p => qr_ready p
  end.

(** [processSkuGeneration(sku, user, file)] *)
Definition processSkuGeneration (svc : Services) (sku : Sku) (user : User)
  (file : File) : M unit :=
  steps <- call (svc_parseSteps svc (file_path file)) ;;
  let v := Video.generateVideo (sku_id sku) (sku_code sku) (product_name sku) steps in
  qr <- call (svc_generateQRCode svc (sku_id sku) (sku_code sku)) ;;
  modify (fun db => set_skus (Query.update_sku_by_id (sku_id sku) (commit_live v qr) (skus db)) db) ;;;
  prefs <- gets (read_prefs user) ;;
  if wants_email prefs then
    call (svc_sendQRReadyEmail svc
            (mkEmail (user_email user) (product_name sku) (sku_code sku) (fst qr) (snd qr)))
  else ret tt.

(** The background task started by [POST /api/skus]: the pipeline with its
    [.catch] handler, which marks the item as failed. *)
Definition background (svc : Services) (sku : Sku) (user : User) (file : File)
  (db : DB) : DB :=
  match processSkuGeneration svc sku user file db with
  | (db', Ok _) => db'
  | (db', Throw _) =>
      set_skus (Query.update_sku_by_id (sku_id sku) mark_error (skus db')) db'
  end.

Record CreateRequest := mkCreate {
  create_auth : Auth;
  create_skuCode : option string;
  create_productName : option string;
  create_category : option string;
  create_file : option File
}.

Record Job := mkJob {
  job_sku : Sku;
  job_user : User;
  job_file : File
}.

Definition dquote : string := String (ascii_of_nat 34) EmptyString.

Definition same_code (c : Id) (k : string) (s : Sku) : bool :=
  Nat.eqb (sku_company_id s) c && String.eqb (sku_code s) k.

(** [insert] into [skus] under the table constraint
    [unique(company_id, sku_code)]: the new row with a generated id, or the
    constraint violation. *)
Definition insert_sku (c : Id) (k name cat furl : string) (db : DB)
  : result (Sku * DB) :=
  if existsb (same_code c k) (skus db) then
    Throw "duplicate key value violates unique constraint"
  else
    let row := mkSku (next_id db) c k name cat "processing" (Some furl)
                 None None None None None in
    Ok (row, mkDB (skus db ++ [row]) (scans db) (questions db)
                  (notification_preferences db) (S (next_id db))).

(** The handler of [POST /api/skus], after the middleware. *)
Definition create_handler (r : CreateRequest) (db : DB)
  : DB * Response * option Job :=
  if falsy (create_skuCode r) || falsy (create_productName r) then
    (db, mkResponse 400 (JsonError "SKU code and product name are required"), None)
  else
    match create_file r with
    | None => (db, mkResponse 400 (JsonError "Instruction file is required"), None)
    | Some file =>
        let cid := req_companyId (create_auth r) in
        let skuCode := or_default (create_skuCode r) "" in
        let productName := or_default (create_productName r) "" in
        let existing := Query.single (filter (same_code cid skuCode) (skus db)) in
        match existing with
        | Some _ =>
            (db, mkResponse 409
                   (JsonError ("SKU code " ++ dquote ++ skuCode ++ dquote ++ " already exists")),
             None)
        | None =>
            match insert_sku cid skuCode productName
                    (or_default (create_category r) "Other")
                    ("/uploads/" ++ file_filename file) db with
            | Throw _ => (db, mkResponse 500 (JsonError "Failed to create SKU"), None)
            | Ok (sku, db') =>
                (db',
                 mkResponse 202
                   (JsonCreated "SKU created — generating video and QR code"
                      (sku_id sku) (sku_code sku) (product_name sku) (status sku)),
                 Some (mkJob sku (req_user (create_auth r)) file))
            end
        end
    end.

(** [router.post('/', requireAuth, checkSkuLimit, upload.single('file'), ...)] *)
Definition post_skus (r : CreateRequest) (db : DB) : DB * Response * option Job :=
  match checkSkuLimit (create_auth r) db with
  | Some resp => (db, resp, None)
  | None => create_handler r db
  end.

(** The whole life of one submission: the request, then its background
    task if one was started. *)
Definition submit (svc : Services) (r : CreateRequest) (db : DB) : DB * Response :=
  match post_skus r db with
  | (db', resp, Some j) => (background svc (job_sku j) (job_user j) (job_file j) db', resp)
  | (db', resp, None) => (db', resp)
  end.

(** [GET /api/skus/:id/status] *)
Definition getStatus (a : Auth) (id : Id) (db : DB) : Response :=
  let sku := Query.single
               (filter (fun s => Nat.eqb (sku_id s) id
                                 && Nat.eqb (sku_company_id s) (req_companyId a))
                       (skus db)) in
  match sku with
  | None => mkResponse 404 (JsonError "SKU not found")
  | Some sku =>
      mkResponse 200
        (JsonStatus (status sku) (sku_id sku) (qr_code_url sku) (qr_target_url sku)
           (video_url sku) (step_count sku))
  end.

(** [DELETE /api/skus/:id]; scans and questions go with the item. *)
Definition delete_sku (a : Auth) (id : Id) (db : DB) : DB * Response :=
  let gone s := Nat.eqb (sku_id s) id && Nat.eqb (sku_company_id s) (req_companyId a) in
  let dead := map sku_id (filter gone (skus db)) in
  let kept i := negb (existsb (Nat.eqb i) dead) in
  (mkDB (filter (fun s => negb (gone s)) (skus db))
        (filter (fun s => kept (scan_sku_id s)) (scans db))
        (filter (fun q => kept (question_sku_id q)) (questions db))
        (notification_preferences db) (next_id db),
   mkResponse 200 JsonSuccess).

(** ** The [Date] object

    A [Date] is its time value, milliseconds since the epoch.  The local
    time zone of the process is explicit, as a [Zone]: [getDay], [getDate],
    [setDate], [getFullYear], [getMonth] and [getHours] work on local time,
    [toISOString] on UTC. *)

Module Date.

Definition msPerDay : Z := 86400000.
Definition msPerHour : Z := 3600000.

Definition Day (t : Z) : Z := t / msPerDay.
Definition TimeWithinDay (t : Z) : Z := t mod msPerDay.
Definition WeekDay (t : Z) : Z := (Day t + 4) mod 7.
Definition MakeDate (day time : Z) : Z := day * msPerDay + time.

(** Year, month (1..12) and day of the month (1..31) of a day number in
    the proleptic Gregorian calendar. *)
Definition civil_from_days (d : Z) : Z * Z * Z :=
  let z := d + 719468 in
  let era := z / 146097 in
  let doe := z - era * 146097 in
  let yoe := (doe - doe / 1460 + doe / 36524 - doe / 146096) / 365 in
  let y := yoe + era * 400 in
  let doy := doe - (365 * yoe + yoe / 4 - yoe / 100) in
  let mp := (5 * doy + 2) / 153 in
  let dd := doy - (153 * mp + 2) / 5 + 1 in
  let m := if mp <? 10 then mp + 3 else mp - 9 in
  (if m <=? 2 then y + 1 else y, m, dd).

Definition YearFromTime (t : Z) : Z := fst (fst (civil_from_days (Day t))).
Definition MonthFromTime (t : Z) : Z := snd (fst (civil_from_days (Day t))) - 1.
Definition DateFromTime (t : Z) : Z := snd (civil_from_days (Day t)).

(** A time zone, by its offsets from UTC in milliseconds east of UTC:
    [offset_at t] is the offset in force at the instant [t], and
    [offset_of_local lt] the offset with which the local time [lt] is read
    back as an instant.  Where daylight saving time begins or ends the
    two differ; a local time that the clocks skip or show twice is read
    with the offset in force before the change. *)
Record Zone := mkZone {
  offset_at : Z -> Z;
  offset_of_local : Z -> Z
}.

(** [LocalTZA(t, isUTC)] *)
Definition LocalTZA (zone : Zone) (t : Z) (isUTC : bool) : Z :=
  if isUTC then offset_at zone t else offset_of_local zone t.

(** A zone that keeps one offset all year. *)
Definition fixed (tza : Z) : Zone := mkZone (fun _ => tza) (fun _ => tza).

Definition utc : Zone := fixed 0.

Definition LocalTime (zone : Zone) (t : Z) : Z := t + LocalTZA zone t true.
Definition UTC (zone : Zone) (t : Z) : Z := t - LocalTZA zone t false.

Definition getDay (zone : Zone) (t : Z) : Z := WeekDay (LocalTime zone t).
Definition getDate (zone : Zone) (t : Z) : Z := DateFromTime (LocalTime zone t).
Definition getFullYear (zone : Zone) (t : Z) : Z := YearFromTime (LocalTime zone t).
Definition getMonth (zone : Zone) (t : Z) : Z := MonthFromTime (LocalTime zone t).
Definition getHours (zone : Zone) (t : Z) : Z :=
  TimeWithinDay (LocalTime zone t) / msPerHour.

(** [setDate(dt)]: the day [MakeDay(year, month, dt)] is the day number of
    the first of the local month plus [dt - 1]; the local time within the
    day is kept, and the new local time is read back as an instant with
    the offset that applies to it. *)
Definition setDate (zone : Zone) (t dt : Z) : Z :=
  let lt := LocalTime zone t in
  let first := Day lt - (DateFromTime lt - 1) in
  UTC zone (MakeDate (first + (dt - 1)) (TimeWithinDay lt)).

(** The year of [toISOString]: four digits, or a sign and six digits
    outside 0..9999. *)
Definition iso_year (y : Z) : string :=
  if (0 <=? y) && (y <=? 9999) then padStart0 4 (string_of_Z y)
  else
    let sign := if (y <? 0)%Z then "-" else "+" in
    (sign ++ padStart0 6 (string_of_Z (Z.abs y)))%string.

Definition iso_of_day (d : Z) : string :=
  let '(y, m, dd) := civil_from_days d in
  (iso_year y ++ "-" ++ padStart0 2 (string_of_Z m) ++ "-"
     ++ padStart0 2 (string_of_Z dd))%string.

(** [d.toISOString().split('T')[0]] *)
Definition toISODate (t : Z) : string := iso_of_day (Day t).

End Date.

(** ** routes/analytics.js: helpers *)

(** The [map] of [getStartDate], on its five own keys. *)
Definition period_days (period : string) : option Z :=
  if String.eqb period "7d" then Some 7
  else if String.eqb period "30d" then Some 30
  else if String.eqb period "3m" then Some 90
  else if String.eqb period "6m" then Some 180
  else if String.eqb period "1y" then Some 365
  else None.

(** [getStartDate]: the start of the window as a time value, or [null]. *)
Definition getStartDate (zone : Date.Zone) (now : Z) (period : string) : option Z :=
  match period_days period with
  | None => None
  | Some n => Some (Date.setDate zone now (Date.getDate zone now - n))
  end.

Definition getGroupBy (period : string) : string :=
  if String.eqb period "7d" then "day"
  else if String.eqb period "30d" then "day"
  else if String.eqb period "3m" || String.eqb period "6m" then "week"
  else "month".

(** The key computed for one scan in the loop of [groupScans]. *)
Definition bucket_key (zone : Date.Zone) (groupBy : string) (d : Z) : string :=
  if String.eqb groupBy "day" then Date.toISODate d
  else if String.eqb groupBy "week" then
    let start := Date.setDate zone d (Date.getDate zone d - Date.getDay zone d) in
    Date.toISODate start
  else
    (string_of_Z (Date.getFullYear zone d) ++ "-"
       ++ padStart0 2 (string_of_Z (Date.getMonth zone d + 1)))%string.

(** [groups[key] = (groups[key] || 0) + 1] on an object whose keys keep
    their insertion order. *)
Fixpoint bump (key : string) (groups : list (string * Z)) : list (string * Z) :=
  match groups with
  | [] => [(key, 1)]
  | (k, c) :: g =>
      if String.eqb k key then (k, c + 1) :: g else (k, c) :: bump key g
  end.

(** [a.localeCompare(b)]: the keys are made of digits and hyphens, on which
    the collation order is the order of the code units. *)
Definition localeCompare (a b : string) : comparison := String.compare a b.

Fixpoint insert_entry (e : string * Z) (l : list (string * Z)) : list (string * Z) :=
  match l with
  | [] => [e]
  | x :: l' =>
      match localeCompare (fst e) (fst x) with
      | Lt => e :: l
      | _ => x :: insert_entry e l'
      end
  end.

(** [entries.sort(([a], [b]) => a.localeCompare(b))], a stable sort. *)
Definition sort_entries (l : list (string * Z)) : list (string * Z) :=
  fold_right insert_entry [] l.

Definition groupScans (zone : Date.Zone) (scans : list Scan) (groupBy : string)
  : list (string * Z) :=
  let groups :=
    fold_left (fun g scan => bump (bucket_key zone groupBy (scanned_at scan)) g) scans [] in
  sort_entries groups.

(** ** routes/analytics.js and server.js: the public routes *)

(** A body field handed to a filter as it is: [undefined] is sent as the
    text [undefined]. *)
Definition filter_text (s : option string) : string :=
  match s with
  | Some s => s
  | None => "undefined"
  end.

Definition has_code (k : string) (s : Sku) : bool := String.eqb (sku_code s) k.

(** [.eq('sku_code', skuCode).eq('status', 'live').single()] *)
Definition lookup_live (k : string) (db : DB) : option Sku :=
  Query.single (filter is_live (filter (has_code k) (skus db))).

(** [.eq('sku_code', skuCode).single()] *)
Definition lookup_code (k : string) (db : DB) : option Sku :=
  Query.single (filter (has_code k) (skus db)).

Record ScanRequest := mkScanReq {
  scanreq_skuCode : option string;
  scanreq_sessionId : option string;
  scanreq_userAgent : option string
}.

(** [POST /api/analytics/scan]; [now] is the clock at the request. *)
Definition post_scan (zone : Date.Zone) (now : Z) (r : ScanRequest) (db : DB) : DB * Response :=
  if falsy (scanreq_skuCode r) then
    (db, mkResponse 400 (JsonError "SKU code is required"))
  else
    match lookup_live (filter_text (scanreq_skuCode r)) db with
    | None => (db, mkResponse 404 (JsonError "SKU not found"))
    | Some sku =>
        let row := mkScan (next_id db) (sku_id sku) (sku_company_id sku)
                     (or_default (scanreq_sessionId r) "anonymous")
                     (scanreq_userAgent r) (Date.getHours zone now)
                     false None None now in
        (mkDB (skus db) (scans db ++ [row]) (questions db)
              (notification_preferences db) (S (next_id db)),
         mkResponse 200 JsonSuccess)
    end.

Record CompleteRequest := mkCompleteReq {
  complete_skuCode : option string;
  complete_sessionId : option string;
  complete_completionStep : option Z;
  complete_rating : option Z
}.

(** [update({ completed: true, completion_step: completionStep,
    rating: rating || null })]: an [undefined] completion step drops out
    of the JSON body and leaves the column as it is. *)
Definition mark_completed (step rate : option Z) (s : Scan) : Scan :=
  mkScan (scan_id s) (scan_sku_id s) (scan_company_id s) (scan_session_id s)
    (scan_user_agent s) (hour_of_day s) true
    (match step with Some n => Some n | None => completion_step s end)
    (num_or_null rate) (scanned_at s).

Definition of_session (id : Id) (session : string) (s : Scan) : bool :=
  Nat.eqb (scan_sku_id s) id && String.eqb (scan_session_id s) session.

(** The rows selected by
    [.eq('sku_id', ..).eq('session_id', ..).order('scanned_at', desc).limit(1)]. *)
Definition latest_scan (id : Id) (session : string) (db : DB) : list Scan :=
  Query.limit 1 (Query.order_desc (filter (of_session id session) (scans db))).

(** [POST /api/analytics/complete] *)
Definition post_complete (r : CompleteRequest) (db : DB) : DB * Response :=
  match lookup_code (filter_text (complete_skuCode r)) db with
  | None => (db, mkResponse 404 (JsonError "SKU not found"))
  | Some sku =>
      let selected := latest_scan (sku_id sku) (filter_text (complete_sessionId r)) db in
      (set_scans
         (Query.update_selected selected
            (mark_completed (complete_completionStep r) (complete_rating r))
            (scans db)) db,
       mkResponse 200 JsonSuccess)
  end.

Record QuestionRequest := mkQuestionReq {
  questionreq_skuCode : option string;
  questionreq_sessionId : option string;
  questionreq_questionText : option string;
  questionreq_stepNumber : option Z
}.

(** [POST /api/analytics/question] *)
Definition post_question (now : Z) (r : QuestionRequest) (db : DB) : DB * Response :=
  if falsy (questionreq_skuCode r) || falsy (questionreq_questionText r) then
    (db, mkResponse 400 (JsonError "SKU code and question text are required"))
  else
    match lookup_code (filter_text (questionreq_skuCode r)) db with
    | None => (db, mkResponse 404 (JsonError "SKU not found"))
    | Some sku =>
        let row := mkQuestion (next_id db) (sku_id sku) (sku_company_id sku)
                     (or_default (questionreq_sessionId r) "anonymous")
                     (filter_text (questionreq_questionText r))
                     (questionreq_stepNumber r) now in
        (mkDB (skus db) (scans db) (questions db ++ [row])
              (notification_preferences db) (S (next_id db)),
         mkResponse 200 JsonSuccess)
    end.

(** [GET /s/:skuCode], the consumer page. *)
Definition get_guide (skuCode : string) (db : DB) : Response :=
  match lookup_live skuCode db with
  | None => mkResponse 404 HtmlNotFound
  | Some sku =>
      mkResponse 200
        (HtmlGuide (product_name sku) skuCode (step_count sku) (video_duration sku))
  end.

(** ** Derived notions used in the statements *)

Definition commit_db (sku : Sku) (v : Video.VideoResult) (qr : string * string)
  (db : DB) : DB :=
  set_skus (Query.update_sku_by_id (sku_id sku) (commit_live v qr) (skus db)) db.

Definition derived_set (s : Sku) : Prop :=
  video_url s <> None /\ video_duration s <> None /\ step_count s <> None
  /\ qr_code_url s <> None /\ qr_target_url s <> None.

Definition derived_unset (s : Sku) : Prop :=
  video_url s = None /\ video_duration s = None /\ step_count s = None
  /\ qr_code_url s = None /\ qr_target_url s = None.

(** The invariant of the data model: a known status, and derived fields
    present exactly for a live item. *)
Definition consistent (s : Sku) : Prop :=
  (status s = "live" /\ derived_set s)
  \/ ((status s = "processing" \/ status s = "error") /\ derived_unset s).

(** One operation on the store. *)
Inductive Op : Type :=
| Submit (svc : Services) (r : CreateRequest)
| RecordScan (zone : Date.Zone) (now : Z) (r : ScanRequest)
| RecordCompletion (r : CompleteRequest)
| RecordQuestion (now : Z) (r : QuestionRequest)
| Delete (a : Auth) (id : Id).

Definition apply_op (db : DB) (o : Op) : DB :=
  match o with
  | Submit svc r => fst (submit svc r db)
  | RecordScan zone now r => fst (post_scan zone now r db)
  | RecordCompletion r => fst (post_complete r db)
  | RecordQuestion now r => fst (post_question now r db)
  | Delete a id => fst (delete_sku a id db)
  end.

(** The mail transport of a submission never throws. *)
Definition mail_delivers (o : Op) : Prop :=
  match o with
  | Submit svc _ => forall e, svc_sendQRReadyEmail svc e = Ok tt
  | _ => True
  end.

Definition Inv (db : DB) : Prop :=
  Forall consistent (skus db)
  /\ Forall (fun s => (sku_id s < next_id db)%nat) (skus db).

(** The columns of the table constraint [unique(company_id, sku_code)]. *)
Definition sku_key (s : Sku) : Id * string := (sku_company_id s, sku_code s).

Definition unique_codes (db : DB) : Prop := NoDup (map sku_key (skus db)).

(** [id] is the primary key of [scans]. *)
Definition unique_scan_ids (db : DB) : Prop := NoDup (map scan_id (scans db)).

Definition not_found : Response := mkResponse 404 (JsonError "SKU not found").

Definition success : Response := mkResponse 200 JsonSuccess.

(** [groups[key] || 0] *)
Fixpoint count_of (key : string) (groups : list (string * Z)) : Z :=
  match groups with
  | [] => 0
  | (k, c) :: g => if String.eqb k key then c else count_of key g
  end.

(** The scans whose bucket key is [k]. *)
Definition in_bucket (zone : Date.Zone) (groupBy k : string) (scans : list Scan) : list Scan :=
  filter (fun s => String.eqb (bucket_key zone groupBy (scanned_at s)) k) scans.

(** Strictly ascending order of the keys of two entries. *)
Definition key_lt (a b : string * Z) : Prop := localeCompare (fst a) (fst b) = Lt.

(** The first row of an ordered selection is a latest one. *)
Definition latest_first (l : list Scan) : Prop :=
  match l with
  | [] => True
  | x :: _ => forall y, In y l -> scanned_at y <= scanned_at x
  end.

(** ** Example stores and collaborators *)

Module QuotaExample.

Definition trial : Company := mkCompany 1%nat "Acme" "trial" 2.
Definition scale : Company := mkCompany 1%nat "Acme" "scale" (-1).
Definition alice : User := mkUser 10%nat 1%nat "alice@acme.test".

Definition item (id c : Id) (k st : string) : Sku :=
  mkSku id c k "Shelf" "Other" st (Some "/uploads/f.pdf") None None None None None.

(** Two live items of company 1, one still processing, one failed, and a
    live item of another company. *)
Definition db : DB :=
  mkDB [ item 1%nat 1%nat "A" "live"; item 2%nat 1%nat "B" "processing";
         item 3%nat 2%nat "A" "live"; item 4%nat 1%nat "C" "live";
         item 5%nat 1%nat "D" "error" ]
       [] [] [] 6%nat.

End QuotaExample.

Module Demo.

Definition acme : Company := mkCompany 1%nat "Acme" "trial" 2.
Definition alice : User := mkUser 10%nat 1%nat "alice@acme.test".
Definition globex : Company := mkCompany 2%nat "Globex" "trial" 2.
Definition bob : User := mkUser 11%nat 2%nat "bob@globex.test".

Definition qr_ok (id : Id) (k : string) : result (string * string) :=
  Ok ("/public/qr/" ++ k ++ ".png", "https://assemblyai.app/s/" ++ k)%string.

(** Every collaborator answers. *)
Definition all_up : Services :=
  mkServices (fun path => Ok (Video.parseSteps path)) qr_ok (fun _ => Ok tt).

(** The mail transport refuses the connection. *)
Definition mail_down : Services :=
  mkServices (fun path => Ok (Video.parseSteps path)) qr_ok
    (fun _ => Throw "connect ECONNREFUSED").

(** The code generator throws. *)
Definition qr_down : Services :=
  mkServices (fun path => Ok (Video.parseSteps path))
    (fun _ _ => Throw "ENOENT: public/qr") (fun _ => Ok tt).

Definition manual : File := mkFile "3f0c.pdf" "uploads/3f0c.pdf".

Definition upload (u : User) (c : Company) (k : string) : CreateRequest :=
  mkCreate (mkAuth u c) (Some k) (Some "Kallax shelf") None (Some manual).

Definition empty : DB := mkDB [] [] [] [] 0%nat.

(** The row that [POST /api/skus] inserts for Acme's first upload. *)
Definition fresh : Sku :=
  mkSku 0%nat 1%nat "KALLAX" "Kallax shelf" "Other" "processing"
    (Some "/uploads/3f0c.pdf") None None None None None.

(** Acme and Globex have both uploaded an item under the code [KALLAX] and
    both pipelines have run. *)
Definition shared : DB :=
  fst (submit all_up (upload bob globex "KALLAX")
         (fst (submit all_up (upload alice acme "KALLAX") empty))).

(** Europe/Berlin between the autumn of 2023 and the autumn of 2024: one
    hour east of UTC until 2024-03-31T01:00:00Z, when the clocks go from
    02:00 to 03:00, and two hours from then on. *)
Definition berlin : Date.Zone :=
  Date.mkZone (fun t => if t <? 1711846800000 then 3600000 else 7200000)
              (fun lt => if lt <? 1711854000000 then 3600000 else 7200000).

(** America/New_York over the same months: five hours west of UTC until
    2024-03-10T07:00:00Z, four hours from then on. *)
Definition new_york : Date.Zone :=
  Date.mkZone (fun t => if t <? 1710054000000 then -18000000 else -14400000)
              (fun lt => if lt <? 1710039600000 then -18000000 else -14400000).

End Demo.

(** ** routes/analytics.js: the dashboard reads *)

(** The names every object inherits from [Object.prototype]: a lookup
    [obj[k]] under one of them finds a function or the prototype itself
    instead of [undefined]. *)
Definition inherited_name (k : string) : bool :=
  existsb (String.eqb k)
    [ "constructor"; "__proto__"; "hasOwnProperty"; "isPrototypeOf";
      "propertyIsEnumerable"; "toLocaleString"; "toString"; "valueOf";
      "__defineGetter__"; "__defineSetter__"; "__lookupGetter__";
      "__lookupSetter__" ].

(** The answer of a dashboard route: the JSON sent with its status, or the
    error object of the [catch] block. *)
Inductive Reply (A : Type) : Type :=
| Sent (status : Z) (data : A)
| Failed (status : Z) (error : string).
Arguments Sent {A} status data.
Arguments Failed {A} status error.

(** A number printed by [toFixed(1)], kept as the quotient it is computed
    from: [((num / den) * times).toFixed(1)]. *)
Record Fixed1 := mkFixed1 {
  fixed_num : Z;
  fixed_den : Z;
  fixed_times : Z
}.

(** [total ? ((count / total) * 100).toFixed(1) : 0] *)
Inductive Percentage : Type :=
| PercentZero
| PercentOf (f : Fixed1).

Definition percentage (count total : Z) : Percentage :=
  if total =? 0 then PercentZero else PercentOf (mkFixed1 count total 100).

(** [req.query.period || '7d'] *)
Definition query_period (p : option string) : string := or_default p "7d".

(** [getStartDate(period)] as the routes run it.  Under an inherited name
    [map[period]] is not a number, the date becomes invalid and
    [toISOString] throws. *)
Definition window_start (zone : Date.Zone) (now : Z) (period : string) : result (option Z) :=
  if inherited_name period then Throw "RangeError: Invalid time value"
  else Ok (getStartDate zone now period).

(** [.gte('scanned_at', startDate)], applied when a start date exists. *)
Definition since (start : option Z) (t : Z) : bool :=
  match start with
  | Some t0 => t0 <=? t
  | None => true
  end.

(** [from('scans')...eq('company_id', req.companyId)] with the window. *)
Definition company_scans (c : Id) (start : option Z) (db : DB) : list Scan :=
  filter (fun s => Nat.eqb (scan_company_id s) c && since start (scanned_at s)) (scans db).

(** [GET /api/analytics/scans] *)
Definition get_scans (zone : Date.Zone) (now : Z) (a : Auth) (period : option string) (db : DB)
  : Reply (list (string * Z)) :=
  let period := query_period period in
  match window_start zone now period with
  | Throw _ => Failed 500 "Failed to fetch scan data"
  | Ok startDate =>
      Sent 200 (groupScans zone (company_scans (req_companyId a) startDate db)
                  (getGroupBy period))
  end.

(** The branch taken in the loop of [GET /tod] for an hour. *)
Definition tod_label (h : Z) : string :=
  if (6 <=? h) && (h <? 9) then "6-9"
  else if (9 <=? h) && (h <? 12) then "9-12"
  else if (12 <=? h) && (h <? 15) then "12-15"
  else if (15 <=? h) && (h <? 18) then "15-18"
  else if (18 <=? h) && (h <? 21) then "18-21"
  else "21+".

(** [obj[key]++] on an object that has the key. *)
Definition increment {K : Type} (eqb : K -> K -> bool) (key : K) (obj : list (K * Z))
  : list (K * Z) :=
  map (fun e => if eqb (fst e) key then (fst e, snd e + 1) else e) obj.

Definition tod_empty : list (string * Z) :=
  [("6-9", 0); ("9-12", 0); ("12-15", 0); ("15-18", 0); ("18-21", 0); ("21+", 0)].

Definition tod_buckets (scans : list Scan) : list (string * Z) :=
  fold_left (fun b s => increment String.eqb (tod_label (hour_of_day s)) b) scans tod_empty.

(** [Object.values(buckets).reduce((a, b) => a + b, 0)] *)
Definition sum_counts {K : Type} (obj : list (K * Z)) : Z :=
  fold_left (fun a e => a + snd e) obj 0.

Record TodEntry := mkTod {
  tod_entry_label : string;
  tod_entry_count : Z;
  tod_entry_percentage : Percentage
}.

(** [GET /api/analytics/tod] *)
Definition get_tod (zone : Date.Zone) (now : Z) (a : Auth) (period : option string) (db : DB)
  : Reply (list TodEntry) :=
  match window_start zone now (query_period period) with
  | Throw _ => Failed 500 "Failed to fetch time-of-day data"
  | Ok startDate =>
      let buckets := tod_buckets (company_scans (req_companyId a) startDate db) in
      let total := sum_counts buckets in
      Sent 200 (map (fun e => mkTod (fst e) (snd e) (percentage (snd e) total)) buckets)
  end.

(** [.not('rating', 'is', null)]: the ratings of the selected scans. *)
Definition ratings_of (l : list Scan) : list Z :=
  flat_map (fun s => match rating s with Some r => [r] | None => [] end) l.






Definition sum_list (l : list Z) : Z := fold_left Z.add l 0.

(** [total ? (sum / total).toFixed(1) : null] *)
Definition average (ratings : list Z) : option Fixed1 :=
  if Z.of_nat (List.length ratings) =? 0 then None
  else Some (mkFixed1 (sum_list ratings) (Z.of_nat (List.length ratings)) 1).



(** ** Well-formed stores *)

(** What the schema and the key supply guarantee: primary keys are
    unique and were all handed out already, codes are unique per company,
    and every scan and question belongs to an item of the same company. *)
Record WF (db : DB) : Prop := mkWF {
  wf_sku_ids : NoDup (map sku_id (skus db));
  wf_sku_fresh : Forall (fun s => (sku_id s < next_id db)%nat) (skus db);
  wf_codes : unique_codes db;
  wf_scan_ids : unique_scan_ids db;
  wf_scan_fresh : Forall (fun s => (scan_id s < next_id db)%nat) (scans db);
  wf_scan_ref :
    Forall (fun s => exists k, In k (skus db) /\ sku_id k = scan_sku_id s
                               /\ sku_company_id k = scan_company_id s) (scans db);
  wf_question_ref :
    Forall (fun q => exists k, In k (skus db) /\ sku_id k = question_sku_id q
                               /\ sku_company_id k = question_company_id q)
           (questions db)
}.

(** [obj[k]], read as a number, [0] for a missing key. *)
Definition value_at {K : Type} (eqb : K -> K -> bool) (k : K) (obj : list (K * Z)) : Z :=
  match find (fun e => eqb (fst e) k) obj with
  | Some e => snd e
  | None => 0
  end.

(** The sum of the values of an object. *)
Definition total_of {K : Type} (obj : list (K * Z)) : Z :=
  fold_right (fun e a => snd e + a) 0 obj.



(** A rewrite of a row that leaves its id, company and code alone. *)
Definition keeps_identity (f : Sku -> Sku) : Prop :=
  forall s, sku_id (f s) = sku_id s
            /\ sku_company_id (f s) = sku_company_id s
            /\ sku_code (f s) = sku_code s.

(** The stores reached from the empty one. *)
Definition reached (ops : list Op) : DB :=
  fold_left apply_op ops (mkDB [] [] [] [] 0%nat).

(** Submissions handled one after the other, none of the background tasks
    having run yet. *)
Fixpoint post_many (rs : list CreateRequest) (db : DB) : DB * list Response :=
  match rs with
  | [] => (db, [])
  | r :: rs' =>
      let '(db1, resp, _) := post_skus r db in
      let '(db2, resps) := post_many rs' db1 in
      (db2, resp :: resps)
  end.

(** A submission with a code, a name and a file. *)
Definition well_formed_upload (r : CreateRequest) : Prop :=
  falsy (create_skuCode r) = false /\ falsy (create_productName r) = false
  /\ create_file r <> None.

(** ** [GET /api/analytics/overview] *)

(** A value of [sessionCounts]: a number of scans, or the text that results
    from adding 1 to an inherited member. *)
Inductive Counted : Type :=
| Times (n : Z)
| Junk.

(** [obj[k]] on an object of own properties in creation order. *)
Fixpoint prop_get {V : Type} (k : string) (obj : list (string * V)) : option V :=
  match obj with
  | [] => None
  | (k', c) :: obj' => if String.eqb k' k then Some c else prop_get k obj'
  end.

(** [obj[k] = c]: an own property is overwritten in place, a new one comes
    last. *)
Fixpoint prop_set {V : Type} (k : string) (c : V) (obj : list (string * V))
  : list (string * V) :=
  match obj with
  | [] => [(k, c)]
  | (k', c') :: obj' =>
      if String.eqb k' k then (k', c) :: obj' else (k', c') :: prop_set k c obj'
  end.

(** [sessionCounts[id] = (sessionCounts[id] || 0) + 1].  An assignment to
    [__proto__] of something that is not an object is dropped; under any
    other inherited name the first read finds a function and the sum is a
    text from then on. *)
Definition count_session (obj : list (string * Counted)) (id : string)
  : list (string * Counted) :=
  if String.eqb id "__proto__" then obj
  else
    match prop_get id obj with
    | Some (Times n) => prop_set id (Times (n + 1)) obj
    | Some Junk => obj
    | None => prop_set id (if inherited_name id then Junk else Times 1) obj
    end.

Definition session_counts (scans : list Scan) : list (string * Counted) :=
  fold_left (fun obj s => count_session obj (scan_session_id s)) scans [].

(** [Object.values(sessionCounts).filter(c => c > 1).length] *)
Definition repeat_sessions (obj : list (string * Counted)) : Z :=
  Z.of_nat (List.length
    (filter (fun e => match snd e with Times n => 1 <? n | Junk => false end) obj)).

(** [Object.keys(sessionCounts).length] *)
Definition total_sessions (obj : list (string * Counted)) : Z :=
  Z.of_nat (List.length obj).

Record Overview := mkOverview {
  ov_period : string;
  ov_totalScans : Z;
  ov_completedScans : Z;
  ov_completionRate : Percentage;
  ov_avgRating : option Fixed1;
  ov_repeatRate : Percentage;
  ov_activeSKUs : Z
}.

Definition get_overview (zone : Date.Zone) (now : Z) (a : Auth) (period : option string) (db : DB)
  : Reply Overview :=
  let period := query_period period in
  match window_start zone now period with
  | Throw _ => Failed 500 "Failed to fetch analytics overview"
  | Ok startDate =>
      let own := company_scans (req_companyId a) startDate db in
      let totalScans := Query.count own in
      let completedScans := Query.count (filter completed own) in
      let sessionCounts := session_counts own in
      Sent 200
        (mkOverview period totalScans completedScans
           (percentage completedScans totalScans)
           (average (ratings_of own))
           (percentage (repeat_sessions sessionCounts) (total_sessions sessionCounts))
           (liveCount (req_companyId a) db))
  end.

(** The number of scans stored under a session id. *)
Definition scans_of_session (id : string) (scans : list Scan) : Z :=
  Z.of_nat (List.length (filter (fun s => String.eqb (scan_session_id s) id) scans)).

(** ** [GET /api/analytics/questions] *)

Record QuestionGroup := mkGroup {
  group_question : string;
  group_step : option Z;
  group_skuName : option string;
  group_count : Z
}.

(** The value of a property name that is an array index: the canonical
    decimal text of an integer below [2^32 - 1]. *)
Definition array_index (k : string) : option Z :=
  match DecimalString.NilEmpty.uint_of_string k with
  | Some u =>
      let n := Z.of_uint u in
      if String.eqb (string_of_Z n) k && (n <=? 4294967294) then Some n else None
  | None => None
  end.

Fixpoint insert_index {V : Type} (e : Z * V) (l : list (Z * V)) : list (Z * V) :=
  match l with
  | [] => [e]
  | x :: l' => if fst e <? fst x then e :: l else x :: insert_index e l'
  end.

(** [Object.values(obj)]: the array indices in ascending order, then the
    other names in creation order. *)
Definition object_values {V : Type} (obj : list (string * V)) : list V :=
  let indexed :=
    flat_map (fun e => match array_index (fst e) with
                       | Some n => [(n, snd e)]
                       | None => []
                       end) obj in
  let named :=
    filter (fun e => match array_index (fst e) with Some _ => false | None => true end)
           obj in
  (map snd (fold_right insert_index [] indexed) ++ map snd named)%list.

Fixpoint insert_group (g : QuestionGroup) (l : list QuestionGroup) : list QuestionGroup :=
  match l with
  | [] => [g]
  | x :: l' =>
      if group_count g <? group_count x then x :: insert_group g l' else g :: l
  end.

(** [.sort((a, b) => b.count - a.count)], a stable sort. *)
Definition sort_groups (l : list QuestionGroup) : list QuestionGroup :=
  fold_right insert_group [] l.

(** [arr.slice(0, end)]: a negative end counts from the back. *)
Definition slice0 {A : Type} (stop : Z) (l : list A) : list A :=
  if stop <? 0 then firstn (Z.to_nat (Z.of_nat (List.length l) + stop)) l
  else firstn (Z.to_nat stop) l.

(** [parseInt(req.query.limit) || 10], the parse giving an integer or
    nothing. *)
Definition query_limit (parsed : option Z) : Z :=
  match parsed with
  | Some n => if n =? 0 then 10 else n
  | None => 10
  end.

(** [.gte('asked_at', startDate)] on the company's questions. *)
Definition company_questions (c : Id) (start : option Z) (db : DB) : list Question :=
  filter (fun q => Nat.eqb (question_company_id q) c && since start (asked_at q))
         (questions db).

(** [q.skus?.product_name], the name of the item the question refers to. *)
Definition question_sku_name (db : DB) (q : Question) : option string :=
  option_map product_name
    (find (fun s => Nat.eqb (sku_id s) (question_sku_id q)) (skus db)).

Section TopQuestions.

(** [text.toLowerCase().trim()] *)
Variable normalize : string -> string.

(** The body of the loop over the questions.  Under an inherited name
    [grouped[key]] is already something, no group is made and the count
    lands on the inherited member. *)
Definition add_question (db : DB) (grouped : list (string * QuestionGroup))
  (q : Question) : list (string * QuestionGroup) :=
  let key := normalize (question_text q) in
  if inherited_name key then grouped
  else
    match prop_get key grouped with
    | None =>
        prop_set key
          (mkGroup (question_text q) (step_number q) (question_sku_name db q) 1) grouped
    | Some g =>
        prop_set key
          (mkGroup (group_question g) (group_step g) (group_skuName g) (group_count g + 1))
          grouped
    end.

Definition group_questions (db : DB) (qs : list Question)
  : list (string * QuestionGroup) :=
  fold_left (add_question db) qs [].

(** The whole ranking, before the slice. *)
Definition ranked_questions (db : DB) (qs : list Question) : list QuestionGroup :=
  sort_groups (object_values (group_questions db qs)).

Definition get_questions (zone : Date.Zone) (now : Z) (a : Auth) (period : option string)
  (limit : option Z) (db : DB) : Reply (list QuestionGroup) :=
  match window_start zone now (query_period period) with
  | Throw _ => Failed 500 "Failed to fetch questions data"
  | Ok startDate =>
      Sent 200
        (slice0 (query_limit limit)
           (ranked_questions db (company_questions (req_companyId a) startDate db)))
  end.

(** The questions asked under a normalized text. *)
Definition asked_as (k : string) (qs : list Question) : list Question :=
  filter (fun q => String.eqb (normalize (question_text q)) k) qs.

(** The group that the questions make under a name. *)
Definition group_of (db : DB) (k : string) (qs : list Question) : option QuestionGroup :=
  if inherited_name k then None
  else
    match find (fun q => String.eqb (normalize (question_text q)) k) qs with
    | None => None
    | Some q =>
        Some (mkGroup (question_text q) (step_number q) (question_sku_name db q)
                (Z.of_nat (List.length (asked_as k qs))))
    end.

End TopQuestions.

(** An instance of the normalization, for texts of ASCII letters and
    blanks. *)
Definition lower_ascii (c : ascii) : ascii :=
  let n := nat_of_ascii c in
  if (65 <=? n)%nat && (n <=? 90)%nat then ascii_of_nat (n + 32) else c.

Fixpoint lower_string (s : string) : string :=
  match s with
  | EmptyString => EmptyString
  | String c s' => String (lower_ascii c) (lower_string s')
  end.

Fixpoint trim_left (s : string) : string :=
  match s with
  | String c s' => if Ascii.eqb c " " then trim_left s' else s
  | EmptyString => EmptyString
  end.

Fixpoint reverse_string (s acc : string) : string :=
  match s with
  | EmptyString => acc
  | String c s' => reverse_string s' (String c acc)
  end.

Definition normalize_ascii (s : string) : string :=
  let t := trim_left (lower_string s) in
  reverse_string (trim_left (reverse_string t EmptyString)) EmptyString.

(** ** routes/billing.js *)

(** A row of [companies] with its billing columns. *)
Record CompanyRow := mkCompanyRow {
  row_id : Id;
  row_name : string;
  row_plan : string;
  row_sku_limit : Z;
  row_plan_status : option string;
  row_stripe_customer_id : option string;
  row_stripe_subscription_id : option string
}.

(** The company as the quota check sees it. *)
Definition company_of_row (c : CompanyRow) : Company :=
  mkCompany (row_id c) (row_name c) (row_plan c) (row_sku_limit c).

(** [PLANS[plan].skuLimit] for the three plans of the table. *)
Definition plan_sku_limit (plan : string) : option Z :=
  if String.eqb plan "starter" then Some 10
  else if String.eqb plan "growth" then Some 25
  else if String.eqb plan "scale" then Some (-1)
  else None.

(** [!PLANS[plan]] is false for the three plans and for every inherited
    name. *)
Definition plan_found (plan : string) : bool :=
  match plan_sku_limit plan with
  | Some _ => true
  | None => inherited_name plan
  end.

(** The calls made to the payment provider, each returning or throwing;
    [price_id] is [PLANS[plan].priceId], taken from the environment. *)
Record Stripe := mkStripe {
  price_id : string -> option string;
  customers_create : string -> string -> Id -> result string;
  paymentMethods_attach : string -> string -> result unit;
  customers_update : string -> string -> result unit;
  subscriptions_create : string -> option string -> result string;
  subscriptions_update : string -> result unit
}.

Record BillingAuth := mkBillingAuth {
  billing_user : User;
  billing_company : CompanyRow
}.

Definition billing_companyId (a : BillingAuth) : Id := user_company_id (billing_user a).

(** [from('companies').update(...).eq('id', id)] *)
Definition update_company (id : Id) (f : CompanyRow -> CompanyRow)
  (table : list CompanyRow) : list CompanyRow :=
  map (fun c => if Nat.eqb (row_id c) id then f c else c) table.

Definition set_customer (customer : string) (c : CompanyRow) : CompanyRow :=
  mkCompanyRow (row_id c) (row_name c) (row_plan c) (row_sku_limit c)
    (row_plan_status c) (Some customer) (row_stripe_subscription_id c).

(** The last update of [POST /subscribe]; a limit that is [undefined]
    drops out of the body. *)
Definition set_plan (plan : string) (subscription : string) (c : CompanyRow)
  : CompanyRow :=
  mkCompanyRow (row_id c) (row_name c) plan
    (match plan_sku_limit plan with Some l => l | None => row_sku_limit c end)
    (Some "active") (row_stripe_customer_id c) (Some subscription).

Definition set_status (st : string) (c : CompanyRow) : CompanyRow :=
  mkCompanyRow (row_id c) (row_name c) (row_plan c) (row_sku_limit c)
    (Some st) (row_stripe_customer_id c) (row_stripe_subscription_id c).

Inductive SubscribeReply : Type :=
| Subscribed (subscriptionId plan : string)
| SubscribeError (status : Z) (error : string).

(** [!customerId]: no customer id, or an empty one. *)
Definition no_customer (c : option string) : bool := falsy c.

(** [POST /api/billing/subscribe] *)
Definition post_subscribe (stripe : Stripe) (a : BillingAuth) (plan : option string)
  (paymentMethodId : option string) (table : list CompanyRow)
  : list CompanyRow * SubscribeReply :=
  let plan := filter_text plan in
  let company := billing_company a in
  if negb (plan_found plan) then (table, SubscribeError 400 "Invalid plan")
  else
    let failed t := (t, SubscribeError 500 "Failed to create subscription") in
    let created :=
      if no_customer (row_stripe_customer_id company) then
        match customers_create stripe (user_email (billing_user a)) (row_name company)
                (row_id company) with
        | Throw e => Throw e
        | Ok customer =>
            Ok (customer, update_company (billing_companyId a) (set_customer customer) table)
        end
      else Ok (or_default (row_stripe_customer_id company) "", table) in
    match created with
    | Throw _ => failed table
    | Ok (customerId, table1) =>
        let attached :=
          if falsy paymentMethodId then Ok tt
          else
            match paymentMethods_attach stripe (filter_text paymentMethodId) customerId with
            | Throw e => Throw e
            | Ok _ => customers_update stripe customerId (filter_text paymentMethodId)
            end in
        match attached with
        | Throw _ => failed table1
        | Ok _ =>
            let price :=
              match plan_sku_limit plan with
              | Some _ => price_id stripe plan
              | None => None
              end in
            match subscriptions_create stripe customerId price with
            | Throw _ => failed table1
            | Ok subscription =>
                (update_company (billing_companyId a) (set_plan plan subscription) table1,
                 Subscribed subscription plan)
            end
        end
    end.

(** [POST /api/billing/cancel] *)
Definition post_cancel (stripe : Stripe) (a : BillingAuth) (table : list CompanyRow)
  : list CompanyRow * Z :=
  if falsy (row_stripe_subscription_id (billing_company a)) then (table, 400)
  else
    match subscriptions_update stripe
            (or_default (row_stripe_subscription_id (billing_company a)) "") with
    | Throw _ => (table, 500)
    | Ok _ => (update_company (billing_companyId a) (set_status "cancelling") table, 200)
    end.

(** The events of the webhook, once their signature is verified. *)
Inductive StripeEvent : Type :=
| SubscriptionDeleted (subscription : string)
| PaymentFailed (customer : string)
| PaymentSucceeded (customer : string)
| OtherEvent (type : string).

(** [update({ plan: 'trial', sku_limit: 2, plan_status: 'cancelled' })] *)
Definition downgrade (c : CompanyRow) : CompanyRow :=
  mkCompanyRow (row_id c) (row_name c) "trial" 2 (Some "cancelled")
    (row_stripe_customer_id c) (row_stripe_subscription_id c).

Definition text_is (k : string) (v : option string) : bool :=
  match v with
  | Some s => String.eqb s k
  | None => false
  end.

(** [POST /api/billing/webhook]: [event] is the outcome of
    [constructEvent]. *)
Definition post_webhook (event : result StripeEvent) (table : list CompanyRow)
  : list CompanyRow * Z :=
  match event with
  | Throw _ => (table, 400)
  | Ok (SubscriptionDeleted sub) =>
      (map (fun c => if text_is sub (row_stripe_subscription_id c) then downgrade c else c)
           table, 200)
  | Ok (PaymentFailed customer) =>
      (map (fun c => if text_is customer (row_stripe_customer_id c)
                     then set_status "past_due" c else c) table, 200)
  | Ok (PaymentSucceeded customer) =>
      (map (fun c => if text_is customer (row_stripe_customer_id c)
                     then set_status "active" c else c) table, 200)
  | Ok (OtherEvent _) => (table, 200)
  end.

(** How a row stands to its successor after a billing request of company
    [id]: rows of other companies are untouched, and the company's row
    keeps its id. *)
Definition billing_step (id : Id) (P : CompanyRow -> CompanyRow -> Prop)
  (c c' : CompanyRow) : Prop :=
  row_id c' = row_id c /\ (row_id c <> id -> c' = c) /\ (row_id c = id -> P c c').

Definition plan_untouched (c c' : CompanyRow) : Prop :=
  row_plan c' = row_plan c /\ row_sku_limit c' = row_sku_limit c
  /\ row_plan_status c' = row_plan_status c
  /\ row_stripe_subscription_id c' = row_stripe_subscription_id c.

Definition plan_switched (plan sub : string) (c c' : CompanyRow) : Prop :=
  row_plan c' = plan /\ row_plan_status c' = Some "active"
  /\ row_stripe_subscription_id c' = Some sub
  /\ row_sku_limit c'
     = match plan_sku_limit plan with Some l => l | None => row_sku_limit c end.

(** A provider that accepts every call. *)
Definition stripe_ok : Stripe :=
  mkStripe (fun plan => Some ("price_" ++ plan)%string)
    (fun _ _ _ => Ok "cus_1") (fun _ _ => Ok tt) (fun _ _ => Ok tt)
    (fun _ _ => Ok "sub_1") (fun _ => Ok tt).

(** A provider that refuses every call. *)
Definition stripe_down : Stripe :=
  mkStripe (fun plan => Some ("price_" ++ plan)%string)
    (fun _ _ _ => Throw "StripeConnectionError") (fun _ _ => Throw "StripeConnectionError")
    (fun _ _ => Throw "StripeConnectionError") (fun _ _ => Throw "StripeConnectionError")
    (fun _ => Throw "StripeConnectionError").

Definition acme_row : CompanyRow :=
  mkCompanyRow 1%nat "Acme" "trial" 2 (Some "active") None None.

Definition globex_row : CompanyRow :=
  mkCompanyRow 2%nat "Globex" "growth" 25 (Some "active") (Some "cus_9") (Some "sub_9").

(** * Properties *)

(** ** Quota guard *)

Lemma filter_filter {A} (p q : A -> bool) (l : list A) :
  filter q (filter p l) = filter (fun x => p x && q x) l.
Proof.
  induction l as [|x l IH]; [reflexivity|].
  cbn [filter]. destruct (p x); cbn [andb filter]; rewrite IH; reflexivity.
Qed.

Lemma liveCount_filter (c : Id) (db : DB) :
  liveCount c db =
  Z.of_nat (List.length
    (filter (fun s => Nat.eqb (sku_company_id s) c && String.eqb (status s) "live")
            (skus db))).
Proof.
  unfold liveCount, live_skus, Query.count. rewrite filter_filter. reflexivity.
Qed.

Lemma checkSkuLimit_unlimited (a : Auth) (db : DB) :
  company_sku_limit (req_company a) = -1 -> checkSkuLimit a db = None.
Proof. intros H. unfold checkSkuLimit. rewrite H. reflexivity. Qed.

Lemma checkSkuLimit_deny (a : Auth) (db : DB) :
  company_sku_limit (req_company a) <> -1 ->
  company_sku_limit (req_company a) <= liveCount (req_companyId a) db ->
  checkSkuLimit a db =
  Some (mkResponse 403
          (JsonLimit "SKU limit reached"
             (limit_message (company_plan (req_company a))
                (company_sku_limit (req_company a)))
             (liveCount (req_companyId a) db)
             (company_sku_limit (req_company a)))).
Proof.
  intros Hne Hle. unfold checkSkuLimit.
  destruct (Z.eqb_spec (company_sku_limit (req_company a)) (-1)) as [E|_]; [contradiction|].
  cbv zeta. destruct (Z.geb_spec (liveCount (req_companyId a) db)
                        (company_sku_limit (req_company a))); [reflexivity|lia].
Qed.

Lemma checkSkuLimit_allow (a : Auth) (db : DB) :
  liveCount (req_companyId a) db < company_sku_limit (req_company a) ->
  checkSkuLimit a db = None.
Proof.
  intros Hlt. unfold checkSkuLimit.
  destruct (company_sku_limit (req_company a) =? -1); [reflexivity|].
  cbv zeta. destruct (Z.geb_spec (liveCount (req_companyId a) db)
                        (company_sku_limit (req_company a))); [lia|reflexivity].
Qed.

(** C4.  The quota check counts the items of the company whose status is
    [live] and no others; with the limit [-1] it lets every request pass;
    with any other limit it denies exactly when the live count has reached
    the limit, and the 403 response carries that count and the limit. *)
Theorem C4_quota_guard (a : Auth) (db : DB) :
  let cid := req_companyId a in
  let lim := company_sku_limit (req_company a) in
  liveCount cid db =
    Z.of_nat (List.length
      (filter (fun s => Nat.eqb (sku_company_id s) cid && String.eqb (status s) "live")
              (skus db)))
  /\ (lim = -1 -> checkSkuLimit a db = None)
  /\ (lim <> -1 ->
      (lim <= liveCount cid db <-> checkSkuLimit a db <> None)
      /\ (lim <= liveCount cid db ->
          exists msg, checkSkuLimit a db =
            Some (mkResponse 403 (JsonLimit "SKU limit reached" msg (liveCount cid db) lim)))).
Proof.
  cbv zeta. split; [apply liveCount_filter|]. split; [apply checkSkuLimit_unlimited|].
  intros Hne. split.
  - split.
    + intros Hle. rewrite (checkSkuLimit_deny a db Hne Hle). discriminate.
    + intros Hsome.
      destruct (Z.le_gt_cases (company_sku_limit (req_company a))
                  (liveCount (req_companyId a) db)) as [Hle|Hlt]; [exact Hle|].
      exfalso. apply Hsome. apply checkSkuLimit_allow. exact Hlt.
  - intros Hle. eexists. apply checkSkuLimit_deny; assumption.
Qed.


Lemma C4_quota_guard_witness :
  checkSkuLimit (mkAuth QuotaExample.alice QuotaExample.trial) QuotaExample.db
    = Some (mkResponse 403
              (JsonLimit "SKU limit reached"
                 "Your trial plan allows 2 active SKUs. Upgrade to add more." 2 2))
  /\ checkSkuLimit (mkAuth QuotaExample.alice QuotaExample.scale) QuotaExample.db = None.
Proof.
  pose proof (C4_quota_guard (mkAuth QuotaExample.alice QuotaExample.trial) QuotaExample.db)
    as [_ [_ H]].
  pose proof (C4_quota_guard (mkAuth QuotaExample.alice QuotaExample.scale) QuotaExample.db)
    as [_ [H' _]].
  split.
  - destruct (H ltac:(discriminate)) as [_ Hd].
    destruct (Hd ltac:(vm_compute; discriminate)) as [msg Hmsg].
    reflexivity.
  - apply H'. reflexivity.
Defined.

(** ** Status reader *)

Lemma filter_none {A} (p : A -> bool) (l : list A) :
  (forall x, In x l -> p x = false) -> filter p l = [].
Proof.
  induction l as [|x l IH]; intros H; [reflexivity|].
  cbn [filter]. rewrite (H x (or_introl eq_refl)). apply IH.
  intros y Hy. apply H. right. exact Hy.
Qed.

(** C6.  A status poll for an id under which the caller's company owns no
    item is answered 404 with the fixed body [SKU not found], whether the
    id is unknown or names an item of another company; the answer is the
    one given by the store from which every item with that id has been
    removed. *)
Theorem C6_status_not_found (a : Auth) (id : Id) (db : DB) :
  (forall s, In s (skus db) -> sku_id s = id -> sku_company_id s <> req_companyId a) ->
  getStatus a id db = mkResponse 404 (JsonError "SKU not found")
  /\ getStatus a id db =
     getStatus a id (set_skus (filter (fun s => negb (Nat.eqb (sku_id s) id)) (skus db)) db).
Proof.
  intros H.
  assert (E1 : getStatus a id db = mkResponse 404 (JsonError "SKU not found")).
  { unfold getStatus. rewrite filter_none; [reflexivity|].
    intros s Hs. destruct (Nat.eqb_spec (sku_id s) id) as [E|_]; [|reflexivity].
    cbn [andb]. apply Nat.eqb_neq. apply H; assumption. }
  split; [exact E1|]. rewrite E1. symmetry.
  unfold getStatus, set_skus. cbn [skus]. rewrite filter_none; [reflexivity|].
  intros s Hs. apply filter_In in Hs. destruct Hs as [_ Hs].
  destruct (Nat.eqb (sku_id s) id); [discriminate|reflexivity].
Qed.

Lemma C6_status_not_found_witness :
  let bob := mkAuth (mkUser 11%nat 2%nat "bob@other.test") (mkCompany 2%nat "Other" "trial" 2) in
  getStatus bob 1%nat QuotaExample.db = mkResponse 404 (JsonError "SKU not found")
  /\ getStatus bob 99%nat QuotaExample.db = mkResponse 404 (JsonError "SKU not found")
  /\ code (getStatus (mkAuth QuotaExample.alice QuotaExample.trial) 1%nat QuotaExample.db) = 200.
Proof.
  cbv zeta. split; [|split].
  - apply (C6_status_not_found (mkAuth (mkUser 11%nat 2%nat "bob@other.test")
                                  (mkCompany 2%nat "Other" "trial" 2)) 1%nat QuotaExample.db).
    intros s Hs E. cbn in Hs.
    repeat (destruct Hs as [Hs|Hs]; [subst s; cbn in *; try discriminate; try lia|]);
      try contradiction.
  - apply (C6_status_not_found (mkAuth (mkUser 11%nat 2%nat "bob@other.test")
                                  (mkCompany 2%nat "Other" "trial" 2)) 99%nat QuotaExample.db).
    intros s Hs E. cbn in Hs.
    repeat (destruct Hs as [Hs|Hs]; [subst s; cbn in *; try discriminate; try lia|]);
      try contradiction.
  - reflexivity.
Defined.

(** ** The pipeline *)


(** The pipeline, stage by stage. *)
Lemma processSkuGeneration_eq (svc : Services) (sku : Sku) (user : User)
  (file : File) (db : DB) :
  processSkuGeneration svc sku user file db =
  match svc_parseSteps svc (file_path file) with
  | Throw e => (db, Throw e)
  | Ok steps =>
      match svc_generateQRCode svc (sku_id sku) (sku_code sku) with
      | Throw e => (db, Throw e)
      | Ok qr =>
          let v := Video.generateVideo (sku_id sku) (sku_code sku) (product_name sku) steps in
          let db1 := commit_db sku v qr db in
          if wants_email (read_prefs user db) then
            (db1, svc_sendQRReadyEmail svc
                    (mkEmail (user_email user) (product_name sku) (sku_code sku)
                       (fst qr) (snd qr)))
          else (db1, Ok tt)
      end
  end.
Proof.
  unfold processSkuGeneration, bind, call, modify, gets, ret.
  destruct (svc_parseSteps svc (file_path file)) as [steps|e]; [|reflexivity].
  destruct (svc_generateQRCode svc (sku_id sku) (sku_code sku)) as [qr|e]; [|reflexivity].
  cbv zeta. unfold commit_db, read_prefs, set_skus. cbn [notification_preferences].
  destruct (wants_email _); reflexivity.
Qed.

(** A run that returns has committed. *)
Lemma processSkuGeneration_ok (svc : Services) (sku : Sku) (user : User)
  (file : File) (db db' : DB) (u : unit) :
  processSkuGeneration svc sku user file db = (db', Ok u) ->
  exists steps qr,
    svc_parseSteps svc (file_path file) = Ok steps
    /\ svc_generateQRCode svc (sku_id sku) (sku_code sku) = Ok qr
    /\ db' = commit_db sku
               (Video.generateVideo (sku_id sku) (sku_code sku) (product_name sku) steps)
               qr db.
Proof.
  rewrite processSkuGeneration_eq.
  destruct (svc_parseSteps svc (file_path file)) as [steps|e]; [|discriminate].
  destruct (svc_generateQRCode svc (sku_id sku) (sku_code sku)) as [qr|e]; [|discriminate].
  cbv zeta. intros H. exists steps, qr. split; [reflexivity|]. split; [reflexivity|].
  destruct (wants_email _); inversion H; reflexivity.
Qed.

Lemma In_update_sku_by_id (id : Id) (f : Sku -> Sku) (l : list Sku) (s' : Sku) :
  In s' (Query.update_sku_by_id id f l) ->
  exists s, In s l /\ s' = (if Nat.eqb (sku_id s) id then f s else s).
Proof.
  unfold Query.update_sku_by_id. intros H. apply in_map_iff in H.
  destruct H as [s [E Hs]]. exists s. split; [exact Hs|]. symmetry. exact E.
Qed.

Lemma generateVideo_duration (id : Id) (k n : string) (steps : list Video.Step) :
  Video.videoDuration (Video.generateVideo id k n steps)
    = Z.of_nat (List.length steps) * 38
  /\ Video.stepCount (Video.generateVideo id k n steps) = Z.of_nat (List.length steps).
Proof. split; reflexivity. Qed.

(** C5.  When extraction yields [N >= 1] steps and the pipeline run
    returns, the row of the item is still in the table and every row with
    its id is live with step count [N] and duration [38 * N], a positive
    integer; and the duration computed for a longer list of steps is
    strictly larger. *)
Theorem C5_step_count_and_duration (svc : Services) (sku : Sku) (user : User)
  (file : File) (db db' : DB) (steps : list Video.Step) :
  svc_parseSteps svc (file_path file) = Ok steps ->
  (1 <= List.length steps)%nat ->
  processSkuGeneration svc sku user file db = (db', Ok tt) ->
  let N := Z.of_nat (List.length steps) in
  (forall s, In s (skus db) -> sku_id s = sku_id sku ->
     exists s', In s' (skus db') /\ sku_id s' = sku_id sku)
  /\ (forall s', In s' (skus db') -> sku_id s' = sku_id sku ->
        status s' = "live" /\ step_count s' = Some N
        /\ video_duration s' = Some (N * 38) /\ 0 < N * 38)
  /\ (forall id k n steps2,
        (List.length steps < List.length steps2)%nat ->
        Video.videoDuration (Video.generateVideo id k n steps)
          < Video.videoDuration (Video.generateVideo id k n steps2)).
Proof.
  intros Hparse HN Hrun N.
  destruct (processSkuGeneration_ok _ _ _ _ _ _ _ Hrun) as [steps' [qr [Hp [_ Hdb]]]].
  rewrite Hparse in Hp. inversion Hp; subst steps'. clear Hp.
  split; [|split].
  - intros s Hs Hid. exists (commit_live
      (Video.generateVideo (sku_id sku) (sku_code sku) (product_name sku) steps) qr s).
    split; [|exact Hid]. rewrite Hdb. unfold commit_db, set_skus. cbn [skus].
    unfold Query.update_sku_by_id. apply in_map_iff. exists s. split; [|exact Hs].
    rewrite Hid, Nat.eqb_refl. reflexivity.
  - intros s' Hs' Hid. rewrite Hdb in Hs'. unfold commit_db, set_skus in Hs'. cbn [skus] in Hs'.
    apply In_update_sku_by_id in Hs'. destruct Hs' as [s [Hs E]].
    destruct (Nat.eqb_spec (sku_id s) (sku_id sku)) as [Eid|Nid].
    + subst s'. cbn. repeat split. unfold N. lia.
    + subst s'. contradiction.
  - intros id k n steps2 Hlt. cbn. lia.
Qed.


Lemma C5_step_count_and_duration_witness :
  let db := mkDB [Demo.fresh] [] [] [] 1%nat in
  let run := processSkuGeneration Demo.all_up Demo.fresh Demo.alice Demo.manual db in
  snd run = Ok tt
  /\ forall s', In s' (skus (fst run)) -> sku_id s' = 0%nat ->
       status s' = "live" /\ step_count s' = Some 6 /\ video_duration s' = Some 228.
Proof.
  cbv zeta. split; [vm_compute; reflexivity|].
  intros s' Hs' Hid.
  pose proof (C5_step_count_and_duration Demo.all_up Demo.fresh Demo.alice Demo.manual
                (mkDB [Demo.fresh] [] [] [] 1%nat)
                (fst (processSkuGeneration Demo.all_up Demo.fresh Demo.alice Demo.manual
                        (mkDB [Demo.fresh] [] [] [] 1%nat)))
                (Video.parseSteps "uploads/3f0c.pdf")
                eq_refl ltac:(cbn; lia) ltac:(vm_compute; reflexivity)) as [_ [H _]].
  destruct (H s' Hs' Hid) as [H1 [H2 [H3 _]]].
  split; [exact H1|]. split; [exact H2|exact H3].
Defined.

(** ** Status and derived fields *)


Lemma consistent_commit_live v qr s : consistent (commit_live v qr s).
Proof. left. cbn. repeat split; discriminate. Qed.

Lemma consistent_mark_error s : derived_unset s -> consistent (mark_error s).
Proof. intros H. right. split; [right; reflexivity|exact H]. Qed.

Lemma Forall_update_sku_by_id (P : Sku -> Prop) id f l :
  Forall P l ->
  (forall s, In s l -> sku_id s = id -> P (f s)) ->
  Forall P (Query.update_sku_by_id id f l).
Proof.
  intros HP Hf. apply Forall_forall. intros s' Hs'.
  apply In_update_sku_by_id in Hs'. destruct Hs' as [s [Hs E]]. subst s'.
  destruct (Nat.eqb_spec (sku_id s) id) as [Eid|_].
  - apply Hf; assumption.
  - rewrite Forall_forall in HP. apply HP. exact Hs.
Qed.

Lemma sku_id_update_sku_by_id (P : Id -> Prop) id f l :
  (forall s, sku_id (f s) = sku_id s) ->
  Forall (fun s => P (sku_id s)) l ->
  Forall (fun s => P (sku_id s)) (Query.update_sku_by_id id f l).
Proof.
  intros Hid HP. apply Forall_update_sku_by_id; [exact HP|].
  intros s Hs _. rewrite Hid. rewrite Forall_forall in HP. apply HP. exact Hs.
Qed.

(** The background task keeps the invariant when the rows it writes are
    fresh ones and the mail goes out. *)
Lemma background_Inv svc sku user file db :
  (forall e, svc_sendQRReadyEmail svc e = Ok tt) ->
  Inv db ->
  (forall s, In s (skus db) -> sku_id s = sku_id sku -> derived_unset s) ->
  Inv (background svc sku user file db).
Proof.
  intros Hmail [Hc Hid] Hfresh.
  assert (Herr : Inv (set_skus (Query.update_sku_by_id (sku_id sku) mark_error (skus db)) db)).
  { split; cbn [set_skus skus next_id].
    - apply Forall_update_sku_by_id; [exact Hc|].
      intros s Hs E. apply consistent_mark_error. apply Hfresh; assumption.
    - apply (sku_id_update_sku_by_id (fun i => (i < next_id db)%nat));
        [reflexivity|exact Hid]. }
  unfold background. rewrite processSkuGeneration_eq.
  destruct (svc_parseSteps svc (file_path file)) as [steps|e]; [|exact Herr].
  destruct (svc_generateQRCode svc (sku_id sku) (sku_code sku)) as [qr|e]; [|exact Herr].
  cbv zeta.
  assert (Hlive : Inv (commit_db sku
            (Video.generateVideo (sku_id sku) (sku_code sku) (product_name sku) steps) qr db)).
  { split; cbn [commit_db set_skus skus next_id].
    - apply Forall_update_sku_by_id; [exact Hc|].
      intros s _ _. apply consistent_commit_live.
    - apply (sku_id_update_sku_by_id (fun i => (i < next_id db)%nat));
        [reflexivity|exact Hid]. }
  destruct (wants_email _); [|exact Hlive].
  rewrite Hmail. exact Hlive.
Qed.

(** The request is answered without a write and with a status other than 202. *)
Ltac rejected := left; eexists; split; [reflexivity|cbn; discriminate].

Lemma post_skus_cases r db :
  (exists resp, post_skus r db = (db, resp, None) /\ code resp <> 202)
  \/ exists k name cat furl file,
       let row := mkSku (next_id db) (req_companyId (create_auth r)) k name cat
                    "processing" (Some furl) None None None None None in
       existsb (same_code (req_companyId (create_auth r)) k) (skus db) = false
       /\ create_file r = Some file
       /\ k = or_default (create_skuCode r) ""
       /\ post_skus r db =
          (mkDB (skus db ++ [row]) (scans db) (questions db)
                (notification_preferences db) (S (next_id db)),
           mkResponse 202
             (JsonCreated "SKU created — generating video and QR code"
                (next_id db) k name "processing"),
           Some (mkJob row (req_user (create_auth r)) file)).
Proof.
  unfold post_skus, checkSkuLimit.
  destruct (company_sku_limit (req_company (create_auth r)) =? -1);
    [|cbv zeta; destruct (_ >=? _); [rejected|]];
    unfold create_handler;
    (destruct (falsy (create_skuCode r) || falsy (create_productName r)); [rejected|]);
    (destruct (create_file r) as [file|]; [|rejected]);
    cbv zeta;
    (destruct (Query.single _); [rejected|]);
    unfold insert_sku;
    (destruct (existsb _ (skus db)) eqn:Ex; [rejected|]);
    right; do 5 eexists; cbv zeta; (split; [exact Ex|]);
    (split; [reflexivity|]); split; reflexivity.
Qed.

Lemma submit_Inv svc r db :
  (forall e, svc_sendQRReadyEmail svc e = Ok tt) ->
  Inv db -> Inv (fst (submit svc r db)).
Proof.
  intros Hmail HI. unfold submit.
  destruct (post_skus_cases r db) as [[resp [E _]]|[k [name [cat [furl [file [Ex [_ [_ E]]]]]]]]].
  - rewrite E. exact HI.
  - cbv zeta in E. rewrite E. cbn [fst job_sku job_user job_file].
    destruct HI as [Hc Hid].
    apply background_Inv; [exact Hmail| |].
    + split; cbn [skus next_id].
      * apply Forall_app. split; [exact Hc|].
        constructor; [|constructor]. right. split; [left; reflexivity|].
        repeat split.
      * apply Forall_app. split.
        -- eapply Forall_impl; [|exact Hid]. cbn. intros; lia.
        -- constructor; [cbn; lia|constructor].
    + cbn [skus sku_id]. intros s Hs Es. apply in_app_or in Hs.
      destruct Hs as [Hs|[Hs|[]]].
      * rewrite Forall_forall in Hid. specialize (Hid s Hs). lia.
      * subst s. repeat split.
Qed.

Lemma apply_op_Inv db o : mail_delivers o -> Inv db -> Inv (apply_op db o).
Proof.
  intros Hm HI. destruct o as [svc r|zone now r|r|now r|a id]; cbn [apply_op].
  - apply submit_Inv; assumption.
  - unfold post_scan. destruct (falsy _); [exact HI|].
    destruct (lookup_live _ db); [|exact HI].
    destruct HI as [Hc Hid]. split; cbn [fst skus next_id]; [exact Hc|].
    eapply Forall_impl; [|exact Hid]. cbn. intros; lia.
  - unfold post_complete. destruct (lookup_code _ db); exact HI.
  - unfold post_question. destruct (_ || _); [exact HI|].
    destruct (lookup_code _ db); [|exact HI].
    destruct HI as [Hc Hid]. split; cbn [fst skus next_id]; [exact Hc|].
    eapply Forall_impl; [|exact Hid]. cbn. intros; lia.
  - destruct HI as [Hc Hid]. rewrite Forall_forall in Hc, Hid.
    split; cbn [delete_sku fst skus next_id]; apply Forall_forall; intros s Hs;
      apply filter_In in Hs; destruct Hs as [Hs _]; auto.
Qed.

(** As long as every ready mail is delivered, every item of every store
    reached from the empty one is consistent. *)
Lemma consistent_while_mail_delivers (ops : list Op) :
  Forall mail_delivers ops ->
  Forall consistent (skus (fold_left apply_op ops (mkDB [] [] [] [] 0%nat))).
Proof.
  intros H.
  assert (G : forall db, Inv db -> Inv (fold_left apply_op ops db)).
  { induction H as [|o ops Ho _ IH]; intros db HI; [exact HI|].
    cbn [fold_left]. apply IH. apply apply_op_Inv; assumption. }
  apply G. split; constructor.
Qed.

(** What the background task leaves behind when the ready mail throws: the
    committed row, with its status overwritten. *)
Lemma background_mail_throws svc sku user file db steps qr e :
  svc_parseSteps svc (file_path file) = Ok steps ->
  svc_generateQRCode svc (sku_id sku) (sku_code sku) = Ok qr ->
  wants_email (read_prefs user db) = true ->
  svc_sendQRReadyEmail svc
    (mkEmail (user_email user) (product_name sku) (sku_code sku) (fst qr) (snd qr))
    = Throw e ->
  let live := commit_db sku
                (Video.generateVideo (sku_id sku) (sku_code sku) (product_name sku) steps)
                qr db in
  processSkuGeneration svc sku user file db = (live, Throw e)
  /\ background svc sku user file db
     = set_skus (Query.update_sku_by_id (sku_id sku) mark_error (skus live)) live.
Proof.
  intros Hp Hq Hw He. cbv zeta. unfold background.
  rewrite processSkuGeneration_eq, Hp, Hq. cbv zeta. rewrite Hw, He.
  split; reflexivity.
Qed.

(** C1.  The invariant fails where the ready mail cannot be delivered:
    Acme's first upload is committed live with all derived fields, the
    mail transport then throws, the handler of the background task
    overwrites the status, and the item ends in status [error] with every
    derived field still set. *)
Theorem C1_error_item_keeps_derived_fields :
  let db := fst (submit Demo.mail_down (Demo.upload Demo.alice Demo.acme "KALLAX")
                   Demo.empty) in
  skus db =
    [ mkSku 0%nat 1%nat "KALLAX" "Kallax shelf" "Other" "error"
        (Some "/uploads/3f0c.pdf")
        (Some "https://storage.assemblyai.app/videos/0/assembly.mp4")
        (Some "/public/qr/KALLAX.png") (Some "https://assemblyai.app/s/KALLAX")
        (Some 6) (Some 228) ]
  /\ Exists (fun s => ~ consistent s) (skus db).
Proof.
  cbv zeta.
  assert (E : skus (fst (submit Demo.mail_down
                           (Demo.upload Demo.alice Demo.acme "KALLAX") Demo.empty)) =
    [ mkSku 0%nat 1%nat "KALLAX" "Kallax shelf" "Other" "error"
        (Some "/uploads/3f0c.pdf")
        (Some "https://storage.assemblyai.app/videos/0/assembly.mp4")
        (Some "/public/qr/KALLAX.png") (Some "https://assemblyai.app/s/KALLAX")
        (Some 6) (Some 228) ]) by (vm_compute; reflexivity).
  split; [exact E|]. rewrite E. constructor.
  intros [[H _]|[_ [H _]]]; discriminate H.
Qed.

(** C2.  A failure of the ready mail does change the status: after Acme's
    upload the pipeline commits the row as [live] and then throws from the
    mail transport; the handler of the background task answers that throw
    by writing status [error], so the item does not stay live. *)
Theorem C2_mail_failure_overwrites_live :
  let db1 := mkDB [Demo.fresh] [] [] [] 1%nat in
  fst (post_skus (Demo.upload Demo.alice Demo.acme "KALLAX") Demo.empty)
    = (db1, mkResponse 202
              (JsonCreated "SKU created — generating video and QR code"
                 0%nat "KALLAX" "Kallax shelf" "processing"))
  /\ snd (post_skus (Demo.upload Demo.alice Demo.acme "KALLAX") Demo.empty)
     = Some (mkJob Demo.fresh Demo.alice Demo.manual)
  /\ snd (processSkuGeneration Demo.mail_down Demo.fresh Demo.alice Demo.manual db1)
     = Throw "connect ECONNREFUSED"
  /\ map status
       (skus (fst (processSkuGeneration Demo.mail_down Demo.fresh Demo.alice
                     Demo.manual db1))) = ["live"]
  /\ map status (skus (background Demo.mail_down Demo.fresh Demo.alice Demo.manual db1))
     = ["error"].
Proof.
  cbv zeta. repeat split; vm_compute; reflexivity.
Qed.

(** ** Codes are unique per company *)

Lemma same_code_true c k s :
  same_code c k s = true <-> sku_company_id s = c /\ sku_code s = k.
Proof.
  unfold same_code. rewrite andb_true_iff, Nat.eqb_eq, String.eqb_eq. reflexivity.
Qed.

Lemma same_code_key c k s : same_code c k s = true <-> sku_key s = (c, k).
Proof.
  rewrite same_code_true. unfold sku_key. split.
  - intros [E1 E2]. subst. reflexivity.
  - intros E. inversion E. split; reflexivity.
Qed.

(** Under the table constraint, the duplicate check finds the one row that
    carries the company's code. *)
Lemma filter_same_code_unique c k l s :
  NoDup (map sku_key l) -> In s l -> same_code c k s = true ->
  filter (same_code c k) l = [s].
Proof.
  induction l as [|x l IH]; intros Hnd Hin Hs; [contradiction|].
  cbn [map] in Hnd. inversion Hnd as [|? ? Hx Hnd']; subst.
  cbn [filter]. destruct (same_code c k x) eqn:Ex.
  - assert (Hrest : filter (same_code c k) l = []).
    { apply filter_none. intros y Hy. destruct (same_code c k y) eqn:Ey; [|reflexivity].
      exfalso. apply Hx. apply same_code_key in Ex. apply same_code_key in Ey.
      rewrite Ex, <- Ey. apply in_map. exact Hy. }
    rewrite Hrest. destruct Hin as [E|Hin]; [subst; reflexivity|].
    exfalso. apply Hx. apply same_code_key in Ex. apply same_code_key in Hs.
    rewrite Ex, <- Hs. apply in_map. exact Hin.
  - destruct Hin as [E|Hin]; [subst; congruence|]. apply IH; assumption.
Qed.

Lemma falsy_some k : k <> "" -> falsy (Some k) = false.
Proof. intros H. cbn. apply String.eqb_neq. exact H. Qed.

Lemma or_default_some k d : k <> "" -> or_default (Some k) d = k.
Proof. intros H. cbn. apply String.eqb_neq in H. rewrite H. reflexivity. Qed.

Lemma post_skus_conflict r db k name file s :
  unique_codes db ->
  checkSkuLimit (create_auth r) db = None ->
  create_skuCode r = Some k -> k <> "" ->
  create_productName r = Some name -> name <> "" ->
  create_file r = Some file ->
  In s (skus db) -> sku_company_id s = req_companyId (create_auth r) -> sku_code s = k ->
  post_skus r db =
    (db, mkResponse 409 (JsonError ("SKU code " ++ dquote ++ k ++ dquote ++ " already exists")),
     None).
Proof.
  intros Hu Hq Hk Hk0 Hn Hn0 Hf Hs Hc Hcode.
  unfold post_skus. rewrite Hq. unfold create_handler.
  rewrite Hk, Hn, Hf, (falsy_some k Hk0), (falsy_some name Hn0). cbn [orb].
  cbv zeta. rewrite (or_default_some k _ Hk0).
  rewrite (filter_same_code_unique _ _ _ s Hu Hs); [reflexivity|].
  apply same_code_true. split; assumption.
Qed.

Lemma post_skus_accept r db k name file :
  checkSkuLimit (create_auth r) db = None ->
  create_skuCode r = Some k -> k <> "" ->
  create_productName r = Some name -> name <> "" ->
  create_file r = Some file ->
  (forall s, In s (skus db) -> sku_company_id s = req_companyId (create_auth r) ->
             sku_code s <> k) ->
  let row := mkSku (next_id db) (req_companyId (create_auth r)) k name
               (or_default (create_category r) "Other") "processing"
               (Some ("/uploads/" ++ file_filename file)%string) None None None None None in
  post_skus r db =
    (mkDB (skus db ++ [row]) (scans db) (questions db)
          (notification_preferences db) (S (next_id db)),
     mkResponse 202
       (JsonCreated "SKU created — generating video and QR code"
          (next_id db) k name "processing"),
     Some (mkJob row (req_user (create_auth r)) file)).
Proof.
  intros Hq Hk Hk0 Hn Hn0 Hf Hnone. cbv zeta.
  assert (Hp : forall s, In s (skus db) ->
                 same_code (req_companyId (create_auth r)) k s = false).
  { intros s Hs. destruct (same_code _ k s) eqn:E; [|reflexivity].
    apply same_code_true in E. destruct E as [E1 E2]. exfalso.
    exact (Hnone s Hs E1 E2). }
  unfold post_skus. rewrite Hq. unfold create_handler.
  rewrite Hk, Hn, Hf, (falsy_some k Hk0), (falsy_some name Hn0). cbn [orb].
  cbv zeta. rewrite (or_default_some k _ Hk0), (or_default_some name _ Hn0).
  rewrite (filter_none _ _ Hp). cbn [Query.single]. unfold insert_sku.
  assert (Ex : existsb (same_code (req_companyId (create_auth r)) k) (skus db) = false).
  { destruct (existsb _ (skus db)) eqn:E; [|reflexivity].
    apply existsb_exists in E. destruct E as [s [Hs E]]. rewrite (Hp s Hs) in E.
    discriminate. }
  rewrite Ex. reflexivity.
Qed.

(** A row that is not live does not count against the quota. *)
Lemma checkSkuLimit_app_not_live a db row sc qs ps n :
  is_live row = false ->
  checkSkuLimit a (mkDB (skus db ++ [row]) sc qs ps n) = checkSkuLimit a db.
Proof.
  intros Hrow. unfold checkSkuLimit, liveCount, live_skus. cbn [skus].
  rewrite !filter_app. cbn [filter]. destruct (of_company _ row); cbn [filter];
    [rewrite Hrow|]; rewrite app_nil_r; reflexivity.
Qed.

(** C8.  Within a store that respects the constraint on
    [(company_id, sku_code)], a well-formed submission that passes the
    quota check and reuses a code of the caller's company is answered 409
    and changes nothing; whatever else the request looks like, a
    submission reusing such a code is never accepted and never changes the
    store; and two well-formed submissions of one code by two different
    companies, neither of which holds that code, are both answered 202 and
    both rows are created. *)
Theorem C8_duplicate_code :
  (forall r db k name file s,
     unique_codes db ->
     checkSkuLimit (create_auth r) db = None ->
     create_skuCode r = Some k -> k <> "" ->
     create_productName r = Some name -> name <> "" ->
     create_file r = Some file ->
     In s (skus db) -> sku_company_id s = req_companyId (create_auth r) ->
     sku_code s = k ->
     exists msg, post_skus r db = (db, mkResponse 409 (JsonError msg), None))
  /\ (forall r db s,
        In s (skus db) -> sku_company_id s = req_companyId (create_auth r) ->
        create_skuCode r = Some (sku_code s) ->
        exists resp, post_skus r db = (db, resp, None) /\ code resp <> 202)
  /\ (forall r1 r2 db k n1 n2 f1 f2,
        req_companyId (create_auth r1) <> req_companyId (create_auth r2) ->
        k <> "" ->
        create_skuCode r1 = Some k -> create_skuCode r2 = Some k ->
        create_productName r1 = Some n1 -> n1 <> "" ->
        create_productName r2 = Some n2 -> n2 <> "" ->
        create_file r1 = Some f1 -> create_file r2 = Some f2 ->
        checkSkuLimit (create_auth r1) db = None ->
        checkSkuLimit (create_auth r2) db = None ->
        (forall s, In s (skus db) -> sku_code s <> k) ->
        exists db1 db2 resp1 resp2 j1 j2,
          post_skus r1 db = (db1, resp1, Some j1) /\ code resp1 = 202
          /\ post_skus r2 db1 = (db2, resp2, Some j2) /\ code resp2 = 202
          /\ In (job_sku j1) (skus db2) /\ In (job_sku j2) (skus db2)
          /\ sku_key (job_sku j1) = (req_companyId (create_auth r1), k)
          /\ sku_key (job_sku j2) = (req_companyId (create_auth r2), k)).
Proof.
  split; [|split].
  - intros r db k name file s Hu Hq Hk Hk0 Hn Hn0 Hf Hs Hc Hcode. eexists.
    eapply post_skus_conflict; eassumption.
  - intros r db s Hs Hc Hk.
    destruct (post_skus_cases r db) as [H|[k [name [cat [furl [file [Ex [_ [Ek _]]]]]]]]];
      [exact H|].
    exfalso. rewrite Hk in Ek.
    assert (Ek' : k = sku_code s).
    { rewrite Ek. cbn. destruct (String.eqb_spec (sku_code s) ""); congruence. }
    assert (Hin : existsb (same_code (req_companyId (create_auth r)) k) (skus db) = true).
    { apply existsb_exists. exists s. split; [exact Hs|]. apply same_code_true.
      split; [exact Hc|]. symmetry. exact Ek'. }
    congruence.
  - intros r1 r2 db k n1 n2 f1 f2 Hne Hk0 Hk1 Hk2 Hn1 Hn10 Hn2 Hn20 Hf1 Hf2 Hq1 Hq2 Hfree.
    pose proof (post_skus_accept r1 db k n1 f1 Hq1 Hk1 Hk0 Hn1 Hn10 Hf1
                  (fun s Hs _ => Hfree s Hs)) as E1.
    cbv zeta in E1.
    do 6 eexists. split; [exact E1|]. split; [reflexivity|].
    match type of E1 with _ = (?d, _, _) => set (db1 := d) in * end.
    assert (Hq2' : checkSkuLimit (create_auth r2) db1 = None).
    { unfold db1. rewrite checkSkuLimit_app_not_live; [exact Hq2|reflexivity]. }
    assert (Hfree2 : forall s, In s (skus db1) ->
              sku_company_id s = req_companyId (create_auth r2) -> sku_code s <> k).
    { unfold db1. cbn [skus]. intros s Hs Hc. apply in_app_or in Hs.
      destruct Hs as [Hs|[Hs|[]]]; [exact (Hfree s Hs)|].
      subst s. cbn in Hc. congruence. }
    pose proof (post_skus_accept r2 db1 k n2 f2 Hq2' Hk2 Hk0 Hn2 Hn20 Hf2 Hfree2) as E2.
    cbv zeta in E2. split; [exact E2|]. split; [reflexivity|].
    cbn [job_sku skus]. unfold db1. cbn [skus].
    split; [apply in_or_app; left; apply in_or_app; right; left; reflexivity|].
    split; [apply in_or_app; right; left; reflexivity|].
    split; reflexivity.
Qed.

Lemma C8_duplicate_code_witness :
  let db1 := mkDB [Demo.fresh] [] [] [] 1%nat in
  (exists msg,
     post_skus (Demo.upload Demo.alice Demo.acme "KALLAX") db1
       = (db1, mkResponse 409 (JsonError msg), None))
  /\ (exists db2 db3 resp1 resp2 j1 j2,
        post_skus (Demo.upload Demo.alice Demo.acme "KALLAX") Demo.empty
          = (db2, resp1, Some j1) /\ code resp1 = 202
        /\ post_skus (Demo.upload Demo.bob Demo.globex "KALLAX") db2
          = (db3, resp2, Some j2) /\ code resp2 = 202
        /\ In (job_sku j1) (skus db3) /\ In (job_sku j2) (skus db3)
        /\ sku_key (job_sku j1) = (1%nat, "KALLAX")
        /\ sku_key (job_sku j2) = (2%nat, "KALLAX")).
Proof.
  cbv zeta. destruct C8_duplicate_code as [H1 [_ H3]]. split.
  - apply (H1 (Demo.upload Demo.alice Demo.acme "KALLAX")
              (mkDB [Demo.fresh] [] [] [] 1%nat) "KALLAX" "Kallax shelf" Demo.manual
              Demo.fresh).
    + unfold unique_codes. cbn. constructor; [intros []|constructor].
    + reflexivity.
    + reflexivity.
    + discriminate.
    + reflexivity.
    + discriminate.
    + reflexivity.
    + left. reflexivity.
    + reflexivity.
    + reflexivity.
  - apply (H3 (Demo.upload Demo.alice Demo.acme "KALLAX")
              (Demo.upload Demo.bob Demo.globex "KALLAX") Demo.empty "KALLAX"
              "Kallax shelf" "Kallax shelf" Demo.manual Demo.manual).
    + cbn. lia.
    + discriminate.
    + reflexivity.
    + reflexivity.
    + reflexivity.
    + discriminate.
    + reflexivity.
    + discriminate.
    + reflexivity.
    + reflexivity.
    + reflexivity.
    + reflexivity.
    + intros s [].
Defined.

(** ** Public lookups by code *)

Lemma single_two {A} (l : list A) (a b : A) :
  In a l -> In b l -> a <> b -> Query.single l = None.
Proof.
  intros Ha Hb Hab. destruct l as [|x [|y t]]; [contradiction| |reflexivity].
  exfalso. destruct Ha as [Ha|[]]. destruct Hb as [Hb|[]]. congruence.
Qed.

Lemma single_inv {A} (l : list A) (a : A) : Query.single l = Some a -> l = [a].
Proof.
  destruct l as [|x [|y t]]; cbn; intros H; inversion H; reflexivity.
Qed.

Lemma lookup_shared_code db s1 s2 k :
  In s1 (skus db) -> In s2 (skus db) -> s1 <> s2 ->
  sku_code s1 = k -> sku_code s2 = k ->
  status s1 = "live" -> status s2 = "live" ->
  lookup_live k db = None /\ lookup_code k db = None.
Proof.
  intros H1 H2 Hne E1 E2 L1 L2.
  assert (C1 : has_code k s1 = true) by (apply String.eqb_eq; exact E1).
  assert (C2 : has_code k s2 = true) by (apply String.eqb_eq; exact E2).
  assert (V1 : is_live s1 = true) by (apply String.eqb_eq; exact L1).
  assert (V2 : is_live s2 = true) by (apply String.eqb_eq; exact L2).
  split.
  - unfold lookup_live. apply (single_two _ s1 s2); [| |exact Hne];
      apply filter_In; (split; [apply filter_In; split; assumption|assumption]).
  - unfold lookup_code. apply (single_two _ s1 s2); [| |exact Hne];
      apply filter_In; split; assumption.
Qed.

(** C9.  The four public routes resolve a code over the whole [skus] table
    with a single-row query: the lookups take the code and the store and no
    company.  So in every store in which two different companies each own
    a live item under one code, the scan, completion and question
    recordings and the consumer page all answer 404 for that code and
    write nothing. *)
Theorem C9_shared_code_not_found (zone : Date.Zone) (now : Z) (db : DB) (s1 s2 : Sku) (k : string) :
  In s1 (skus db) -> In s2 (skus db) ->
  sku_company_id s1 <> sku_company_id s2 ->
  sku_code s1 = k -> sku_code s2 = k -> k <> "" ->
  status s1 = "live" -> status s2 = "live" ->
  (forall session agent,
     post_scan zone now (mkScanReq (Some k) session agent) db = (db, not_found))
  /\ (forall session step rate,
        post_complete (mkCompleteReq (Some k) session step rate) db = (db, not_found))
  /\ (forall session text step, falsy text = false ->
        post_question now (mkQuestionReq (Some k) session text step) db
          = (db, not_found))
  /\ get_guide k db = mkResponse 404 HtmlNotFound.
Proof.
  intros H1 H2 Hc E1 E2 Hk L1 L2.
  assert (Hne : s1 <> s2) by congruence.
  destruct (lookup_shared_code db s1 s2 k H1 H2 Hne E1 E2 L1 L2) as [Hl Hc'].
  split; [|split; [|split]].
  - intros session agent. unfold post_scan. cbn [scanreq_skuCode filter_text].
    rewrite (falsy_some k Hk), Hl. reflexivity.
  - intros session step rate. unfold post_complete. cbn [complete_skuCode filter_text].
    rewrite Hc'. reflexivity.
  - intros session text step Ht. unfold post_question.
    cbn [questionreq_skuCode questionreq_questionText filter_text].
    rewrite (falsy_some k Hk), Ht, Hc'. reflexivity.
  - unfold get_guide. rewrite Hl. reflexivity.
Qed.

Lemma Demo_shared_skus :
  skus Demo.shared =
  [ mkSku 0%nat 1%nat "KALLAX" "Kallax shelf" "Other" "live"
      (Some "/uploads/3f0c.pdf")
      (Some "https://storage.assemblyai.app/videos/0/assembly.mp4")
      (Some "/public/qr/KALLAX.png") (Some "https://assemblyai.app/s/KALLAX")
      (Some 6) (Some 228);
    mkSku 1%nat 2%nat "KALLAX" "Kallax shelf" "Other" "live"
      (Some "/uploads/3f0c.pdf")
      (Some "https://storage.assemblyai.app/videos/1/assembly.mp4")
      (Some "/public/qr/KALLAX.png") (Some "https://assemblyai.app/s/KALLAX")
      (Some 6) (Some 228) ].
Proof. vm_compute. reflexivity. Qed.

Lemma C9_shared_code_not_found_witness :
  post_scan Date.utc 1704067200000 (mkScanReq (Some "KALLAX") (Some "k3x9") None) Demo.shared
    = (Demo.shared, not_found)
  /\ post_complete (mkCompleteReq (Some "KALLAX") (Some "k3x9") None (Some 5)) Demo.shared
    = (Demo.shared, not_found)
  /\ post_question 1704067200000
       (mkQuestionReq (Some "KALLAX") (Some "k3x9") (Some "Which screw?") None) Demo.shared
    = (Demo.shared, not_found)
  /\ get_guide "KALLAX" Demo.shared = mkResponse 404 HtmlNotFound
  /\ code (getStatus (mkAuth Demo.alice Demo.acme) 0%nat Demo.shared) = 200
  /\ code (getStatus (mkAuth Demo.bob Demo.globex) 1%nat Demo.shared) = 200.
Proof.
  destruct (C9_shared_code_not_found Date.utc 1704067200000 Demo.shared
              (mkSku 0%nat 1%nat "KALLAX" "Kallax shelf" "Other" "live"
                 (Some "/uploads/3f0c.pdf")
                 (Some "https://storage.assemblyai.app/videos/0/assembly.mp4")
                 (Some "/public/qr/KALLAX.png") (Some "https://assemblyai.app/s/KALLAX")
                 (Some 6) (Some 228))
              (mkSku 1%nat 2%nat "KALLAX" "Kallax shelf" "Other" "live"
                 (Some "/uploads/3f0c.pdf")
                 (Some "https://storage.assemblyai.app/videos/1/assembly.mp4")
                 (Some "/public/qr/KALLAX.png") (Some "https://assemblyai.app/s/KALLAX")
                 (Some 6) (Some 228))
              "KALLAX") as [Hs [Hc [Hq Hg]]].
  - rewrite Demo_shared_skus. left. reflexivity.
  - rewrite Demo_shared_skus. right. left. reflexivity.
  - cbn. lia.
  - reflexivity.
  - reflexivity.
  - discriminate.
  - reflexivity.
  - reflexivity.
  - split; [apply Hs|]. split; [apply Hc|]. split; [apply Hq; reflexivity|].
    split; [exact Hg|]. split; vm_compute; reflexivity.
Defined.

(** C10.  For an item that its code resolves to and whose status is
    [processing] or [error], scan recording answers 404, whereas completion
    recording answers 200 and question recording answers 200 and appends
    the question to the item. *)
Theorem C10_status_not_checked (zone : Date.Zone) (now : Z) (db : DB) (s : Sku) (k : string) :
  lookup_code k db = Some s -> k <> "" ->
  status s = "processing" \/ status s = "error" ->
  (forall session agent,
     post_scan zone now (mkScanReq (Some k) session agent) db = (db, not_found))
  /\ (forall session step rate,
        snd (post_complete (mkCompleteReq (Some k) session step rate) db) = success)
  /\ (forall session text step, falsy text = false ->
        post_question now (mkQuestionReq (Some k) session text step) db
          = (mkDB (skus db) (scans db)
               (questions db ++
                  [mkQuestion (next_id db) (sku_id s) (sku_company_id s)
                     (or_default session "anonymous") (filter_text text) step now])
               (notification_preferences db) (S (next_id db)),
             success)).
Proof.
  intros Hl Hk Hst.
  assert (Hlive : lookup_live k db = None).
  { unfold lookup_live. unfold lookup_code in Hl. apply single_inv in Hl. rewrite Hl.
    cbn [filter]. unfold is_live.
    destruct Hst as [E|E]; rewrite E; reflexivity. }
  split; [|split].
  - intros session agent. unfold post_scan. cbn [scanreq_skuCode filter_text].
    rewrite (falsy_some k Hk), Hlive. reflexivity.
  - intros session step rate. unfold post_complete. cbn [complete_skuCode filter_text].
    rewrite Hl. reflexivity.
  - intros session text step Ht. unfold post_question.
    cbn [questionreq_skuCode questionreq_questionText questionreq_sessionId
         questionreq_stepNumber filter_text].
    rewrite (falsy_some k Hk), Ht, Hl. reflexivity.
Qed.

Lemma C10_status_not_checked_witness :
  let db1 := mkDB [Demo.fresh] [] [] [] 1%nat in
  post_scan Date.utc 1704067200000 (mkScanReq (Some "KALLAX") (Some "k3x9") None) db1
    = (db1, not_found)
  /\ snd (post_complete (mkCompleteReq (Some "KALLAX") (Some "k3x9") None (Some 5)) db1)
     = success
  /\ snd (post_question 1704067200000
            (mkQuestionReq (Some "KALLAX") (Some "k3x9") (Some "Which screw?") None) db1)
     = success.
Proof.
  cbv zeta.
  destruct (C10_status_not_checked Date.utc 1704067200000 (mkDB [Demo.fresh] [] [] [] 1%nat)
              Demo.fresh "KALLAX" eq_refl ltac:(discriminate) (or_introl eq_refl))
    as [Hs [Hc Hq]].
  split; [apply Hs|]. split; [apply Hc|]. rewrite Hq; reflexivity.
Defined.

(** ** Completion recording *)

Lemma In_insert_desc x r l : In x (Query.insert_desc r l) <-> x = r \/ In x l.
Proof.
  induction l as [|y l IH]; cbn [Query.insert_desc].
  - cbn. intuition.
  - destruct (scanned_at y <? scanned_at r); cbn [In]; [intuition|].
    rewrite IH. intuition.
Qed.

Lemma In_order_desc x l : In x (Query.order_desc l) <-> In x l.
Proof.
  induction l as [|y l IH]; [reflexivity|].
  cbn [Query.order_desc fold_right]. rewrite In_insert_desc.
  fold (Query.order_desc l). rewrite IH. cbn [In]. intuition.
Qed.

Lemma latest_first_insert_desc r l :
  latest_first l -> latest_first (Query.insert_desc r l).
Proof.
  destruct l as [|x l]; cbn [Query.insert_desc latest_first].
  - intros _ y [E|[]]. subst. lia.
  - intros H. destruct (Z.ltb_spec (scanned_at x) (scanned_at r)) as [Hlt|Hge].
    + intros y [E|Hy]; [subst; lia|]. specialize (H y Hy). lia.
    + intros y [E|Hy]; [subst; lia|]. apply In_insert_desc in Hy.
      destruct Hy as [E|Hy]; [subst; lia|]. apply H. right. exact Hy.
Qed.

Lemma latest_first_order_desc l : latest_first (Query.order_desc l).
Proof.
  induction l as [|x l IH]; [exact I|].
  cbn [Query.order_desc fold_right]. apply latest_first_insert_desc. exact IH.
Qed.

Lemma latest_scan_cases id session db :
  (filter (of_session id session) (scans db) = [] /\ latest_scan id session db = [])
  \/ exists x, latest_scan id session db = [x]
       /\ In x (scans db) /\ of_session id session x = true
       /\ forall y, In y (scans db) -> of_session id session y = true ->
            scanned_at y <= scanned_at x.
Proof.
  unfold latest_scan, Query.limit.
  pose proof (latest_first_order_desc (filter (of_session id session) (scans db))) as Hmax.
  pose proof (fun x => In_order_desc x (filter (of_session id session) (scans db))) as Hin.
  destruct (Query.order_desc (filter (of_session id session) (scans db))) as [|x rest].
  - left. split; [|reflexivity].
    destruct (filter (of_session id session) (scans db)) as [|y l]; [reflexivity|].
    exfalso. apply (Hin y). left. reflexivity.
  - right. exists x. split; [reflexivity|].
    assert (Hx : In x (filter (of_session id session) (scans db)))
      by (apply Hin; left; reflexivity).
    apply filter_In in Hx. destruct Hx as [Hx1 Hx2].
    split; [exact Hx1|]. split; [exact Hx2|].
    intros y Hy Hs. apply Hmax. apply Hin. apply filter_In. split; assumption.
Qed.


Lemma update_selected_one f l1 x l2 :
  NoDup (map scan_id (l1 ++ x :: l2)) ->
  Query.update_selected [x] f (l1 ++ x :: l2) = (l1 ++ f x :: l2)%list.
Proof.
  intros Hnd. rewrite map_app in Hnd. cbn [map] in Hnd.
  pose proof (NoDup_remove_2 _ _ _ Hnd) as Hx.
  assert (Hother : forall l, (forall r, In r l -> scan_id r <> scan_id x) ->
            Query.update_selected [x] f l = l).
  { intros l Hl. unfold Query.update_selected. rewrite <- (map_id l) at 2.
    apply map_ext_in. intros r Hr. cbn [existsb].
    destruct (Nat.eqb_spec (scan_id x) (scan_id r)) as [E|_]; [|reflexivity].
    exfalso. apply (Hl r Hr). symmetry. exact E. }
  unfold Query.update_selected in *. rewrite map_app. cbn [map existsb].
  rewrite Nat.eqb_refl. cbn [orb]. f_equal; [|f_equal].
  - apply Hother. intros r Hr E. apply Hx. apply in_or_app. left.
    rewrite <- E. apply in_map. exact Hr.
  - apply Hother. intros r Hr E. apply Hx. apply in_or_app. right.
    rewrite <- E. apply in_map. exact Hr.
Qed.



(** ** Time series *)

Lemma getGroupBy_window (period : string) :
  match period_days period with
  | Some n =>
      (n <= 30 -> getGroupBy period = "day")
      /\ (90 <= n <= 180 -> getGroupBy period = "week")
      /\ (180 < n -> getGroupBy period = "month")
  | None => getGroupBy period = "month"
  end.
Proof.
  unfold period_days, getGroupBy.
  destruct (String.eqb period "7d"); [repeat split; intros; (reflexivity || lia)|].
  destruct (String.eqb period "30d"); [repeat split; intros; (reflexivity || lia)|].
  destruct (String.eqb period "3m"); [repeat split; intros; (reflexivity || lia)|].
  destruct (String.eqb period "6m"); [repeat split; intros; (reflexivity || lia)|].
  destruct (String.eqb period "1y"); [repeat split; intros; (reflexivity || lia)|].
  reflexivity.
Qed.

Lemma count_of_bump k key g :
  count_of k (bump key g) = count_of k g + (if String.eqb key k then 1 else 0).
Proof.
  induction g as [|[k' c] g IH]; cbn [bump count_of].
  - reflexivity.
  - destruct (String.eqb_spec k' key) as [E|N]; cbn [count_of].
    + subst k'. destruct (String.eqb key k); lia.
    + destruct (String.eqb_spec k' k) as [E'|N'].
      * subst k'. destruct (String.eqb_spec key k); [congruence|lia].
      * exact IH.
Qed.

Lemma In_keys_bump k key g :
  In k (map fst (bump key g)) <-> k = key \/ In k (map fst g).
Proof.
  induction g as [|[k' c] g IH]; cbn [bump map fst In].
  - intuition.
  - destruct (String.eqb_spec k' key) as [E|N]; cbn [map fst In].
    + subst. intuition.
    + rewrite IH. intuition.
Qed.

Lemma NoDup_keys_bump key g :
  NoDup (map fst g) -> NoDup (map fst (bump key g)).
Proof.
  induction g as [|[k' c] g IH]; cbn [bump map fst]; intros H.
  - constructor; [intros []|constructor].
  - inversion H as [|? ? Hk Hg]; subst.
    destruct (String.eqb_spec k' key) as [E|N]; cbn [map fst].
    + constructor; assumption.
    + constructor; [|apply IH; exact Hg].
      rewrite In_keys_bump. intros [E|Hin]; [congruence|contradiction].
Qed.

Lemma count_of_In k c g :
  NoDup (map fst g) -> In (k, c) g -> count_of k g = c.
Proof.
  induction g as [|[k' c'] g IH]; cbn [map fst count_of]; intros Hnd Hin; [contradiction|].
  inversion Hnd as [|? ? Hk Hg]; subst.
  destruct Hin as [E|Hin].
  - inversion E; subst. rewrite String.eqb_refl. reflexivity.
  - destruct (String.eqb_spec k' k) as [E|_]; [|apply IH; assumption].
    subst k'. exfalso. apply Hk. change k with (fst (k, c)). apply in_map. exact Hin.
Qed.

Section Grouping.

Variable key_of : Scan -> string.

Let step (g : list (string * Z)) (scan : Scan) := bump (key_of scan) g.

Lemma count_of_groups k scans g :
  count_of k (fold_left step scans g)
  = count_of k g
    + Z.of_nat (List.length (filter (fun s => String.eqb (key_of s) k) scans)).
Proof.
  revert g. induction scans as [|s scans IH]; intros g; cbn [fold_left filter].
  - cbn. lia.
  - rewrite IH. unfold step. rewrite count_of_bump.
    destruct (String.eqb (key_of s) k); cbn [List.length]; lia.
Qed.

Lemma NoDup_groups scans g :
  NoDup (map fst g) -> NoDup (map fst (fold_left step scans g)).
Proof.
  revert g. induction scans as [|s scans IH]; intros g H; [exact H|].
  cbn [fold_left]. apply IH. apply NoDup_keys_bump. exact H.
Qed.

Lemma In_keys_groups k scans g :
  In k (map fst (fold_left step scans g))
  <-> In k (map fst g) \/ exists s, In s scans /\ key_of s = k.
Proof.
  revert g. induction scans as [|s scans IH]; intros g; cbn [fold_left].
  - split; [intros H; left; exact H|]. intros [H|[s [[] _]]]. exact H.
  - rewrite IH. unfold step. rewrite In_keys_bump. split.
    + intros [[E|H]|[s' [Hs' E]]].
      * right. exists s. split; [left; reflexivity|]. symmetry. exact E.
      * left. exact H.
      * right. exists s'. split; [right; exact Hs'|exact E].
    + intros [H|[s' [[E|Hs'] E']]].
      * left. right. exact H.
      * subst s'. left. left. symmetry. exact E'.
      * right. exists s'. split; assumption.
Qed.

End Grouping.

Lemma insert_entry_perm e l : Permutation (insert_entry e l) (e :: l).
Proof.
  induction l as [|x l IH]; cbn [insert_entry]; [apply Permutation_refl|].
  destruct (localeCompare (fst e) (fst x)); try apply Permutation_refl;
    (eapply perm_trans; [apply perm_skip; exact IH|apply perm_swap]).
Qed.

Lemma sort_entries_perm l : Permutation (sort_entries l) l.
Proof.
  induction l as [|x l IH]; [apply Permutation_refl|].
  cbn [sort_entries fold_right]. eapply perm_trans; [apply insert_entry_perm|].
  apply perm_skip. exact IH.
Qed.

Lemma key_lt_trans a b c : key_lt a b -> key_lt b c -> key_lt a c.
Proof.
  unfold key_lt, localeCompare. intros H1 H2.
  apply OrderedTypeEx.String_as_OT.cmp_lt.
  apply OrderedTypeEx.String_as_OT.cmp_lt in H1.
  apply OrderedTypeEx.String_as_OT.cmp_lt in H2.
  eapply OrderedTypeEx.String_as_OT.lt_trans; eassumption.
Qed.

Lemma insert_entry_sorted e l :
  ~ In (fst e) (map fst l) ->
  StronglySorted key_lt l -> StronglySorted key_lt (insert_entry e l).
Proof.
  induction l as [|x l IH]; intros Hnew Hs; cbn [insert_entry].
  - constructor; constructor.
  - inversion Hs as [|? ? Hl Hx]; subst.
    destruct (localeCompare (fst e) (fst x)) eqn:Ec.
    + exfalso. apply Hnew. left. symmetry. apply String.compare_eq_iff. exact Ec.
    + constructor; [exact Hs|]. constructor; [exact Ec|].
      eapply Forall_impl; [|exact Hx]. intros y Hy. eapply key_lt_trans; eassumption.
    + assert (Hxe : key_lt x e).
      { unfold key_lt, localeCompare in *. rewrite String.compare_antisym, Ec. reflexivity. }
      constructor.
      * apply IH; [|exact Hl]. intros H. apply Hnew. right. exact H.
      * apply Forall_forall. intros y Hy.
        apply (Permutation_in _ (insert_entry_perm e l)) in Hy.
        destruct Hy as [E|Hy]; [subst; exact Hxe|].
        rewrite Forall_forall in Hx. apply Hx. exact Hy.
Qed.

Lemma sort_entries_sorted l :
  NoDup (map fst l) -> StronglySorted key_lt (sort_entries l).
Proof.
  induction l as [|x l IH]; intros Hnd; [constructor|].
  cbn [map] in Hnd. inversion Hnd as [|? ? Hx Hl]; subst.
  cbn [sort_entries fold_right]. apply insert_entry_sorted; [|apply IH; exact Hl].
  intros H. apply Hx. fold (sort_entries l) in H.
  eapply Permutation_in; [|exact H]. apply Permutation_map. apply sort_entries_perm.
Qed.

(** [setDate] with a day of the month counted from the current one keeps
    the local time of day and moves the local date by that many days. *)
Lemma setDate_shift (zone : Date.Zone) (t k : Z) :
  Date.setDate zone t (Date.getDate zone t + k)
  = Date.UTC zone (Date.LocalTime zone t + k * Date.msPerDay).
Proof.
  unfold Date.setDate, Date.getDate. f_equal.
  unfold Date.MakeDate, Date.TimeWithinDay, Date.Day.
  pose proof (Z.div_mod (Date.LocalTime zone t) Date.msPerDay ltac:(discriminate)). lia.
Qed.

(** The week start computed by [groupScans]: the instant at which the
    local clock shows the time of the scan on the local Sunday of its
    week. *)
Lemma week_key_local (zone : Date.Zone) (t : Z) :
  bucket_key zone "week" t
  = Date.toISODate
      (Date.UTC zone (Date.LocalTime zone t - Date.getDay zone t * Date.msPerDay)).
Proof.
  unfold bucket_key. cbn [String.eqb Ascii.eqb Bool.eqb]. f_equal.
  replace (Date.getDate zone t - Date.getDay zone t)
    with (Date.getDate zone t + (- Date.getDay zone t)) by lia.
  rewrite setDate_shift. f_equal. lia.
Qed.

(** In a zone that keeps one offset the week start is the scan time moved
    back by its local day of the week, a local Sunday within the seven
    days up to the scan. *)
Lemma week_start (tza t : Z) :
  let zone := Date.fixed tza in
  let start := Date.setDate zone t (Date.getDate zone t - Date.getDay zone t) in
  start = t - Date.getDay zone t * Date.msPerDay
  /\ Date.getDay zone start = 0
  /\ start <= t < start + 7 * Date.msPerDay.
Proof.
  cbv zeta.
  assert (E : Date.setDate (Date.fixed tza) t
                (Date.getDate (Date.fixed tza) t - Date.getDay (Date.fixed tza) t)
              = t - Date.getDay (Date.fixed tza) t * Date.msPerDay).
  { replace (Date.getDate (Date.fixed tza) t - Date.getDay (Date.fixed tza) t)
      with (Date.getDate (Date.fixed tza) t + (- Date.getDay (Date.fixed tza) t)) by lia.
    rewrite setDate_shift. unfold Date.UTC, Date.LocalTime, Date.LocalTZA, Date.fixed.
    cbn [Date.offset_at Date.offset_of_local]. lia. }
  rewrite E.
  assert (Hwd : 0 <= Date.getDay (Date.fixed tza) t < 7).
  { unfold Date.getDay, Date.WeekDay. apply Z.mod_pos_bound. lia. }
  split; [reflexivity|]. split.
  - unfold Date.getDay, Date.WeekDay, Date.Day, Date.LocalTime, Date.LocalTZA, Date.fixed.
    cbn [Date.offset_at Date.offset_of_local].
    replace (t - (((t + tza) / Date.msPerDay + 4) mod 7) * Date.msPerDay + tza)
      with ((t + tza) + (- (((t + tza) / Date.msPerDay + 4) mod 7)) * Date.msPerDay) by lia.
    rewrite Z.div_add by discriminate.
    set (d := (t + tza) / Date.msPerDay).
    replace (d + - ((d + 4) mod 7) + 4) with ((d + 4) - (d + 4) mod 7) by lia.
    rewrite Zminus_mod, Zmod_mod, Z.sub_diag. reflexivity.
  - unfold Date.msPerDay in *. lia.
Qed.

(** In a process whose local time is UTC the key of a week bucket is the
    date of the Sunday on or before the day of the scan. *)
Lemma week_key_utc (t : Z) :
  let D := Date.Day t - Date.WeekDay t in
  bucket_key Date.utc "week" t = Date.iso_of_day D
  /\ (D + 4) mod 7 = 0
  /\ D <= Date.Day t <= D + 6.
Proof.
  cbv zeta. unfold bucket_key. cbn [String.eqb Ascii.eqb Bool.eqb].
  destruct (week_start 0 t) as [E [_ _]]. cbv zeta in E. fold Date.utc in E. rewrite E.
  assert (Hwd : 0 <= Date.WeekDay t < 7).
  { unfold Date.WeekDay. apply Z.mod_pos_bound. lia. }
  assert (Eg : Date.getDay Date.utc t = Date.WeekDay t).
  { unfold Date.getDay, Date.LocalTime, Date.LocalTZA, Date.utc, Date.fixed.
    cbn [Date.offset_at]. rewrite Z.add_0_r. reflexivity. }
  rewrite Eg. split; [|split].
  - unfold Date.toISODate. f_equal. unfold Date.Day.
    replace (t - Date.WeekDay t * Date.msPerDay)
      with (t + (- Date.WeekDay t) * Date.msPerDay) by lia.
    rewrite Z.div_add by discriminate. lia.
  - unfold Date.WeekDay.
    replace (Date.Day t - (Date.Day t + 4) mod 7 + 4)
      with ((Date.Day t + 4) - (Date.Day t + 4) mod 7) by lia.
    rewrite Zminus_mod, Zmod_mod, Z.sub_diag. reflexivity.
  - lia.
Qed.

(** The key of a month bucket is made of the year and the month of the
    local date of the scan. *)
Lemma month_key_local (zone : Date.Zone) (t : Z) :
  bucket_key zone "month" t
  = let '(y, m, _) := Date.civil_from_days (Date.Day (Date.LocalTime zone t)) in
    (string_of_Z y ++ "-" ++ padStart0 2 (string_of_Z m))%string.
Proof.
  unfold bucket_key. cbn [String.eqb Ascii.eqb Bool.eqb].
  unfold Date.getFullYear, Date.getMonth, Date.YearFromTime, Date.MonthFromTime.
  destruct (Date.civil_from_days (Date.Day (Date.LocalTime zone t))) as [[y m] d].
  cbn [fst snd]. replace (m - 1 + 1) with m by lia. reflexivity.
Qed.

Lemma groupScans_entries (zone : Date.Zone) (scans : list Scan) (g : string) :
  let out := groupScans zone scans g in
  (forall k c, In (k, c) out ->
     c = Z.of_nat (List.length (in_bucket zone g k scans)) /\ 0 < c)
  /\ (forall s, In s scans -> exists c, In (bucket_key zone g (scanned_at s), c) out)
  /\ StronglySorted key_lt out.
Proof.
  cbv zeta. unfold groupScans.
  set (key_of := fun s : Scan => bucket_key zone g (scanned_at s)).
  set (groups := fold_left (fun g0 scan => bump (bucket_key zone g (scanned_at scan)) g0)
                   scans []).
  assert (Hnd : NoDup (map fst groups))
    by (exact (NoDup_groups key_of scans [] (NoDup_nil _))).
  assert (Hcount : forall k, count_of k groups
                     = Z.of_nat (List.length (in_bucket zone g k scans))).
  { intros k. exact (count_of_groups key_of k scans []). }
  assert (Hkeys : forall k, In k (map fst groups)
                    <-> exists s, In s scans /\ key_of s = k).
  { intros k. pose proof (In_keys_groups key_of k scans []) as H. split; intros H0.
    - destruct (proj1 H H0) as [[]|H1]. exact H1.
    - apply (proj2 H). right. exact H0. }
  split; [|split].
  - intros k c Hin. apply (Permutation_in _ (sort_entries_perm groups)) in Hin.
    assert (Ec : c = Z.of_nat (List.length (in_bucket zone g k scans))).
    { rewrite <- Hcount. symmetry. apply count_of_In; assumption. }
    split; [exact Ec|]. rewrite Ec.
    assert (Hk : In k (map fst groups))
      by (change k with (fst (k, c)); apply in_map; exact Hin).
    apply Hkeys in Hk. destruct Hk as [s [Hs Es]].
    assert (Hb : In s (in_bucket zone g k scans)).
    { unfold in_bucket. apply filter_In. split; [exact Hs|].
      apply String.eqb_eq. exact Es. }
    destruct (in_bucket zone g k scans); [contradiction|]. cbn [List.length]. lia.
  - intros s Hs.
    assert (Hk : In (key_of s) (map fst groups))
      by (apply Hkeys; exists s; split; [exact Hs|reflexivity]).
    apply in_map_iff in Hk. destruct Hk as [[k c] [Ek Hin]]. cbn [fst] in Ek.
    subst k. exists c. eapply Permutation_in; [|exact Hin].
    apply Permutation_sym. apply sort_entries_perm.
  - apply sort_entries_sorted. exact Hnd.
Qed.

Lemma groupScans_two_days (zone : Date.Zone) (s1 s2 : Scan) :
  Date.Day (scanned_at s1) = 19723 -> Date.Day (scanned_at s2) = 19724 ->
  groupScans zone [s1; s2] (getGroupBy "7d") = [("2024-01-01", 1); ("2024-01-02", 1)]
  /\ groupScans zone [s2; s1] (getGroupBy "7d") = [("2024-01-01", 1); ("2024-01-02", 1)].
Proof.
  intros H1 H2.
  assert (K1 : bucket_key zone "day" (scanned_at s1) = "2024-01-01").
  { unfold bucket_key. cbn [String.eqb Ascii.eqb Bool.eqb]. unfold Date.toISODate.
    rewrite H1. vm_compute. reflexivity. }
  assert (K2 : bucket_key zone "day" (scanned_at s2) = "2024-01-02").
  { unfold bucket_key. cbn [String.eqb Ascii.eqb Bool.eqb]. unfold Date.toISODate.
    rewrite H2. vm_compute. reflexivity. }
  change (getGroupBy "7d") with "day". unfold groupScans. cbn [fold_left].
  rewrite K1, K2. split; vm_compute; reflexivity.
Qed.

(** C7.  The key of a week bucket is not always the date of a Sunday.
    The process running on Berlin time, a scan at 2024-01-06T23:30:00Z,
    which is 00:30 on Sunday 2024-01-07 there, is counted under the three
    month window in the bucket 2024-01-06, a Saturday: the week start is
    found on the local calendar and written out as a UTC date.  The key
    is the Sunday of the scan neither on the local calendar (2024-01-07)
    nor on the UTC calendar (2023-12-31). *)
Theorem C7_week_key_not_sunday :
  let at_ := 1704583800000 in
  let scan := mkScan 1%nat 0%nat 1%nat "k3x9" None 0 false None None at_ in
  let local_day := Date.Day (Date.LocalTime Demo.berlin at_) in
  getGroupBy "3m" = "week"
  /\ groupScans Demo.berlin [scan] (getGroupBy "3m") = [("2024-01-06", 1)]
  /\ Date.iso_of_day 19728 = "2024-01-06"
  /\ (19728 + 4) mod 7 = 6
  /\ Date.getDay Demo.berlin at_ = 0
  /\ Date.iso_of_day local_day = "2024-01-07"
  /\ Date.iso_of_day (Date.Day at_ - Date.WeekDay at_) = "2023-12-31".
Proof. cbv zeta. repeat split; vm_compute; reflexivity. Qed.

(** * Further properties of the routes *)

(** ** The scan series *)

(** For every time zone, set of scans and period: the series is bucketed
    by day for the 7 and 30 day windows, by week for the 90 and 180 day
    windows and by month for the 365 day window and for every other
    (unbounded) period; every entry of the output counts the scans whose
    timestamp yields its key, and every scan is counted under the key of
    its timestamp; the entries are in strictly ascending order of their
    keys.  The key of a day bucket is the UTC date of the scan.  The key
    of a week bucket is the UTC date of the instant at which the local
    clock shows the time of the scan on the local Sunday of its week; in
    a zone that keeps one offset that instant is a local Sunday at most
    six days before the scan, and, the process running in UTC, the key is
    the date of the Sunday on or before the day of the scan.  The key of
    a month bucket is the year and the two-digit month of the local date
    of the scan.  Two scans on 2024-01-01 and 2024-01-02 under the 7 day
    window give the two buckets of those dates, in that order, with count
    1 each. *)
Theorem time_series_buckets (zone : Date.Zone) (scans : list Scan) (period : string) :
  let out := groupScans zone scans (getGroupBy period) in
  match period_days period with
  | Some n =>
      (n <= 30 -> getGroupBy period = "day")
      /\ (90 <= n <= 180 -> getGroupBy period = "week")
      /\ (180 < n -> getGroupBy period = "month")
  | None => getGroupBy period = "month"
  end
  /\ (forall k c, In (k, c) out ->
        c = Z.of_nat (List.length (in_bucket zone (getGroupBy period) k scans)) /\ 0 < c)
  /\ (forall s, In s scans ->
        exists c, In (bucket_key zone (getGroupBy period) (scanned_at s), c) out)
  /\ StronglySorted key_lt out
  /\ (forall t, bucket_key zone "day" t = Date.iso_of_day (Date.Day t))
  /\ (forall t,
        bucket_key zone "week" t
        = Date.toISODate
            (Date.UTC zone (Date.LocalTime zone t - Date.getDay zone t * Date.msPerDay)))
  /\ (forall tza t,
        let start := t - Date.getDay (Date.fixed tza) t * Date.msPerDay in
        bucket_key (Date.fixed tza) "week" t = Date.toISODate start
        /\ Date.getDay (Date.fixed tza) start = 0
        /\ start <= t < start + 7 * Date.msPerDay)
  /\ (forall t,
        let D := Date.Day t - Date.WeekDay t in
        bucket_key Date.utc "week" t = Date.iso_of_day D
        /\ (D + 4) mod 7 = 0 /\ D <= Date.Day t <= D + 6)
  /\ (forall t,
        bucket_key zone "month" t
        = let '(y, m, _) := Date.civil_from_days (Date.Day (Date.LocalTime zone t)) in
          (string_of_Z y ++ "-" ++ padStart0 2 (string_of_Z m))%string)
  /\ (forall s1 s2,
        Date.Day (scanned_at s1) = 19723 -> Date.Day (scanned_at s2) = 19724 ->
        groupScans zone [s1; s2] (getGroupBy "7d")
          = [("2024-01-01", 1); ("2024-01-02", 1)]
        /\ groupScans zone [s2; s1] (getGroupBy "7d")
          = [("2024-01-01", 1); ("2024-01-02", 1)]).
Proof.
  cbv zeta.
  destruct (groupScans_entries zone scans (getGroupBy period)) as [Hc [Hs Hsorted]].
  split; [apply getGroupBy_window|]. split; [exact Hc|]. split; [exact Hs|].
  split; [exact Hsorted|]. split; [intros t; reflexivity|].
  split; [exact (week_key_local zone)|]. split; [|split; [|split]].
  - intros tza t. destruct (week_start tza t) as [E [Hsun Hrange]].
    cbv zeta in E, Hsun, Hrange. rewrite E in Hsun, Hrange.
    split; [|split; [exact Hsun|exact Hrange]].
    unfold bucket_key. cbn [String.eqb Ascii.eqb Bool.eqb]. rewrite E. reflexivity.
  - exact week_key_utc.
  - exact (month_key_local zone).
  - intros s1 s2. apply groupScans_two_days.
Qed.

Lemma time_series_buckets_witness :
  let scan (id : Id) (at_ : Z) := mkScan id 0%nat 1%nat "k3x9" None 10 false None None at_ in
  (* 2024-01-02T09:00Z, 2024-01-01T10:00Z, 2024-01-02T23:59Z, 2024-01-07T00:30Z *)
  let rows := [scan 1%nat 1704186000000; scan 2%nat 1704103200000;
               scan 3%nat 1704239940000; scan 4%nat 1704587400000] in
  groupScans Date.utc rows (getGroupBy "7d")
    = [("2024-01-01", 1); ("2024-01-02", 2); ("2024-01-07", 1)]
  /\ groupScans Date.utc rows (getGroupBy "3m") = [("2023-12-31", 3); ("2024-01-07", 1)]
  /\ groupScans Date.utc rows (getGroupBy "all") = [("2024-01", 4)]
  /\ StronglySorted key_lt (groupScans Date.utc rows (getGroupBy "3m"))
  /\ (Date.Day 1704103200000 - Date.WeekDay 1704103200000 + 4) mod 7 = 0
  (* 2024-04-02T23:30Z is 01:30 on Wednesday 2024-04-03 in Berlin, on summer
     time; the Sunday before, 2024-03-31, 01:30 was on winter time, 00:30Z *)
  /\ bucket_key Demo.berlin "week" 1712100600000 = "2024-03-31"
  (* 2023-12-31T23:30Z is 00:30 on 2024-01-01 in Berlin *)
  /\ bucket_key Date.utc "month" 1704065400000 = "2023-12"
  /\ bucket_key Demo.berlin "month" 1704065400000 = "2024-01"
  /\ bucket_key Demo.berlin "day" 1704065400000 = "2023-12-31"
  (* 2024-03-15T12:00Z and 2024-11-30T12:00Z *)
  /\ bucket_key Date.utc "month" 1710504000000 = "2024-03"
  /\ bucket_key Date.utc "month" 1732968000000 = "2024-11".
Proof.
  cbv zeta.
  match goal with |- context [groupScans Date.utc ?rows (getGroupBy "3m")] =>
    pose proof (time_series_buckets Date.utc rows "3m") as H end.
  cbv zeta in H. destruct H as [_ [_ [_ [Hsorted [_ [_ [_ [Hutc _]]]]]]]].
  split; [vm_compute; reflexivity|]. split; [vm_compute; reflexivity|].
  split; [vm_compute; reflexivity|]. split; [exact Hsorted|].
  split; [exact (proj1 (proj2 (Hutc 1704103200000)))|].
  repeat split; vm_compute; reflexivity.
Defined.

(** ** Analytics windows *)

Lemma period_days_own (period : string) (n : Z) :
  period_days period = Some n -> inherited_name period = false.
Proof.
  unfold period_days.
  repeat (destruct (String.eqb period _) eqn:E;
          [apply String.eqb_eq in E; subst period; intros _; reflexivity|clear E]).
  discriminate.
Qed.

(** The start of an analytics window is the instant at which the local
    clock shows the time of day of the request on the local date the
    preset number of days earlier; where the zone has the same offset at
    both ends, as every zone without daylight saving time has, that is
    exactly the preset number of days of 86,400,000 ms before the clock.
    Every other period name gives no start at all, except the inherited
    names, under which the computation throws. *)
Theorem window_start_exact (zone : Date.Zone) (now : Z) (period : string) :
  window_start zone now period =
    (if inherited_name period then Throw "RangeError: Invalid time value"
     else Ok (match period_days period with
              | Some n => Some (Date.UTC zone (Date.LocalTime zone now - n * Date.msPerDay))
              | None => None
              end))
  /\ (forall n, period_days period = Some n ->
        Date.LocalTZA zone (Date.LocalTime zone now - n * Date.msPerDay) false
          = Date.LocalTZA zone now true ->
        window_start zone now period = Ok (Some (now - n * Date.msPerDay)))
  /\ (forall tza n, period_days period = Some n ->
        window_start (Date.fixed tza) now period = Ok (Some (now - n * Date.msPerDay))).
Proof.
  assert (G : forall z n, period_days period = Some n ->
            window_start z now period
            = Ok (Some (Date.UTC z (Date.LocalTime z now - n * Date.msPerDay)))).
  { intros z n Hn. unfold window_start, getStartDate.
    rewrite (period_days_own period n Hn), Hn. do 2 f_equal.
    replace (Date.getDate z now - n) with (Date.getDate z now + (- n)) by lia.
    rewrite setDate_shift. f_equal. lia. }
  split; [|split].
  - destruct (period_days period) as [n|] eqn:Hn.
    + rewrite (G zone n eq_refl), (period_days_own period n Hn). reflexivity.
    + unfold window_start, getStartDate. rewrite Hn. reflexivity.
  - intros n Hn Hoff. rewrite (G zone n Hn). do 2 f_equal.
    unfold Date.UTC. rewrite Hoff. unfold Date.LocalTime. lia.
  - intros tza n Hn. rewrite (G (Date.fixed tza) n Hn). do 2 f_equal.
    unfold Date.UTC, Date.LocalTime, Date.LocalTZA, Date.fixed.
    cbn [Date.offset_at Date.offset_of_local]. lia.
Qed.

(** On 2024-03-12 at 12:00 UTC it is 08:00 in New York, on summer time;
    seven days earlier the clocks there were on winter time, and the 7 day
    window starts at 08:00 of 2024-03-05 in New York, 13:00 UTC, an hour
    less than seven times 24 hours before the request.  In Berlin, where
    the clocks had not changed, and in UTC it starts at 12:00 UTC. *)
Lemma window_start_exact_witness :
  window_start Demo.new_york 1710244800000 "7d" = Ok (Some 1709643600000)
  /\ window_start Demo.berlin 1710244800000 "7d" = Ok (Some 1709640000000)
  /\ window_start Date.utc 1710244800000 "7d" = Ok (Some 1709640000000)
  /\ window_start Date.utc 1710244800000 "all" = Ok None
  /\ window_start Date.utc 1710244800000 "constructor"
     = Throw "RangeError: Invalid time value".
Proof.
  destruct (window_start_exact Demo.new_york 1710244800000 "7d") as [Hny _].
  destruct (window_start_exact Demo.berlin 1710244800000 "7d") as [_ [Hb _]].
  destruct (window_start_exact Demo.berlin 1710244800000 "7d") as [_ [_ Hf]].
  split; [rewrite Hny; vm_compute; reflexivity|].
  split; [rewrite (Hb 7 eq_refl); [vm_compute; reflexivity|vm_compute; reflexivity]|].
  split; [exact (Hf 0 7 eq_refl)|].
  split; vm_compute; reflexivity.
Defined.

(** ** Counting objects *)

Lemma sum_counts_total {K} (obj : list (K * Z)) : sum_counts obj = total_of obj.
Proof.
  unfold sum_counts.
  assert (G : forall a, fold_left (fun a e => a + snd e) obj a = a + total_of obj).
  { induction obj as [|e obj IH]; intros a; cbn [fold_left total_of fold_right]; [lia|].
    rewrite IH. fold (total_of obj). lia. }
  rewrite G. lia.
Qed.

Section Increment.

Variable K : Type.
Variable eqb : K -> K -> bool.
Hypothesis eqb_eq : forall x y, eqb x y = true <-> x = y.

Lemma keys_increment key (obj : list (K * Z)) :
  map fst (increment eqb key obj) = map fst obj.
Proof.
  unfold increment. rewrite map_map. apply map_ext. intros e.
  destruct (eqb (fst e) key); reflexivity.
Qed.

Lemma value_at_increment k key (obj : list (K * Z)) :
  In k (map fst obj) ->
  value_at eqb k (increment eqb key obj)
  = value_at eqb k obj + (if eqb k key then 1 else 0).
Proof.
  unfold value_at, increment. induction obj as [|e obj IH]; intros Hin; [contradiction|].
  cbn [map find].
  destruct (eqb (fst e) key) eqn:Ekey; cbn [fst].
  - destruct (eqb (fst e) k) eqn:Ek.
    + apply eqb_eq in Ekey. apply eqb_eq in Ek. cbn [snd].
      assert (E : eqb k key = true) by (apply eqb_eq; congruence). rewrite E. reflexivity.
    + apply IH. destruct Hin as [E|Hin]; [|exact Hin].
      exfalso. apply eqb_eq in E. congruence.
  - destruct (eqb (fst e) k) eqn:Ek.
    + apply eqb_eq in Ek.
      assert (E : eqb k key = false).
      { destruct (eqb k key) eqn:E'; [|reflexivity]. apply eqb_eq in E'.
        assert (eqb (fst e) key = true) by (apply eqb_eq; congruence). congruence. }
      rewrite E. lia.
    + apply IH. destruct Hin as [E|Hin]; [|exact Hin].
      exfalso. apply eqb_eq in E. congruence.
Qed.

Lemma increment_missing key (obj : list (K * Z)) :
  ~ In key (map fst obj) -> increment eqb key obj = obj.
Proof.
  intros Hnot. unfold increment. rewrite <- (map_id obj) at 2. apply map_ext_in.
  intros e He. destruct (eqb (fst e) key) eqn:E; [|reflexivity].
  exfalso. apply Hnot. apply eqb_eq in E. rewrite <- E. apply in_map. exact He.
Qed.

Lemma total_of_increment key (obj : list (K * Z)) :
  NoDup (map fst obj) -> In key (map fst obj) ->
  total_of (increment eqb key obj) = total_of obj + 1.
Proof.
  induction obj as [|e obj IH]; intros Hnd Hin; [contradiction|].
  cbn [map] in Hnd. inversion Hnd as [|? ? Hk Hnd']; subst.
  cbn [increment map total_of fold_right].
  fold (increment eqb key obj). fold (total_of (increment eqb key obj)). fold (total_of obj).
  destruct (eqb (fst e) key) eqn:E.
  - apply eqb_eq in E. rewrite increment_missing by (rewrite <- E; exact Hk).
    cbn [snd]. lia.
  - destruct Hin as [E'|Hin].
    + apply eqb_eq in E'. congruence.
    + rewrite IH by assumption. lia.
Qed.

Lemma value_at_In k c (obj : list (K * Z)) :
  NoDup (map fst obj) -> In (k, c) obj -> value_at eqb k obj = c.
Proof.
  unfold value_at. induction obj as [|e obj IH]; intros Hnd Hin; [contradiction|].
  cbn [map] in Hnd. inversion Hnd as [|? ? Hk Hnd']; subst. cbn [find].
  destruct Hin as [E|Hin].
  - subst e. cbn [fst snd]. assert (E : eqb k k = true) by (apply eqb_eq; reflexivity).
    rewrite E. reflexivity.
  - destruct (eqb (fst e) k) eqn:E; [|apply IH; assumption].
    exfalso. apply eqb_eq in E. apply Hk. rewrite E.
    change k with (fst (k, c)). apply in_map. exact Hin.
Qed.

(** Counting a list of items into an object that has a key for each. *)
Lemma counting (A : Type) (key_of : A -> K) (items : list A) (obj : list (K * Z)) :
  NoDup (map fst obj) ->
  (forall x, In x items -> In (key_of x) (map fst obj)) ->
  let out := fold_left (fun b x => increment eqb (key_of x) b) items obj in
  map fst out = map fst obj
  /\ total_of out = total_of obj + Z.of_nat (List.length items)
  /\ forall k, In k (map fst obj) ->
       value_at eqb k out
       = value_at eqb k obj
         + Z.of_nat (List.length (filter (fun x => eqb k (key_of x)) items)).
Proof.
  cbv zeta. revert obj. induction items as [|x items IH]; intros obj Hnd Hkeys.
  - cbn [fold_left filter List.length]. split; [reflexivity|].
    split; [lia|]. intros k _. lia.
  - cbn [fold_left].
    destruct (IH (increment eqb (key_of x) obj)) as [Hk [Ht Hv]].
    + rewrite keys_increment. exact Hnd.
    + intros y Hy. rewrite keys_increment. apply Hkeys. right. exact Hy.
    + rewrite keys_increment in Hk. split; [exact Hk|]. split.
      * rewrite Ht, total_of_increment; [cbn [List.length]; lia|exact Hnd|].
        apply Hkeys. left. reflexivity.
      * intros k Hin. rewrite Hv by (rewrite keys_increment; exact Hin).
        rewrite value_at_increment by exact Hin. cbn [filter].
        destruct (eqb k (key_of x)); cbn [List.length]; lia.
Qed.

End Increment.

Lemma string_eqb_eq (x y : string) : String.eqb x y = true <-> x = y.
Proof. apply String.eqb_eq. Qed.

Lemma tod_label_cases (h : Z) :
  In (tod_label h) (map fst tod_empty)
  /\ (tod_label h = "21+" <-> h < 6 \/ 21 <= h).
Proof.
  unfold tod_label.
  destruct (Z.leb_spec 6 h), (Z.ltb_spec h 9), (Z.leb_spec 9 h), (Z.ltb_spec h 12),
    (Z.leb_spec 12 h), (Z.ltb_spec h 15), (Z.leb_spec 15 h), (Z.ltb_spec h 18),
    (Z.leb_spec 18 h), (Z.ltb_spec h 21); cbn [andb]; try lia;
    (split; [cbn; tauto|]); split; intros; try lia; try discriminate; reflexivity.
Qed.

(** The time-of-day histogram has the six labels in their fixed order,
    counts every scan exactly once, so that the counts add up to the number
    of scans, and puts under [21+] all hours from 21 on as well as the hours
    before 6; the route answers with these buckets for the company's scans
    in the window, every percentage being the number 0 when there is no
    scan. *)
Theorem tod_buckets_count (scans : list Scan) :
  map fst (tod_buckets scans) = ["6-9"; "9-12"; "12-15"; "15-18"; "18-21"; "21+"]
  /\ sum_counts (tod_buckets scans) = Z.of_nat (List.length scans)
  /\ (forall l c, In (l, c) (tod_buckets scans) ->
        c = Z.of_nat (List.length
              (filter (fun s => String.eqb l (tod_label (hour_of_day s))) scans)))
  /\ (forall h, tod_label h = "21+" <-> h < 6 \/ 21 <= h)
  /\ (forall zone now a period db entries,
        get_tod zone now a period db = Sent 200 entries ->
        exists start,
          window_start zone now (query_period period) = Ok start
          /\ map (fun e => (tod_entry_label e, tod_entry_count e)) entries
             = tod_buckets (company_scans (req_companyId a) start db)
          /\ (company_scans (req_companyId a) start db = [] ->
              Forall (fun e => tod_entry_percentage e = PercentZero) entries)).
Proof.
  assert (Hnd : NoDup (map fst tod_empty)).
  { cbn. repeat constructor; cbn; intuition discriminate. }
  destruct (counting string String.eqb string_eqb_eq Scan
              (fun s => tod_label (hour_of_day s)) scans tod_empty Hnd
              (fun x _ => proj1 (tod_label_cases (hour_of_day x))))
    as [Hk [Ht Hv]].
  fold (tod_buckets scans) in Hk, Ht, Hv.
  split; [exact Hk|]. split; [rewrite sum_counts_total, Ht; cbn; lia|]. split.
  - intros l c Hin.
    assert (Hl : In l (map fst tod_empty)).
    { rewrite <- Hk. change l with (fst (l, c)). apply in_map. exact Hin. }
    rewrite <- (value_at_In string String.eqb string_eqb_eq l c (tod_buckets scans));
      [|rewrite Hk; exact Hnd|exact Hin].
    rewrite (Hv l Hl).
    assert (E0 : value_at String.eqb l tod_empty = 0).
    { cbn in Hl. repeat (destruct Hl as [Hl|Hl]; [subst l; reflexivity|]). contradiction. }
    rewrite E0. reflexivity.
  - split; [intros h; apply tod_label_cases|].
    intros zone now a period db entries. unfold get_tod.
    destruct (window_start zone now (query_period period)) as [start|e]; [|discriminate].
    cbv zeta. intros H. inversion H; subst entries. exists start.
    split; [reflexivity|]. split.
    + rewrite map_map. cbn [tod_entry_label tod_entry_count].
      rewrite <- (map_id (tod_buckets _)) at 2. apply map_ext. intros [l c]. reflexivity.
    + intros Hempty. rewrite Hempty. repeat constructor.
Qed.







(** ** Series of scans *)

Lemma total_of_perm (l l' : list (string * Z)) :
  Permutation l l' -> total_of l = total_of l'.
Proof.
  induction 1; cbn [total_of fold_right] in *; try fold (total_of l) in *;
    try fold (total_of l') in *; lia.
Qed.

Lemma total_of_bump key g : total_of (bump key g) = total_of g + 1.
Proof.
  induction g as [|[k c] g IH]; cbn [bump total_of fold_right snd]; [lia|].
  destruct (String.eqb k key); cbn [total_of fold_right snd].
  - fold (total_of g). lia.
  - fold (total_of (bump key g)). fold (total_of g). lia.
Qed.

Lemma total_of_groups (zone : Date.Zone) (groupBy : string) (scans : list Scan)
  (g : list (string * Z)) :
  total_of (fold_left (fun g0 scan => bump (bucket_key zone groupBy (scanned_at scan)) g0)
              scans g)
  = total_of g + Z.of_nat (List.length scans).
Proof.
  revert g. induction scans as [|s scans IH]; intros g; cbn [fold_left List.length]; [lia|].
  rewrite IH, total_of_bump. lia.
Qed.

(** The counts of a series add up to the number of scans grouped: no scan
    is lost or counted twice, whatever the bucket size. *)
Theorem groupScans_conservation (zone : Date.Zone) (scans : list Scan) (groupBy : string) :
  total_of (groupScans zone scans groupBy) = Z.of_nat (List.length scans).
Proof.
  unfold groupScans. rewrite (total_of_perm _ _ (sort_entries_perm _)).
  rewrite total_of_groups. cbn [total_of fold_right]. lia.
Qed.

(** The scan series of a company is computed from its own scans inside the
    window and nothing else: two stores that hold the same scans of the
    company get the same answer, and the counts of an answer add up to the
    number of the company's scans that are not older than the window
    start, the instant at which the local clock showed the time of day of
    the request on the local date the preset number of days earlier. *)
Theorem get_scans_own_window (zone : Date.Zone) (now : Z) (a : Auth) (period : option string)
  (db : DB) :
  (forall db',
     filter (fun s => Nat.eqb (scan_company_id s) (req_companyId a)) (scans db)
     = filter (fun s => Nat.eqb (scan_company_id s) (req_companyId a)) (scans db') ->
     get_scans zone now a period db = get_scans zone now a period db')
  /\ (forall out, get_scans zone now a period db = Sent 200 out ->
        total_of out
        = Z.of_nat (List.length
            (filter (fun s =>
                       Nat.eqb (scan_company_id s) (req_companyId a)
                       && match period_days (query_period period) with
                          | Some n =>
                              Date.UTC zone (Date.LocalTime zone now - n * Date.msPerDay)
                                <=? scanned_at s
                          | None => true
                          end) (scans db)))).
Proof.
  split.
  - intros db' H. unfold get_scans. cbv zeta.
    destruct (window_start zone now (query_period period)) as [start|e]; [|reflexivity].
    unfold company_scans. rewrite <- !filter_filter, H. reflexivity.
  - intros out. unfold get_scans, window_start. cbv zeta.
    destruct (inherited_name (query_period period)); [discriminate|].
    intros H. inversion H; subst out. unfold groupScans.
    rewrite (total_of_perm _ _ (sort_entries_perm _)), total_of_groups.
    cbn [total_of fold_right]. unfold company_scans, since, getStartDate.
    destruct (period_days (query_period period)) as [n|]; [|reflexivity].
    replace (Date.getDate zone now - n) with (Date.getDate zone now + (- n)) by lia.
    rewrite setDate_shift.
    replace (Date.LocalTime zone now + - n * Date.msPerDay)
      with (Date.LocalTime zone now - n * Date.msPerDay) by lia.
    reflexivity.
Qed.

Lemma get_scans_own_window_witness :
  let scan (id c : Id) (at_ : Z) := mkScan id 0%nat c "k3x9" None 10 false None None at_ in
  let alice := mkAuth Demo.alice Demo.acme in
  (* the clock is 2024-01-08T00:00Z; the scans are from 2024-01-07, 2023-12-25
     and, for another company, 2024-01-07 *)
  let db := mkDB [Demo.fresh] [scan 1%nat 1%nat 1704587400000;
                               scan 2%nat 1%nat 1703500000000;
                               scan 3%nat 2%nat 1704587400000] [] [] 4%nat in
  (* the clock is 2024-03-12T12:00Z and the scan is from 2024-03-05T12:30Z:
     inside the 7 day window in UTC, half an hour too old in New York, where
     the window starts at 13:00Z *)
  let march := mkDB [Demo.fresh] [scan 1%nat 1%nat 1709641800000] [] [] 2%nat in
  get_scans Date.utc 1704672000000 alice (Some "7d") db = Sent 200 [("2024-01-07", 1)]
  /\ get_scans Date.utc 1704672000000 alice (Some "7d")
       (mkDB [Demo.fresh] [scan 1%nat 1%nat 1704587400000;
                           scan 2%nat 1%nat 1703500000000] [] [] 4%nat)
     = get_scans Date.utc 1704672000000 alice (Some "7d") db
  /\ total_of [("2024-01-07", 1)] = 1
  /\ get_scans Date.utc 1710244800000 alice (Some "7d") march
     = Sent 200 [("2024-03-05", 1)]
  /\ get_scans Demo.new_york 1710244800000 alice (Some "7d") march = Sent 200 [].
Proof.
  cbv zeta. split; [vm_compute; reflexivity|]. split.
  - match goal with |- get_scans ?zone ?now ?a ?p ?db1 = get_scans _ _ _ _ ?db2 =>
      exact (proj1 (get_scans_own_window zone now a p db1) db2 eq_refl) end.
  - split.
    + match goal with |- total_of ?out = _ =>
        rewrite (proj2 (get_scans_own_window Date.utc 1704672000000
                          (mkAuth Demo.alice Demo.acme) (Some "7d")
                          (mkDB [Demo.fresh]
                             [mkScan 1%nat 0%nat 1%nat "k3x9" None 10 false None None
                                1704587400000;
                              mkScan 2%nat 0%nat 1%nat "k3x9" None 10 false None None
                                1703500000000;
                              mkScan 3%nat 0%nat 2%nat "k3x9" None 10 false None None
                                1704587400000] [] [] 4%nat))
                   out ltac:(vm_compute; reflexivity)) end.
      vm_compute. reflexivity.
    + split; vm_compute; reflexivity.
Defined.

(** ** Well-formed stores *)

Lemma keeps_identity_update id f :
  keeps_identity f -> keeps_identity (fun r => if Nat.eqb (sku_id r) id then f r else r).
Proof.
  intros Hf s. destruct (Nat.eqb (sku_id s) id); [apply Hf|repeat split].
Qed.

Lemma keeps_identity_commit_live v qr : keeps_identity (commit_live v qr).
Proof. intros s. repeat split. Qed.

Lemma keeps_identity_mark_error : keeps_identity mark_error.
Proof. intros s. repeat split. Qed.

(** The background task only rewrites rows in place. *)
Lemma background_rewrites svc sku user file db :
  exists f, keeps_identity f
    /\ background svc sku user file db = set_skus (map f (skus db)) db.
Proof.
  unfold background. rewrite processSkuGeneration_eq.
  assert (Herr : exists f, keeps_identity f
            /\ set_skus (Query.update_sku_by_id (sku_id sku) mark_error (skus db)) db
               = set_skus (map f (skus db)) db).
  { eexists. split; [apply (keeps_identity_update (sku_id sku)), keeps_identity_mark_error|].
    reflexivity. }
  destruct (svc_parseSteps svc (file_path file)) as [steps|e]; [|exact Herr].
  destruct (svc_generateQRCode svc (sku_id sku) (sku_code sku)) as [qr|e]; [|exact Herr].
  cbv zeta.
  set (v := Video.generateVideo (sku_id sku) (sku_code sku) (product_name sku) steps).
  assert (Hlive : exists f, keeps_identity f
            /\ commit_db sku v qr db = set_skus (map f (skus db)) db).
  { eexists. split; [apply (keeps_identity_update (sku_id sku)),
                        (keeps_identity_commit_live v qr)|]. reflexivity. }
  assert (Hboth : exists f, keeps_identity f
            /\ set_skus (Query.update_sku_by_id (sku_id sku) mark_error
                           (skus (commit_db sku v qr db))) (commit_db sku v qr db)
               = set_skus (map f (skus db)) db).
  { exists (fun r => (fun r' => if Nat.eqb (sku_id r') (sku_id sku) then mark_error r' else r')
                       (if Nat.eqb (sku_id r) (sku_id sku) then commit_live v qr r else r)).
    split.
    - intros s.
      destruct (keeps_identity_update (sku_id sku) _ (keeps_identity_commit_live v qr) s)
        as [E1 [E2 E3]].
      destruct (keeps_identity_update (sku_id sku) _ keeps_identity_mark_error
                  (if Nat.eqb (sku_id s) (sku_id sku) then commit_live v qr s else s))
        as [F1 [F2 F3]].
      cbv beta. rewrite F1, F2, F3. repeat split; assumption.
    - unfold commit_db, set_skus, Query.update_sku_by_id. cbn [skus scans questions
        notification_preferences next_id]. rewrite map_map. reflexivity. }
  destruct (wants_email _); [|exact Hlive].
  destruct (svc_sendQRReadyEmail svc _); [exact Hlive|exact Hboth].
Qed.

Lemma WF_rewrite f db :
  keeps_identity f -> WF db -> WF (set_skus (map f (skus db)) db).
Proof.
  intros Hf [H1 H2 H3 H4 H5 H6 H7].
  assert (Eid : map sku_id (map f (skus db)) = map sku_id (skus db)).
  { rewrite map_map. apply map_ext. intros s. apply Hf. }
  assert (Ekey : map sku_key (map f (skus db)) = map sku_key (skus db)).
  { rewrite map_map. apply map_ext. intros s. unfold sku_key.
    destruct (Hf s) as [_ [E2 E3]]. rewrite E2, E3. reflexivity. }
  assert (Href : forall i c, (exists k, In k (skus db) /\ sku_id k = i /\ sku_company_id k = c)
             -> exists k, In k (map f (skus db)) /\ sku_id k = i /\ sku_company_id k = c).
  { intros i c [k [Hk [E1 E2]]]. exists (f k). split; [apply in_map; exact Hk|].
    destruct (Hf k) as [F1 [F2 _]]. rewrite F1, F2. split; assumption. }
  constructor; cbn [set_skus skus scans questions next_id].
  - rewrite Eid. exact H1.
  - apply Forall_forall. intros s Hs. apply in_map_iff in Hs. destruct Hs as [s0 [E Hs0]].
    subst s. rewrite Forall_forall in H2. destruct (Hf s0) as [E _]. rewrite E.
    apply H2. exact Hs0.
  - unfold unique_codes, set_skus. cbn [skus]. rewrite Ekey. exact H3.
  - exact H4.
  - exact H5.
  - eapply Forall_impl; [|exact H6]. intros s. apply Href.
  - eapply Forall_impl; [|exact H7]. intros q. apply Href.
Qed.

Lemma NoDup_snoc {A} (l : list A) (x : A) : NoDup l -> ~ In x l -> NoDup (l ++ [x]).
Proof.
  intros Hl Hx. apply NoDup_app.
  - exact Hl.
  - constructor; [intros []|constructor].
  - intros y Hy [E|[]]. subst y. exact (Hx Hy).
Qed.

Lemma fresh_not_in {A} (id_of : A -> Id) (l : list A) (n : Id) :
  Forall (fun s => (id_of s < n)%nat) l -> ~ In n (map id_of l).
Proof.
  intros H Hin. apply in_map_iff in Hin. destruct Hin as [s [E Hs]].
  rewrite Forall_forall in H. specialize (H s Hs). lia.
Qed.

Lemma Forall_lt_S {A} (id_of : A -> Id) (l : list A) (n : Id) :
  Forall (fun s => (id_of s < n)%nat) l -> Forall (fun s => (id_of s < S n)%nat) l.
Proof. intros H. eapply Forall_impl; [|exact H]. cbn. intros; lia. Qed.

Lemma WF_post_skus r db : WF db -> WF (fst (fst (post_skus r db))).
Proof.
  intros Hwf.
  destruct (post_skus_cases r db) as [[resp [E _]]|[k [name [cat [furl [file [Ex [_ [_ E]]]]]]]]].
  - rewrite E. exact Hwf.
  - cbv zeta in E. rewrite E. cbn [fst].
    destruct Hwf as [H1 H2 H3 H4 H5 H6 H7].
    assert (Href : forall i c,
              (exists k0, In k0 (skus db) /\ sku_id k0 = i /\ sku_company_id k0 = c) ->
              exists k0, In k0 (skus db ++
                  [mkSku (next_id db) (req_companyId (create_auth r)) k name cat
                     "processing" (Some furl) None None None None None])
                /\ sku_id k0 = i /\ sku_company_id k0 = c).
    { intros i c [k0 [Hk0 Hrest]]. exists k0. split; [|exact Hrest].
      apply in_or_app. left. exact Hk0. }
    constructor; cbn [skus scans questions next_id].
    + rewrite map_app. cbn [map sku_id]. apply NoDup_snoc; [exact H1|].
      apply fresh_not_in. exact H2.
    + apply Forall_app. split; [apply Forall_lt_S; exact H2|].
      constructor; [cbn; lia|constructor].
    + unfold unique_codes. cbn [skus]. rewrite map_app. cbn [map].
      apply NoDup_snoc; [exact H3|]. intros Hin. apply in_map_iff in Hin.
      destruct Hin as [s [Es Hs]].
      assert (existsb (same_code (req_companyId (create_auth r)) k) (skus db) = true);
        [|congruence].
      apply existsb_exists. exists s. split; [exact Hs|]. apply same_code_key. exact Es.
    + exact H4.
    + apply Forall_lt_S. exact H5.
    + eapply Forall_impl; [|exact H6]. intros s. apply Href.
    + eapply Forall_impl; [|exact H7]. intros q. apply Href.
Qed.

Lemma WF_submit svc r db : WF db -> WF (fst (submit svc r db)).
Proof.
  intros Hwf. pose proof (WF_post_skus r db Hwf) as H1. unfold submit.
  destruct (post_skus r db) as [[db1 resp] [j|]]; cbn [fst] in *; [|exact H1].
  destruct (background_rewrites svc (job_sku j) (job_user j) (job_file j) db1)
    as [f [Hf E]].
  rewrite E. apply WF_rewrite; assumption.
Qed.

Lemma update_selected_keeps f sel l :
  (forall s, scan_id (f s) = scan_id s /\ scan_sku_id (f s) = scan_sku_id s
             /\ scan_company_id (f s) = scan_company_id s) ->
  map scan_id (Query.update_selected sel f l) = map scan_id l
  /\ forall s', In s' (Query.update_selected sel f l) ->
       exists s, In s l /\ scan_id s' = scan_id s /\ scan_sku_id s' = scan_sku_id s
                 /\ scan_company_id s' = scan_company_id s.
Proof.
  intros Hf. unfold Query.update_selected. split.
  - rewrite map_map. apply map_ext. intros s.
    destruct (existsb _ sel); [apply Hf|reflexivity].
  - intros s' Hs'. apply in_map_iff in Hs'. destruct Hs' as [s [E Hs]].
    exists s. split; [exact Hs|]. subst s'.
    destruct (existsb _ sel); [apply Hf|repeat split].
Qed.

Lemma NoDup_keys_filter {Row Key} (key : Row -> Key) (keep : Row -> bool)
  (rows : list Row) (Hrows : NoDup (map key rows)) :
  NoDup (map key (filter keep rows)).
Proof.
  induction rows as [|r rows IH]; cbn [map filter]; [constructor|].
  cbn [map] in Hrows. inversion Hrows as [|? ? Hr Hrest]; subst.
  destruct (keep r); cbn [map]; [|exact (IH Hrest)].
  constructor; [|exact (IH Hrest)].
  intros Hin. apply Hr. apply in_map_iff in Hin. destruct Hin as [y [E Hy]].
  apply filter_In in Hy. rewrite <- E. apply in_map. apply Hy.
Qed.

Lemma Forall_filter_keep {A} (P : A -> Prop) (p : A -> bool) (l : list A) :
  Forall P l -> Forall P (filter p l).
Proof.
  intros H. apply Forall_forall. intros x Hx. apply filter_In in Hx.
  rewrite Forall_forall in H. apply H. apply Hx.
Qed.

Lemma WF_apply_op db o : WF db -> WF (apply_op db o).
Proof.
  intros Hwf. destruct o as [svc r|zone now r|r|now r|a id]; cbn [apply_op].
  - apply WF_submit. exact Hwf.
  - unfold post_scan. destruct (falsy _); [exact Hwf|].
    destruct (lookup_live _ db) as [sku|] eqn:Hl; [|exact Hwf]. cbn [fst].
    destruct Hwf as [H1 H2 H3 H4 H5 H6 H7].
    constructor; cbn [skus scans questions next_id]; try assumption.
    + apply Forall_lt_S. exact H2.
    + unfold unique_scan_ids. cbn [scans]. rewrite map_app. cbn [map scan_id].
      apply NoDup_snoc; [exact H4|]. apply fresh_not_in. exact H5.
    + apply Forall_app. split; [apply Forall_lt_S; exact H5|].
      constructor; [cbn; lia|constructor].
    + apply Forall_app. split; [exact H6|]. constructor; [|constructor].
      exists sku. cbn [scan_sku_id scan_company_id]. split; [|split; reflexivity].
      unfold lookup_live in Hl. apply single_inv in Hl.
      assert (Hin : In sku (filter is_live (filter (has_code (filter_text (scanreq_skuCode r)))
                                              (skus db)))) by (rewrite Hl; left; reflexivity).
      apply filter_In in Hin. destruct Hin as [Hin _]. apply filter_In in Hin. apply Hin.
  - unfold post_complete. destruct (lookup_code _ db) as [sku|]; [|exact Hwf]. cbn [fst].
    destruct Hwf as [H1 H2 H3 H4 H5 H6 H7].
    destruct (update_selected_keeps
                (mark_completed (complete_completionStep r) (complete_rating r))
                (latest_scan (sku_id sku) (filter_text (complete_sessionId r)) db)
                (scans db) (fun s => conj eq_refl (conj eq_refl eq_refl))) as [Eid Hin].
    constructor; cbn [set_scans skus scans questions next_id]; try assumption.
    + unfold unique_scan_ids, set_scans. cbn [scans]. rewrite Eid. exact H4.
    + apply Forall_forall. intros s' Hs'. destruct (Hin s' Hs') as [s [Hs [E _]]].
      rewrite E. rewrite Forall_forall in H5. apply H5. exact Hs.
    + apply Forall_forall. intros s' Hs'. destruct (Hin s' Hs') as [s [Hs [_ [E1 E2]]]].
      rewrite E1, E2. rewrite Forall_forall in H6. apply H6. exact Hs.
  - unfold post_question. destruct (_ || _); [exact Hwf|].
    destruct (lookup_code _ db) as [sku|] eqn:Hl; [|exact Hwf]. cbn [fst].
    destruct Hwf as [H1 H2 H3 H4 H5 H6 H7].
    constructor; cbn [skus scans questions next_id]; try assumption.
    + apply Forall_lt_S. exact H2.
    + apply Forall_lt_S. exact H5.
    + apply Forall_app. split; [exact H7|]. constructor; [|constructor].
      exists sku. cbn [question_sku_id question_company_id]. split; [|split; reflexivity].
      unfold lookup_code in Hl. apply single_inv in Hl.
      assert (Hin : In sku (filter (has_code (filter_text (questionreq_skuCode r))) (skus db)))
        by (rewrite Hl; left; reflexivity).
      apply filter_In in Hin. apply Hin.
  - destruct Hwf as [H1 H2 H3 H4 H5 H6 H7].
    set (gone := fun s => Nat.eqb (sku_id s) id
                          && Nat.eqb (sku_company_id s) (req_companyId a)).
    set (dead := map sku_id (filter gone (skus db))).
    assert (Hkept : forall i c,
              negb (existsb (Nat.eqb i) dead) = true ->
              (exists k, In k (skus db) /\ sku_id k = i /\ sku_company_id k = c) ->
              exists k, In k (filter (fun s => negb (gone s)) (skus db))
                        /\ sku_id k = i /\ sku_company_id k = c).
    { intros i c Hi [k [Hk [E1 E2]]]. exists k. split; [|split; assumption].
      apply filter_In. split; [exact Hk|].
      destruct (gone k) eqn:Eg; [|reflexivity]. exfalso.
      apply negb_true_iff in Hi.
      assert (existsb (Nat.eqb i) dead = true); [|congruence].
      apply existsb_exists. exists (sku_id k). split; [|apply Nat.eqb_eq; congruence].
      unfold dead. apply in_map. apply filter_In. split; assumption. }
    constructor; cbn [delete_sku fst skus scans questions next_id];
      fold gone; fold dead.
    + apply NoDup_keys_filter. exact H1.
    + apply Forall_filter_keep. exact H2.
    + unfold unique_codes. cbn [skus]. apply NoDup_keys_filter. exact H3.
    + unfold unique_scan_ids. cbn [scans]. apply NoDup_keys_filter. exact H4.
    + apply Forall_filter_keep. exact H5.
    + apply Forall_forall. intros s Hs. apply filter_In in Hs. destruct Hs as [Hs Hk].
      rewrite Forall_forall in H6. apply (Hkept _ _ Hk). apply H6. exact Hs.
    + apply Forall_forall. intros q Hq. apply filter_In in Hq. destruct Hq as [Hq Hk].
      rewrite Forall_forall in H7. apply (Hkept _ _ Hk). apply H7. exact Hq.
Qed.

(** Every store reached from the empty one by submissions, recordings and
    deletions, whatever the collaborators of the pipeline do, is well
    formed: primary keys are unique, a code occurs once per company, and
    every scan and question belongs to an existing item of the same
    company. *)
Theorem reached_WF (ops : list Op) : WF (reached ops).
Proof.
  unfold reached.
  assert (G : forall db, WF db -> WF (fold_left apply_op ops db)).
  { induction ops as [|o ops IH]; intros db H; [exact H|].
    cbn [fold_left]. apply IH. apply WF_apply_op. exact H. }
  apply G. constructor; cbn; constructor.
Qed.

(** ** Deleting an item *)

Lemma existsb_dead id (l : list Sku) (gone : Sku -> bool) (i : Id) :
  (forall s, gone s = true -> sku_id s = id) ->
  existsb (Nat.eqb i) (map sku_id (filter gone l)) = true
  <-> i = id /\ exists k, In k l /\ gone k = true.
Proof.
  intros Hg. rewrite existsb_exists. split.
  - intros [x [Hx E]]. apply Nat.eqb_eq in E. subst x.
    apply in_map_iff in Hx. destruct Hx as [k [Ek Hk]]. apply filter_In in Hk.
    destruct Hk as [Hk Hgk]. split; [rewrite <- Ek; apply Hg; exact Hgk|].
    exists k. split; assumption.
  - intros [E [k [Hk Hgk]]]. exists (sku_id k). split.
    + apply in_map. apply filter_In. split; assumption.
    + apply Nat.eqb_eq. rewrite (Hg k Hgk). exact E.
Qed.

(** Deleting answers success whether or not a row went away.  It removes
    exactly the caller's own item of the given id, together with the scans
    and questions of that item; afterwards the status poll for the id
    answers 404; and when the caller's company owns no item of that id, as
    for an id of another company, the store is left as it was. *)
Theorem delete_sku_scope (a : Auth) (id : Id) (db : DB) :
  let db' := fst (delete_sku a id db) in
  let owned := exists k, In k (skus db) /\ sku_id k = id
                         /\ sku_company_id k = req_companyId a in
  snd (delete_sku a id db) = success
  /\ (forall s, In s (skus db') <->
        In s (skus db) /\ ~ (sku_id s = id /\ sku_company_id s = req_companyId a))
  /\ (forall s, In s (scans db') <-> In s (scans db) /\ ~ (scan_sku_id s = id /\ owned))
  /\ (forall q, In q (questions db') <->
        In q (questions db) /\ ~ (question_sku_id q = id /\ owned))
  /\ getStatus a id db' = not_found
  /\ (~ owned -> db' = db).
Proof.
  cbv zeta.
  set (gone := fun s => Nat.eqb (sku_id s) id && Nat.eqb (sku_company_id s) (req_companyId a)).
  assert (Hgone : forall s, gone s = true
            <-> sku_id s = id /\ sku_company_id s = req_companyId a).
  { intros s. unfold gone. rewrite andb_true_iff, !Nat.eqb_eq. reflexivity. }
  assert (Hdead : forall i,
            negb (existsb (Nat.eqb i) (map sku_id (filter gone (skus db)))) = true
            <-> ~ (i = id /\ exists k, In k (skus db) /\ sku_id k = id
                                       /\ sku_company_id k = req_companyId a)).
  { intros i. rewrite negb_true_iff, <- not_true_iff_false.
    rewrite (existsb_dead id (skus db) gone i (fun s H => proj1 (proj1 (Hgone s) H))).
    split; intros H C; apply H; destruct C as [E [k [Hk Hg]]]; (split; [exact E|]);
      exists k; (split; [exact Hk|]); apply Hgone; exact Hg. }
  unfold delete_sku. cbn [fst snd skus scans questions]. fold gone.
  split; [reflexivity|]. split; [|split; [|split; [|split]]].
  - intros s. rewrite filter_In. cbv beta. fold (gone s).
    rewrite negb_true_iff, <- not_true_iff_false, Hgone. reflexivity.
  - intros s. rewrite filter_In. cbv beta. rewrite Hdead. reflexivity.
  - intros q. rewrite filter_In. cbv beta. rewrite Hdead. reflexivity.
  - unfold getStatus, not_found. cbn [skus]. rewrite filter_filter.
    rewrite filter_none; [reflexivity|].
    intros s _. fold (gone s). destruct (gone s); reflexivity.
  - intros Hnone.
    assert (E1 : filter (fun s => negb (gone s)) (skus db) = skus db).
    { rewrite <- (filter_ext_in (fun _ => true)); [clear; induction (skus db); cbn; congruence|].
      intros s Hs. symmetry. apply negb_true_iff. apply not_true_iff_false.
      rewrite Hgone. intros [E1 E2]. apply Hnone. exists s. repeat split; assumption. }
    assert (Hall : forall i,
              negb (existsb (Nat.eqb i) (map sku_id (filter gone (skus db)))) = true).
    { intros i. apply Hdead. intros [_ H]. exact (Hnone H). }
    assert (E2 : forall {A} (f : A -> Id) (l : list A),
              filter (fun x => negb (existsb (Nat.eqb (f x))
                                       (map sku_id (filter gone (skus db))))) l = l).
    { intros A f l. induction l as [|x l IH]; [reflexivity|].
      cbn [filter]. rewrite (Hall (f x)), IH. reflexivity. }
    transitivity (mkDB (skus db) (scans db) (questions db)
                    (notification_preferences db) (next_id db));
      [|destruct db; reflexivity].
    f_equal; [exact E1|exact (E2 _ scan_sku_id (scans db))
             |exact (E2 _ question_sku_id (questions db))].
Qed.

Lemma delete_sku_scope_witness :
  let bob := mkAuth Demo.bob Demo.globex in
  delete_sku bob 0%nat (mkDB [Demo.fresh] [] [] [] 1%nat)
  = (mkDB [Demo.fresh] [] [] [] 1%nat, success).
Proof.
  cbv zeta.
  destruct (delete_sku_scope (mkAuth Demo.bob Demo.globex) 0%nat
              (mkDB [Demo.fresh] [] [] [] 1%nat)) as [Hs [_ [_ [_ [_ Hsame]]]]].
  rewrite (surjective_pairing (delete_sku _ _ _)), Hs, Hsame; [reflexivity|].
  intros [k [[E|[]] [_ Hc]]]. subst k. discriminate Hc.
Defined.

Lemma post_skus_reused_code r db s :
  In s (skus db) -> sku_company_id s = req_companyId (create_auth r) ->
  create_skuCode r = Some (sku_code s) ->
  exists resp, post_skus r db = (db, resp, None) /\ code resp <> 202.
Proof.
  intros Hs Hc Hk.
  destruct (post_skus_cases r db) as [H|[k [name [cat [furl [file [Ex [_ [Ek _]]]]]]]]];
    [exact H|].
  exfalso. rewrite Hk in Ek.
  assert (Ek' : k = sku_code s).
  { rewrite Ek. cbn. destruct (String.eqb_spec (sku_code s) ""); congruence. }
  assert (Hin : existsb (same_code (req_companyId (create_auth r)) k) (skus db) = true).
  { apply existsb_exists. exists s. split; [exact Hs|]. apply same_code_true.
    split; [exact Hc|]. symmetry. exact Ek'. }
  congruence.
Qed.

(** Once its item is deleted, a code is free again: in a store with unique
    codes, after the owner deletes the item that carries a code, a
    well-formed submission of that code by the same company that passes the
    quota check is accepted. *)
Theorem delete_then_resubmit (r : CreateRequest) (db : DB) (s : Sku)
  (k name : string) (file : File) :
  unique_codes db ->
  In s (skus db) -> sku_company_id s = req_companyId (create_auth r) -> sku_code s = k ->
  create_skuCode r = Some k -> k <> "" ->
  create_productName r = Some name -> name <> "" ->
  create_file r = Some file ->
  let db' := fst (delete_sku (create_auth r) (sku_id s) db) in
  checkSkuLimit (create_auth r) db' = None ->
  code (snd (fst (post_skus r db))) <> 202
  /\ code (snd (fst (post_skus r db'))) = 202.
Proof.
  intros Hu Hs Hc Hk Hcode Hk0 Hname Hn0 Hfile db' Hq. split.
  - destruct (post_skus_reused_code r db s Hs Hc) as [resp [E Hne]]; [congruence|].
    rewrite E. exact Hne.
  - rewrite (post_skus_accept r db' k name file Hq Hcode Hk0 Hname Hn0 Hfile); [reflexivity|].
    intros s' Hs' Hc' Hk'. unfold db', delete_sku in Hs'. cbn [fst skus] in Hs'.
    apply filter_In in Hs'. destruct Hs' as [Hin Hkept].
    apply negb_true_iff in Hkept. apply not_true_iff_false in Hkept. apply Hkept.
    apply andb_true_iff. rewrite !Nat.eqb_eq.
    assert (E : s' = s).
    { assert (F : filter (same_code (req_companyId (create_auth r)) k) (skus db) = [s])
        by (apply filter_same_code_unique; [exact Hu|exact Hs|apply same_code_true; tauto]).
      assert (Hin' : In s' (filter (same_code (req_companyId (create_auth r)) k) (skus db)))
        by (apply filter_In; split; [exact Hin|apply same_code_true; tauto]).
      rewrite F in Hin'. destruct Hin' as [E|[]]. symmetry. exact E. }
    subst s'. split; [reflexivity|exact Hc].
Qed.

(** ** The life of a submission *)

Lemma update_fresh_row (f : Sku -> Sku) (l : list Sku) (row : Sku) :
  Forall (fun s => (sku_id s < sku_id row)%nat) l ->
  Query.update_sku_by_id (sku_id row) f (l ++ [row]) = (l ++ [f row])%list.
Proof.
  intros H. unfold Query.update_sku_by_id. rewrite map_app. cbn [map].
  rewrite Nat.eqb_refl. f_equal. rewrite <- (map_id l) at 2. apply map_ext_in.
  intros s Hs. rewrite Forall_forall in H. specialize (H s Hs).
  destruct (Nat.eqb_spec (sku_id s) (sku_id row)); [lia|reflexivity].
Qed.

(** What an accepted submission looks like. *)
Lemma post_skus_accepted r db db1 resp j :
  post_skus r db = (db1, resp, Some j) ->
  sku_id (job_sku j) = next_id db
  /\ sku_company_id (job_sku j) = req_companyId (create_auth r)
  /\ status (job_sku j) = "processing" /\ derived_unset (job_sku j)
  /\ skus db1 = (skus db ++ [job_sku j])%list
  /\ scans db1 = scans db /\ questions db1 = questions db
  /\ notification_preferences db1 = notification_preferences db
  /\ job_user j = req_user (create_auth r)
  /\ resp = mkResponse 202
              (JsonCreated "SKU created — generating video and QR code"
                 (next_id db) (sku_code (job_sku j)) (product_name (job_sku j))
                 "processing").
Proof.
  intros E.
  destruct (post_skus_cases r db) as [[resp' [E' _]]|[k [name [cat [furl [file [_ [_ [_ E']]]]]]]]];
    rewrite E' in E; [discriminate|].
  cbv zeta in E. inversion E; subst. cbn. repeat split; reflexivity.
Qed.

(** A pipeline that fails before the commit, in extraction or in the code
    generator, leaves the submitted item in status [error] with none of the
    derived fields set, and every other row as it was. *)
Theorem stage_failure_leaves_error svc r db db1 resp j e :
  post_skus r db = (db1, resp, Some j) ->
  Forall (fun s => (sku_id s < next_id db)%nat) (skus db) ->
  svc_parseSteps svc (file_path (job_file j)) = Throw e
  \/ ((exists steps, svc_parseSteps svc (file_path (job_file j)) = Ok steps)
      /\ svc_generateQRCode svc (sku_id (job_sku j)) (sku_code (job_sku j)) = Throw e) ->
  let db2 := background svc (job_sku j) (job_user j) (job_file j) db1 in
  skus db2 = (skus db ++ [mark_error (job_sku j)])%list
  /\ status (mark_error (job_sku j)) = "error"
  /\ derived_unset (mark_error (job_sku j))
  /\ scans db2 = scans db /\ questions db2 = questions db.
Proof.
  intros Hpost Hfresh Hfail. cbv zeta.
  destruct (post_skus_accepted r db db1 resp j Hpost)
    as [Hid [_ [_ [Hunset [Hskus [Hscans [Hq _]]]]]]].
  assert (E : background svc (job_sku j) (job_user j) (job_file j) db1
              = set_skus (Query.update_sku_by_id (sku_id (job_sku j)) mark_error (skus db1))
                  db1).
  { unfold background. rewrite processSkuGeneration_eq.
    destruct Hfail as [Hp|[[steps Hp] Hqr]]; rewrite Hp; [reflexivity|].
    rewrite Hqr. reflexivity. }
  rewrite E. cbn [set_skus skus scans questions]. rewrite Hskus.
  rewrite update_fresh_row by (rewrite Hid; exact Hfresh).
  split; [reflexivity|]. split; [reflexivity|]. split; [exact Hunset|].
  split; assumption.
Qed.

Lemma stage_failure_leaves_error_witness :
  skus (fst (submit Demo.qr_down (Demo.upload Demo.alice Demo.acme "KALLAX") Demo.empty))
  = [mark_error Demo.fresh].
Proof.
  destruct (stage_failure_leaves_error Demo.qr_down
              (Demo.upload Demo.alice Demo.acme "KALLAX") Demo.empty
              (mkDB [Demo.fresh] [] [] [] 1%nat)
              (mkResponse 202
                 (JsonCreated "SKU created — generating video and QR code"
                    0%nat "KALLAX" "Kallax shelf" "processing"))
              (mkJob Demo.fresh Demo.alice Demo.manual) "ENOENT: public/qr"
              eq_refl (Forall_nil _)
              (or_intror (conj (ex_intro _ _ eq_refl) eq_refl))) as [H _].
  exact H.
Defined.

(** The ready mail is gated by the preference record: when the owner's one
    record has [qr_ready] off, no mail is sent and the item ends live
    whatever the mail transport would do; when the record says yes, or is
    missing or not unique, the mail is sent and its outcome is the outcome
    of the pipeline. *)
Theorem ready_mail_gate svc sku user file db steps qr :
  svc_parseSteps svc (file_path file) = Ok steps ->
  svc_generateQRCode svc (sku_id sku) (sku_code sku) = Ok qr ->
  let live := commit_db sku
                (Video.generateVideo (sku_id sku) (sku_code sku) (product_name sku) steps)
                qr db in
  (forall p, read_prefs user db = Some p -> qr_ready p = false ->
     background svc sku user file db = live)
  /\ (read_prefs user db = None
      \/ (exists p, read_prefs user db = Some p /\ qr_ready p = true) ->
      processSkuGeneration svc sku user file db
      = (live, svc_sendQRReadyEmail svc
                 (mkEmail (user_email user) (product_name sku) (sku_code sku)
                    (fst qr) (snd qr)))).
Proof.
  intros Hp Hq. cbv zeta. split.
  - intros p Hr Hoff. unfold background. rewrite processSkuGeneration_eq, Hp, Hq.
    cbv zeta. rewrite Hr. cbn [wants_email]. rewrite Hoff. reflexivity.
  - intros Hon. rewrite processSkuGeneration_eq, Hp, Hq. cbv zeta.
    destruct Hon as [Hr|[p [Hr Hyes]]]; rewrite Hr; cbn [wants_email];
      [|rewrite Hyes]; reflexivity.
Qed.

Lemma ready_mail_gate_witness :
  let db := mkDB [Demo.fresh] [] [] [mkPref 10%nat false] 1%nat in
  map status (skus (background Demo.mail_down Demo.fresh Demo.alice Demo.manual db))
  = ["live"].
Proof.
  cbv zeta.
  destruct (ready_mail_gate Demo.mail_down Demo.fresh Demo.alice Demo.manual
              (mkDB [Demo.fresh] [] [] [mkPref 10%nat false] 1%nat)
              (Video.parseSteps "uploads/3f0c.pdf")
              ("/public/qr/KALLAX.png", "https://assemblyai.app/s/KALLAX")
              eq_refl eq_refl) as [H _].
  rewrite (H (mkPref 10%nat false) eq_refl eq_refl). reflexivity.
Defined.

(** A new item can be polled at once: after an accepted submission the
    status poll by the same caller for the returned id answers 200 with
    status [processing] and no derived field. *)
Theorem create_then_status r db db1 resp j :
  post_skus r db = (db1, resp, Some j) ->
  Forall (fun s => (sku_id s < next_id db)%nat) (skus db) ->
  exists k name,
    resp = mkResponse 202
             (JsonCreated "SKU created — generating video and QR code"
                (next_id db) k name "processing")
    /\ getStatus (create_auth r) (next_id db) db1
       = mkResponse 200 (JsonStatus "processing" (next_id db) None None None None).
Proof.
  intros Hpost Hfresh.
  destruct (post_skus_accepted r db db1 resp j Hpost)
    as [Hid [Hc [Hst [Hunset [Hskus [_ [_ [_ [_ Hresp]]]]]]]]].
  exists (sku_code (job_sku j)), (product_name (job_sku j)). split; [exact Hresp|].
  unfold getStatus. rewrite Hskus, filter_app.
  rewrite (filter_none _ (skus db)).
  - cbn [filter app]. rewrite Hid, Hc, !Nat.eqb_refl. cbn [andb Query.single].
    destruct Hunset as [H1 [_ [H3 [H4 H5]]]]. rewrite Hst, Hid, H1, H3, H4, H5.
    reflexivity.
  - intros s Hs. rewrite Forall_forall in Hfresh. specialize (Hfresh s Hs).
    destruct (Nat.eqb_spec (sku_id s) (next_id db)); [lia|reflexivity].
Qed.

Lemma create_then_status_witness :
  getStatus (mkAuth Demo.alice Demo.acme) 0%nat
    (fst (fst (post_skus (Demo.upload Demo.alice Demo.acme "KALLAX") Demo.empty)))
  = mkResponse 200 (JsonStatus "processing" 0%nat None None None None).
Proof.
  destruct (create_then_status (Demo.upload Demo.alice Demo.acme "KALLAX") Demo.empty
              (mkDB [Demo.fresh] [] [] [] 1%nat) _ _ eq_refl (Forall_nil _))
    as [k [name [_ H]]].
  exact H.
Defined.

Lemma delete_then_resubmit_witness :
  let db := mkDB [Demo.fresh] [] [] [] 1%nat in
  let r := Demo.upload Demo.alice Demo.acme "KALLAX" in
  code (snd (fst (post_skus r db))) <> 202
  /\ code (snd (fst (post_skus r (fst (delete_sku (mkAuth Demo.alice Demo.acme) 0%nat db)))))
     = 202.
Proof.
  cbv zeta.
  apply (delete_then_resubmit (Demo.upload Demo.alice Demo.acme "KALLAX")
           (mkDB [Demo.fresh] [] [] [] 1%nat) Demo.fresh "KALLAX" "Kallax shelf"
           Demo.manual).
  - unfold unique_codes. cbn. constructor; [intros []|constructor].
  - left. reflexivity.
  - reflexivity.
  - reflexivity.
  - reflexivity.
  - discriminate.
  - reflexivity.
  - discriminate.
  - reflexivity.
  - reflexivity.
Defined.

(** From upload to guide: when a well-formed submission of a code that no
    item carries passes the quota check and extraction, code generation
    and mail all succeed, then afterwards the consumer page of the code
    shows the product name, the number of extracted steps and 38 seconds
    per step, the status poll shows the item live with the generated
    references, and scans of the code are recorded. *)
Theorem submit_then_live svc r db k name file steps qr :
  create_skuCode r = Some k -> k <> "" ->
  create_productName r = Some name -> name <> "" ->
  create_file r = Some file ->
  checkSkuLimit (create_auth r) db = None ->
  Forall (fun s => (sku_id s < next_id db)%nat) (skus db) ->
  (forall s, In s (skus db) -> sku_code s <> k) ->
  svc_parseSteps svc (file_path file) = Ok steps ->
  svc_generateQRCode svc (next_id db) k = Ok qr ->
  (forall m, svc_sendQRReadyEmail svc m = Ok tt) ->
  let db' := fst (submit svc r db) in
  let N := Z.of_nat (List.length steps) in
  snd (submit svc r db)
    = mkResponse 202
        (JsonCreated "SKU created — generating video and QR code"
           (next_id db) k name "processing")
  /\ get_guide k db' = mkResponse 200 (HtmlGuide name k (Some N) (Some (N * 38)))
  /\ getStatus (create_auth r) (next_id db) db'
     = mkResponse 200
         (JsonStatus "live" (next_id db) (Some (fst qr)) (Some (snd qr))
            (Some (Video.videoUrl (Video.generateVideo (next_id db) k name steps)))
            (Some N))
  /\ forall zone now session agent,
       snd (post_scan zone now (mkScanReq (Some k) session agent) db') = success.
Proof.
  intros Hk Hk0 Hn Hn0 Hf Hq Hfresh Hfree Hp Hqr Hmail. cbv zeta.
  pose proof (post_skus_accept r db k name file Hq Hk Hk0 Hn Hn0 Hf
                (fun s Hs _ => Hfree s Hs)) as Hpost.
  cbv zeta in Hpost. unfold submit. rewrite Hpost.
  cbn [fst snd job_sku job_user job_file].
  set (row := mkSku (next_id db) (req_companyId (create_auth r)) k name
                (or_default (create_category r) "Other") "processing"
                (Some ("/uploads/" ++ file_filename file)%string)
                None None None None None) in *.
  set (db1 := mkDB (skus db ++ [row]) (scans db) (questions db)
                (notification_preferences db) (S (next_id db))) in *.
  set (v := Video.generateVideo (next_id db) k name steps).
  assert (Hback : background svc row (req_user (create_auth r)) file db1
                  = commit_db row v qr db1).
  { unfold background. rewrite processSkuGeneration_eq. cbn [sku_id sku_code product_name row].
    rewrite Hp, Hqr. cbv zeta. fold v.
    destruct (wants_email _); [rewrite Hmail|]; reflexivity. }
  rewrite Hback.
  assert (Hskus : skus (commit_db row v qr db1) = (skus db ++ [commit_live v qr row])%list).
  { unfold commit_db, set_skus. cbn [skus db1].
    apply update_fresh_row. exact Hfresh. }
  assert (Hcode : filter (has_code k) (skus db) = []).
  { apply filter_none. intros s Hs. apply String.eqb_neq. apply Hfree. exact Hs. }
  assert (Hlive : lookup_live k (commit_db row v qr db1) = Some (commit_live v qr row)).
  { unfold lookup_live. rewrite Hskus, filter_app, Hcode. cbn [app filter].
    unfold has_code. cbn [sku_code commit_live row]. rewrite String.eqb_refl.
    reflexivity. }
  split; [reflexivity|]. split; [|split].
  - unfold get_guide. rewrite Hlive. reflexivity.
  - unfold getStatus. rewrite Hskus, filter_app. rewrite (filter_none _ (skus db)).
    + cbn [app filter sku_id sku_company_id commit_live row]. rewrite !Nat.eqb_refl.
      reflexivity.
    + intros s Hs. rewrite Forall_forall in Hfresh. specialize (Hfresh s Hs).
      destruct (Nat.eqb_spec (sku_id s) (next_id db)); [lia|reflexivity].
  - intros zone now session agent. unfold post_scan.
    cbn [scanreq_skuCode filter_text]. rewrite (falsy_some k Hk0), Hlive. reflexivity.
Qed.

Lemma submit_then_live_witness :
  get_guide "KALLAX"
    (fst (submit Demo.all_up (Demo.upload Demo.alice Demo.acme "KALLAX") Demo.empty))
  = mkResponse 200 (HtmlGuide "Kallax shelf" "KALLAX" (Some 6) (Some 228)).
Proof.
  destruct (submit_then_live Demo.all_up (Demo.upload Demo.alice Demo.acme "KALLAX")
              Demo.empty "KALLAX" "Kallax shelf" Demo.manual
              (Video.parseSteps "uploads/3f0c.pdf")
              ("/public/qr/KALLAX.png", "https://assemblyai.app/s/KALLAX")
              eq_refl ltac:(discriminate) eq_refl ltac:(discriminate) eq_refl eq_refl
              (Forall_nil _) (fun s H => match H with end) eq_refl eq_refl
              (fun m => eq_refl)) as [_ [H _]].
  exact H.
Defined.

(** ** Uploads in flight and the quota *)

Lemma post_skus_liveCount r db c :
  liveCount c (fst (fst (post_skus r db))) = liveCount c db.
Proof.
  destruct (post_skus_cases r db) as [[resp [E _]]|[k [name [cat [furl [file [_ [_ [_ E]]]]]]]]];
    rewrite E; [reflexivity|].
  cbv zeta. cbn [fst]. unfold liveCount, live_skus. cbn [skus].
  rewrite !filter_app. cbn [filter]. destruct (of_company c _); cbn [filter];
    rewrite app_nil_r; reflexivity.
Qed.

Lemma checkSkuLimit_liveCount a db db' :
  liveCount (req_companyId a) db' = liveCount (req_companyId a) db ->
  checkSkuLimit a db' = checkSkuLimit a db.
Proof. intros H. unfold checkSkuLimit. rewrite H. reflexivity. Qed.

(** The quota check counts live items only, so uploads that are still in
    processing never count: whenever the check lets a company through,
    any number of well-formed submissions of new, pairwise different codes
    made before a pipeline finishes are all accepted, and each adds an
    item. *)
Theorem uploads_in_flight_pass_quota (a : Auth) (rs : list CreateRequest) (db : DB) :
  checkSkuLimit a db = None ->
  Forall (fun r => create_auth r = a /\ well_formed_upload r) rs ->
  NoDup (map create_skuCode rs) ->
  (forall r s, In r rs -> In s (skus db) ->
     sku_company_id s = req_companyId a -> create_skuCode r <> Some (sku_code s)) ->
  let out := post_many rs db in
  Forall (fun resp => code resp = 202) (snd out)
  /\ List.length (snd out) = List.length rs
  /\ List.length (skus (fst out)) = (List.length (skus db) + List.length rs)%nat
  /\ checkSkuLimit a (fst out) = None.
Proof.
  cbv zeta. revert db. induction rs as [|r rs IH]; intros db Hq Hwf Hnd Hfree.
  - cbn. repeat split; try constructor; try lia; exact Hq.
  - inversion Hwf as [|? ? [Ha [Hk [Hn Hf]]] Hwf']; subst.
    cbn [map] in Hnd. inversion Hnd as [|? ? Hr Hnd']; subst.
    destruct (create_skuCode r) as [k|] eqn:Ek; [|discriminate Hk].
    destruct (create_productName r) as [name|] eqn:En; [|discriminate Hn].
    destruct (create_file r) as [file|] eqn:Ef; [|contradiction].
    assert (Hk0 : k <> "") by (intros E; subst k; discriminate Hk).
    assert (Hn0 : name <> "") by (intros E; subst name; discriminate Hn).
    pose proof (post_skus_accept r db k name file Hq Ek Hk0 En Hn0 Ef) as Hpost.
    cbv zeta in Hpost. cbn [post_many]. rewrite Hpost.
    2:{ intros s Hs Hc E. apply (Hfree r s (or_introl eq_refl) Hs Hc). congruence. }
    match goal with |- context [post_many rs ?d] => set (db1 := d) end.
    destruct (IH db1) as [H1 [H2 [H3 H4]]].
    + unfold db1. rewrite checkSkuLimit_app_not_live; [exact Hq|reflexivity].
    + exact Hwf'.
    + exact Hnd'.
    + intros r' s Hr' Hs Hc. unfold db1 in Hs. cbn [skus] in Hs. apply in_app_or in Hs.
      destruct Hs as [Hs|[Hs|[]]].
      * apply (Hfree r' s (or_intror Hr') Hs Hc).
      * subst s. cbn [sku_code]. intros E. apply Hr. rewrite <- E.
        apply in_map. exact Hr'.
    + destruct (post_many rs db1) as [db2 resps]. cbn [fst snd] in *.
      split; [constructor; [reflexivity|exact H1]|]. split; [cbn; lia|].
      split; [|exact H4]. rewrite H3. unfold db1. cbn [skus].
      rewrite length_app. cbn. lia.
Qed.

Lemma uploads_in_flight_pass_quota_witness :
  let rs := [Demo.upload Demo.alice Demo.acme "KALLAX";
             Demo.upload Demo.alice Demo.acme "BILLY";
             Demo.upload Demo.alice Demo.acme "MALM"] in
  map code (snd (post_many rs Demo.empty)) = [202; 202; 202]
  /\ company_sku_limit Demo.acme = 2
  /\ List.length (skus (fst (post_many rs Demo.empty))) = 3%nat.
Proof.
  cbv zeta.
  destruct (uploads_in_flight_pass_quota (mkAuth Demo.alice Demo.acme)
              [Demo.upload Demo.alice Demo.acme "KALLAX";
               Demo.upload Demo.alice Demo.acme "BILLY";
               Demo.upload Demo.alice Demo.acme "MALM"] Demo.empty) as [_ [_ [H _]]].
  - reflexivity.
  - repeat constructor; discriminate.
  - cbn. repeat constructor; cbn; intuition discriminate.
  - intros r s _ [].
  - split; [vm_compute; reflexivity|]. split; [reflexivity|exact H].
Defined.

(** ** Recording a scan and its completion *)

Lemma lookup_live_of_code k db sku :
  lookup_code k db = Some sku -> is_live sku = true -> lookup_live k db = Some sku.
Proof.
  unfold lookup_code, lookup_live. intros H Hl. apply single_inv in H. rewrite H.
  cbn [filter]. rewrite Hl. reflexivity.
Qed.

(** A scan followed by its completion: when a code resolves to a live item
    and a scan is recorded under a session id at a time later than every
    earlier scan of that item and session, a completion sent for the same
    code and session marks exactly the row just recorded, with the
    completion step and the rating as sent, and touches no other row. *)
Theorem scan_then_complete (zone : Date.Zone) (now : Z) (db : DB) (sku : Sku) (k session : string)
  (agent : option string) (step rate : option Z) :
  lookup_code k db = Some sku -> is_live sku = true ->
  k <> "" -> session <> "" ->
  unique_scan_ids db ->
  Forall (fun s => (scan_id s < next_id db)%nat) (scans db) ->
  (forall s, In s (scans db) -> of_session (sku_id sku) session s = true ->
     scanned_at s < now) ->
  let db1 := fst (post_scan zone now (mkScanReq (Some k) (Some session) agent) db) in
  let done := post_complete (mkCompleteReq (Some k) (Some session) step rate) db1 in
  snd done = success
  /\ scans (fst done)
     = (scans db ++
          [mkScan (next_id db) (sku_id sku) (sku_company_id sku) session agent
             (Date.getHours zone now) true step (num_or_null rate) now])%list.
Proof.
  intros Hcode Hlive Hk0 Hs0 Huniq Hfresh Hlate. cbv zeta.
  unfold post_scan. cbn [scanreq_skuCode scanreq_sessionId scanreq_userAgent filter_text].
  rewrite (falsy_some k Hk0), (lookup_live_of_code k db sku Hcode Hlive).
  rewrite (or_default_some session _ Hs0). cbn [fst].
  set (row := mkScan (next_id db) (sku_id sku) (sku_company_id sku) session agent
                (Date.getHours zone now) false None None now).
  set (db1 := mkDB (skus db) (scans db ++ [row]) (questions db)
                (notification_preferences db) (S (next_id db))).
  unfold post_complete. cbn [complete_skuCode complete_sessionId complete_completionStep
                               complete_rating filter_text].
  assert (Hcode1 : lookup_code k db1 = Some sku) by exact Hcode.
  rewrite Hcode1. cbn [fst snd]. split; [reflexivity|].
  assert (Hrow : of_session (sku_id sku) session row = true).
  { unfold of_session. cbn [scan_sku_id scan_session_id row].
    rewrite Nat.eqb_refl, String.eqb_refl. reflexivity. }
  destruct (latest_scan_cases (sku_id sku) session db1)
    as [[Hnone _]|[x [Hsel [Hx [Hxs Hmax]]]]].
  - exfalso.
    assert (Hin : In row (filter (of_session (sku_id sku) session) (scans db1))).
    { apply filter_In. split; [|exact Hrow]. cbn [scans db1]. apply in_or_app.
      right. left. reflexivity. }
    rewrite Hnone in Hin. exact Hin.
  - assert (Ex : x = row).
    { cbn [scans db1] in Hx. apply in_app_or in Hx. destruct Hx as [Hx|[Hx|[]]].
      - exfalso. pose proof (Hlate x Hx Hxs) as Hlt.
        assert (Hle : scanned_at row <= scanned_at x).
        { apply Hmax; [|exact Hrow]. cbn [scans db1]. apply in_or_app. right. left.
          reflexivity. }
        cbn [scanned_at row] in Hle. lia.
      - symmetry. exact Hx. }
    subst x. rewrite Hsel. cbn [set_scans scans db1].
    rewrite update_selected_one.
    + destruct step; reflexivity.
    + rewrite map_app. cbn [map scan_id row]. apply NoDup_snoc; [exact Huniq|].
      apply fresh_not_in. exact Hfresh.
Qed.

Lemma scan_then_complete_witness :
  let db := fst (submit Demo.all_up (Demo.upload Demo.alice Demo.acme "KALLAX") Demo.empty) in
  let db1 := fst (post_scan Date.utc 1704103200000
                    (mkScanReq (Some "KALLAX") (Some "k3x9") None) db) in
  scans (fst (post_complete (mkCompleteReq (Some "KALLAX") (Some "k3x9") None (Some 5)) db1))
  = [mkScan 1%nat 0%nat 1%nat "k3x9" None 10 true None (Some 5) 1704103200000].
Proof.
  cbv zeta.
  destruct (scan_then_complete Date.utc 1704103200000
              (fst (submit Demo.all_up (Demo.upload Demo.alice Demo.acme "KALLAX")
                      Demo.empty))
              (mkSku 0%nat 1%nat "KALLAX" "Kallax shelf" "Other" "live"
                 (Some "/uploads/3f0c.pdf")
                 (Some "https://storage.assemblyai.app/videos/0/assembly.mp4")
                 (Some "/public/qr/KALLAX.png") (Some "https://assemblyai.app/s/KALLAX")
                 (Some 6) (Some 228))
              "KALLAX" "k3x9" None None (Some 5)) as [_ H].
  - vm_compute. reflexivity.
  - reflexivity.
  - discriminate.
  - discriminate.
  - unfold unique_scan_ids. vm_compute. constructor.
  - vm_compute. constructor.
  - intros s Hs. vm_compute in Hs. contradiction.
  - rewrite H. vm_compute. reflexivity.
Defined.



Lemma tod_buckets_count_witness :
  let scan (id : Id) (h : Z) := mkScan id 0%nat 1%nat "k3x9" None h false None None 0 in
  tod_buckets [scan 1%nat 10; scan 2%nat 23; scan 3%nat 3; scan 4%nat 6]
  = [("6-9", 1); ("9-12", 1); ("12-15", 0); ("15-18", 0); ("18-21", 0); ("21+", 2)]
  /\ tod_label 3 = "21+".
Proof.
  cbv zeta. split; [vm_compute; reflexivity|].
  match goal with |- tod_label ?h = _ =>
    destruct (tod_buckets_count []) as [_ [_ [_ [H _]]]]; apply (H h); lia end.
Defined.


(** ** Sessions of the overview *)

Lemma prop_get_set {V} k k' (c : V) obj :
  prop_get k (prop_set k' c obj)
  = if String.eqb k' k then Some c else prop_get k obj.
Proof.
  induction obj as [|[k0 c0] obj IH]; cbn [prop_set prop_get].
  - destruct (String.eqb k' k); reflexivity.
  - destruct (String.eqb_spec k0 k') as [E|N]; cbn [prop_get].
    + subst k0. destruct (String.eqb k' k); reflexivity.
    + destruct (String.eqb_spec k0 k) as [E|N'].
      * subst k0. destruct (String.eqb_spec k' k); [congruence|reflexivity].
      * exact IH.
Qed.

Lemma keys_prop_set {V} k k' (c : V) obj :
  In k (map fst (prop_set k' c obj)) <-> k = k' \/ In k (map fst obj).
Proof.
  induction obj as [|[k0 c0] obj IH]; cbn [prop_set map fst In].
  - intuition.
  - destruct (String.eqb_spec k0 k') as [E|N]; cbn [map fst In].
    + subst. intuition.
    + rewrite IH. intuition.
Qed.

Lemma NoDup_prop_set {V} k (c : V) obj :
  NoDup (map fst obj) -> NoDup (map fst (prop_set k c obj)).
Proof.
  induction obj as [|[k0 c0] obj IH]; cbn [prop_set map fst]; intros H.
  - constructor; [intros []|constructor].
  - inversion H as [|? ? Hk Hobj]; subst.
    destruct (String.eqb_spec k0 k) as [E|N]; cbn [map fst].
    + constructor; assumption.
    + constructor; [|apply IH; exact Hobj].
      rewrite keys_prop_set. intros [E|Hin]; [congruence|contradiction].
Qed.

Lemma length_prop_set {V} k (c : V) obj :
  (List.length (prop_set k c obj) <= S (List.length obj))%nat.
Proof.
  induction obj as [|[k0 c0] obj IH]; cbn [prop_set List.length]; [lia|].
  destruct (String.eqb k0 k); cbn [List.length]; lia.
Qed.

Lemma prop_get_In {V} k (c : V) obj :
  NoDup (map fst obj) -> (In (k, c) obj <-> prop_get k obj = Some c).
Proof.
  induction obj as [|[k0 c0] obj IH]; cbn [map fst prop_get In]; intros Hnd.
  - split; [intros []|discriminate].
  - inversion Hnd as [|? ? Hk Hobj]; subst.
    destruct (String.eqb_spec k0 k) as [E|N].
    + subst k0. split.
      * intros [E|Hin]; [inversion E; reflexivity|].
        exfalso. apply Hk. change k with (fst (k, c)). apply in_map. exact Hin.
      * intros E. inversion E. left. reflexivity.
    + rewrite <- (IH Hobj). split.
      * intros [E|Hin]; [inversion E; congruence|exact Hin].
      * intros Hin. right. exact Hin.
Qed.

Lemma prop_get_keys {V} k (obj : list (string * V)) :
  In k (map fst obj) <-> prop_get k obj <> None.
Proof.
  induction obj as [|[k0 c0] obj IH]; cbn [map fst prop_get In].
  - split; [intros []|intros H; apply H; reflexivity].
  - destruct (String.eqb_spec k0 k) as [E|N].
    + split; [discriminate|intros _; left; exact E].
    + rewrite <- IH. split; [intros [E|H]; [congruence|exact H]|intros H; right; exact H].
Qed.

Lemma session_counts_general (scans : list Scan) :
  NoDup (map fst (session_counts scans))
  /\ (List.length (session_counts scans) <= List.length scans)%nat.
Proof.
  unfold session_counts.
  assert (G : forall obj, NoDup (map fst obj) ->
            NoDup (map fst (fold_left (fun o s => count_session o (scan_session_id s))
                              scans obj))
            /\ (List.length (fold_left (fun o s => count_session o (scan_session_id s))
                               scans obj) <= List.length obj + List.length scans)%nat).
  { induction scans as [|s scans IH]; intros obj Hnd; cbn [fold_left List.length].
    - split; [exact Hnd|lia].
    - assert (Hstep : NoDup (map fst (count_session obj (scan_session_id s)))
                      /\ (List.length (count_session obj (scan_session_id s))
                          <= S (List.length obj))%nat).
      { unfold count_session. destruct (String.eqb _ "__proto__"); [split; [exact Hnd|lia]|].
        destruct (prop_get _ obj) as [[n|]|];
          try (split; [apply NoDup_prop_set; exact Hnd|apply length_prop_set]).
        split; [exact Hnd|lia]. }
      destruct Hstep as [H1 H2]. destruct (IH _ H1) as [H3 H4]. split; [exact H3|lia]. }
  destruct (G [] (NoDup_nil _)) as [H1 H2]. split; [exact H1|exact H2].
Qed.

Lemma session_counts_exact (scans : list Scan) :
  Forall (fun s => inherited_name (scan_session_id s) = false) scans ->
  forall k, prop_get k (session_counts scans)
            = if 0 <? scans_of_session k scans
              then Some (Times (scans_of_session k scans)) else None.
Proof.
  intros Hplain. unfold session_counts.
  assert (G : forall seen obj,
            (forall k, prop_get k obj
                       = if 0 <? scans_of_session k seen
                         then Some (Times (scans_of_session k seen)) else None) ->
            forall k, prop_get k
                        (fold_left (fun o s => count_session o (scan_session_id s)) scans obj)
                      = if 0 <? scans_of_session k (seen ++ scans)
                        then Some (Times (scans_of_session k (seen ++ scans))) else None).
  { induction Hplain as [|s scans Hs _ IH]; intros seen obj Hobj k.
    - rewrite app_nil_r. apply Hobj.
    - cbn [fold_left].
      replace (seen ++ s :: scans)%list with ((seen ++ [s]) ++ scans)%list
        by (rewrite <- app_assoc; reflexivity).
      apply IH. clear k. intros k.
      assert (Hcnt : scans_of_session k (seen ++ [s])
                     = scans_of_session k seen
                       + (if String.eqb (scan_session_id s) k then 1 else 0)).
      { unfold scans_of_session. rewrite filter_app, length_app. cbn [filter].
        destruct (String.eqb (scan_session_id s) k); cbn [List.length]; lia. }
      assert (Hpos : forall j, 0 <= scans_of_session j seen)
        by (intros j; unfold scans_of_session; lia).
      unfold count_session.
      assert (Hproto : String.eqb (scan_session_id s) "__proto__" = false).
      { destruct (String.eqb_spec (scan_session_id s) "__proto__") as [E|_]; [|reflexivity].
        rewrite E in Hs. discriminate Hs. }
      rewrite Hproto, Hs, (Hobj (scan_session_id s)).
      destruct (Z.ltb_spec 0 (scans_of_session (scan_session_id s) seen)) as [Hlt|Hge];
        rewrite prop_get_set, Hcnt;
        (destruct (String.eqb_spec (scan_session_id s) k) as [E|N];
          [subst k|rewrite Z.add_0_r; apply Hobj]).
      + destruct (Z.ltb_spec 0 (scans_of_session (scan_session_id s) seen + 1)); [|lia].
        reflexivity.
      + specialize (Hpos (scan_session_id s)).
        replace (scans_of_session (scan_session_id s) seen) with 0 by lia.
        reflexivity. }
  intros k. apply (G [] []). intros j. reflexivity.
Qed.

(** The session figures of the overview: sessions with more than one scan
    never outnumber the sessions, and the sessions never outnumber the
    scans.  When no session id is an inherited name, the sessions counted
    are exactly the distinct session ids of the scans, and the repeat
    sessions are those among them that occur on more than one scan. *)
Theorem session_counts_repeat (scans : list Scan) :
  let obj := session_counts scans in
  0 <= repeat_sessions obj <= total_sessions obj
  /\ total_sessions obj <= Z.of_nat (List.length scans)
  /\ (Forall (fun s => inherited_name (scan_session_id s) = false) scans ->
      NoDup (map fst obj)
      /\ (forall k, In k (map fst obj) <-> exists s, In s scans /\ scan_session_id s = k)
      /\ repeat_sessions obj
         = Z.of_nat (List.length
             (filter (fun k => 1 <? scans_of_session k scans) (map fst obj)))).
Proof.
  cbv zeta. destruct (session_counts_general scans) as [Hnd Hlen].
  split; [|split].
  - unfold repeat_sessions, total_sessions.
    pose proof (filter_length_le
      (fun e : string * Counted => match snd e with Times n => 1 <? n | Junk => false end)
      (session_counts scans)). lia.
  - unfold total_sessions. lia.
  - intros Hplain. pose proof (session_counts_exact scans Hplain) as Hex.
    split; [exact Hnd|]. split.
    + intros k. rewrite prop_get_keys, Hex. unfold scans_of_session.
      destruct (Z.ltb_spec 0 (Z.of_nat (List.length
        (filter (fun s => String.eqb (scan_session_id s) k) scans)))) as [Hlt|Hge].
      * split; [intros _|discriminate].
        destruct (filter (fun s => String.eqb (scan_session_id s) k) scans) as [|s l] eqn:E;
          [cbn in Hlt; lia|].
        assert (Hin : In s (filter (fun s => String.eqb (scan_session_id s) k) scans))
          by (rewrite E; left; reflexivity).
        apply filter_In in Hin. destruct Hin as [Hin Hk]. exists s.
        split; [exact Hin|apply String.eqb_eq; exact Hk].
      * split; [intros H; exfalso; apply H; reflexivity|].
        intros [s [Hin Hk]]. exfalso.
        assert (Hf : In s (filter (fun s => String.eqb (scan_session_id s) k) scans))
          by (apply filter_In; split; [exact Hin|apply String.eqb_eq; exact Hk]).
        destruct (filter (fun s => String.eqb (scan_session_id s) k) scans);
          [contradiction|cbn in Hge; lia].
    + unfold repeat_sessions. f_equal.
      assert (Hval : forall e, In e (session_counts scans) ->
                snd e = Times (scans_of_session (fst e) scans)).
      { intros [k c] He. cbn [fst snd]. apply (prop_get_In k c _ Hnd) in He.
        rewrite Hex in He. destruct (0 <? scans_of_session k scans); congruence. }
      revert Hval. generalize (session_counts scans). intros obj Hval.
      induction obj as [|e obj IH]; [reflexivity|].
      cbn [filter map]. rewrite (Hval e (or_introl eq_refl)).
      destruct (1 <? scans_of_session (fst e) scans); cbn [List.length];
        rewrite IH; try reflexivity; intros e' He'; apply Hval; right; exact He'.
Qed.

Lemma session_counts_repeat_witness :
  let scan (id : Id) (session : string) :=
    mkScan id 0%nat 1%nat session None 10 false None None 0 in
  let rows := [scan 1%nat "a"; scan 2%nat "b"; scan 3%nat "a"; scan 4%nat "c"] in
  repeat_sessions (session_counts rows) = 1 /\ total_sessions (session_counts rows) = 3.
Proof.
  cbv zeta.
  match goal with |- repeat_sessions (session_counts ?rows) = _ /\ _ =>
    destruct (session_counts_repeat rows) as [_ [_ H]] end.
  destruct H as [_ [_ Hrep]]; [repeat constructor|].
  split; [rewrite Hrep; vm_compute; reflexivity|vm_compute; reflexivity].
Defined.

(** The overview of a company: completed scans never exceed the scans;
    with no scan in the window the completion rate and the repeat rate are
    the number 0 and the average rating is null; and the number of active
    items is the very count that the quota check compares with the limit,
    so a limited company is refused a new upload exactly when its limit
    does not exceed that number. *)
Theorem overview_figures (zone : Date.Zone) (now : Z) (a : Auth) (period : option string) (db : DB)
  (ov : Overview) :
  get_overview zone now a period db = Sent 200 ov ->
  0 <= ov_completedScans ov <= ov_totalScans ov
  /\ (ov_totalScans ov = 0 ->
      ov_completionRate ov = PercentZero /\ ov_avgRating ov = None
      /\ ov_repeatRate ov = PercentZero)
  /\ ov_activeSKUs ov = liveCount (req_companyId a) db
  /\ (company_sku_limit (req_company a) <> -1 ->
      (checkSkuLimit a db <> None
       <-> company_sku_limit (req_company a) <= ov_activeSKUs ov)).
Proof.
  unfold get_overview. cbv zeta.
  destruct (window_start zone now (query_period period)) as [start|e]; [|discriminate].
  intros H. inversion H; subst ov. clear H.
  cbn [ov_completedScans ov_totalScans ov_completionRate ov_avgRating ov_repeatRate
       ov_activeSKUs].
  set (own := company_scans (req_companyId a) start db).
  split; [|split; [|split]].
  - unfold Query.count. pose proof (filter_length_le completed own). lia.
  - unfold Query.count. intros H0.
    assert (E : own = []) by (destruct own; [reflexivity|cbn in H0; lia]).
    rewrite E. repeat split.
  - reflexivity.
  - intros Hne. split.
    + intros Hdeny.
      destruct (Z.le_gt_cases (company_sku_limit (req_company a))
                  (liveCount (req_companyId a) db)) as [Hle|Hlt]; [exact Hle|].
      exfalso. apply Hdeny. apply checkSkuLimit_allow. lia.
    + intros Hle. rewrite (checkSkuLimit_deny a db Hne Hle). discriminate.
Qed.

Lemma overview_figures_witness :
  let alice := mkAuth Demo.alice Demo.acme in
  exists ov,
    get_overview Date.utc 1704672000000 alice (Some "30d") Demo.shared = Sent 200 ov
    /\ ov_totalScans ov = 0 /\ ov_completionRate ov = PercentZero
    /\ ov_avgRating ov = None /\ ov_activeSKUs ov = 1.
Proof.
  cbv zeta. eexists. split; [vm_compute; reflexivity|].
  match goal with |- ov_totalScans ?ov = 0 /\ _ =>
    destruct (overview_figures Date.utc 1704672000000 (mkAuth Demo.alice Demo.acme) (Some "30d")
                Demo.shared ov ltac:(vm_compute; reflexivity)) as [_ [H0 [Ha _]]] end.
  split; [reflexivity|]. destruct (H0 eq_refl) as [H1 [H2 _]].
  split; [exact H1|]. split; [exact H2|]. rewrite Ha. vm_compute. reflexivity.
Defined.

(** ** Top questions *)

Lemma insert_index_perm {V} (e : Z * V) l : Permutation (insert_index e l) (e :: l).
Proof.
  induction l as [|x l IH]; cbn [insert_index]; [apply Permutation_refl|].
  destruct (fst e <? fst x); [apply Permutation_refl|].
  eapply perm_trans; [apply perm_skip; exact IH|apply perm_swap].
Qed.

Lemma object_values_perm {V} (obj : list (string * V)) :
  Permutation (object_values obj) (map snd obj).
Proof.
  unfold object_values.
  set (indexed := flat_map _ obj).
  assert (Hsort : Permutation (fold_right insert_index [] indexed) indexed).
  { induction indexed as [|e l IH]; [apply Permutation_refl|].
    cbn [fold_right]. eapply perm_trans; [apply insert_index_perm|].
    apply perm_skip. exact IH. }
  eapply perm_trans; [apply Permutation_app_tail, Permutation_map; exact Hsort|].
  unfold indexed. clear. induction obj as [|e obj IH]; [apply Permutation_refl|].
  cbn [flat_map filter map]. destruct (array_index (fst e)); cbn [app map snd].
  - apply perm_skip. exact IH.
  - eapply perm_trans; [apply Permutation_sym, Permutation_middle|].
    apply perm_skip. exact IH.
Qed.

Lemma insert_group_perm g l : Permutation (insert_group g l) (g :: l).
Proof.
  induction l as [|x l IH]; cbn [insert_group]; [apply Permutation_refl|].
  destruct (group_count g <? group_count x); [|apply Permutation_refl].
  eapply perm_trans; [apply perm_skip; exact IH|apply perm_swap].
Qed.

Lemma sort_groups_perm l : Permutation (sort_groups l) l.
Proof.
  induction l as [|x l IH]; [apply Permutation_refl|].
  cbn [sort_groups fold_right]. eapply perm_trans; [apply insert_group_perm|].
  apply perm_skip. exact IH.
Qed.

Lemma insert_group_sorted g l :
  StronglySorted (fun a b => group_count b <= group_count a) l ->
  StronglySorted (fun a b => group_count b <= group_count a) (insert_group g l).
Proof.
  induction l as [|x l IH]; intros Hs; cbn [insert_group].
  - constructor; constructor.
  - inversion Hs as [|? ? Hl Hx]; subst.
    destruct (Z.ltb_spec (group_count g) (group_count x)) as [Hlt|Hge].
    + constructor; [apply IH; exact Hl|].
      apply Forall_forall. intros y Hy.
      apply (Permutation_in _ (insert_group_perm g l)) in Hy.
      destruct Hy as [E|Hy]; [subst; lia|].
      rewrite Forall_forall in Hx. apply Hx. exact Hy.
    + constructor; [exact Hs|]. constructor; [lia|].
      eapply Forall_impl; [|exact Hx]. cbn. intros y Hy. lia.
Qed.

Lemma sort_groups_sorted l :
  StronglySorted (fun a b => group_count b <= group_count a) (sort_groups l).
Proof.
  induction l as [|x l IH]; [constructor|].
  cbn [sort_groups fold_right]. apply insert_group_sorted. exact IH.
Qed.

Lemma slice0_prefix {A} (stop : Z) (l : list A) :
  exists rest, l = (slice0 stop l ++ rest)%list.
Proof.
  unfold slice0. destruct (stop <? 0); eexists; symmetry; apply firstn_skipn.
Qed.

Lemma slice0_length {A} (stop : Z) (l : list A) :
  (0 <= stop -> List.length (slice0 stop l) = Nat.min (Z.to_nat stop) (List.length l))
  /\ (stop < 0 ->
      Z.of_nat (List.length (slice0 stop l)) = Z.max 0 (Z.of_nat (List.length l) + stop)).
Proof.
  unfold slice0. split; intros H.
  - destruct (Z.ltb_spec stop 0); [lia|]. apply length_firstn.
  - destruct (Z.ltb_spec stop 0); [|lia]. rewrite length_firstn. lia.
Qed.

Lemma find_app {A} (p : A -> bool) (l1 l2 : list A) :
  find p (l1 ++ l2) = match find p l1 with Some x => Some x | None => find p l2 end.
Proof.
  induction l1 as [|x l1 IH]; [reflexivity|]. cbn [app find].
  destruct (p x); [reflexivity|exact IH].
Qed.

Lemma find_none_filter {A} (p : A -> bool) (l : list A) :
  find p l = None -> filter p l = [].
Proof.
  induction l as [|x l IH]; [reflexivity|]. cbn [find filter].
  destruct (p x); [discriminate|exact IH].
Qed.

Section TopQuestionsProofs.

Variable normalize : string -> string.

Lemma group_questions_spec (db : DB) (qs : list Question) :
  NoDup (map fst (group_questions normalize db qs))
  /\ forall k, prop_get k (group_questions normalize db qs) = group_of normalize db k qs.
Proof.
  unfold group_questions.
  assert (G : forall seen grouped,
            NoDup (map fst grouped) ->
            (forall k, prop_get k grouped = group_of normalize db k seen) ->
            NoDup (map fst (fold_left (add_question normalize db) qs grouped))
            /\ forall k, prop_get k (fold_left (add_question normalize db) qs grouped)
                         = group_of normalize db k (seen ++ qs)).
  { induction qs as [|q qs IH]; intros seen grouped Hnd Hspec.
    - rewrite app_nil_r. split; [exact Hnd|exact Hspec].
    - cbn [fold_left].
      replace (seen ++ q :: qs)%list with ((seen ++ [q]) ++ qs)%list
        by (rewrite <- app_assoc; reflexivity).
      assert (Hother : forall k, String.eqb (normalize (question_text q)) k = false ->
                group_of normalize db k (seen ++ [q]) = group_of normalize db k seen).
      { intros k Hk. unfold group_of, asked_as. rewrite find_app, filter_app.
        cbn [find filter]. rewrite Hk, app_nil_r.
        destruct (find _ seen); reflexivity. }
      unfold add_question at 2 4. cbv zeta.
      destruct (inherited_name (normalize (question_text q))) eqn:Hinh.
      + apply IH; [exact Hnd|]. intros k.
        destruct (String.eqb_spec (normalize (question_text q)) k) as [E|N].
        * subst k. rewrite Hspec. unfold group_of. rewrite Hinh. reflexivity.
        * rewrite Hspec. symmetry. apply Hother. apply String.eqb_neq. exact N.
      + pose proof (Hspec (normalize (question_text q))) as Hkey.
        unfold group_of in Hkey. rewrite Hinh in Hkey.
        destruct (find (fun q' => String.eqb (normalize (question_text q'))
                                    (normalize (question_text q))) seen) as [q0|] eqn:Hfind;
          rewrite Hkey; (apply IH; [apply NoDup_prop_set; exact Hnd|]); intros k;
          rewrite prop_get_set;
          (destruct (String.eqb_spec (normalize (question_text q)) k) as [E|N];
            [subst k|rewrite Hspec; symmetry; apply Hother; apply String.eqb_neq; exact N]);
          unfold group_of, asked_as; rewrite Hinh, find_app, Hfind, filter_app;
          cbn [find filter group_question group_step group_skuName group_count];
          rewrite String.eqb_refl.
        * rewrite length_app. cbn [List.length]. do 2 f_equal. lia.
        * rewrite (find_none_filter _ _ Hfind). reflexivity. }
  apply (G [] []); [constructor|]. intros k. unfold group_of.
  destruct (inherited_name k); reflexivity.
Qed.

(** The ranking of the questions of a company: the groups come in
    descending order of their counts; no two of them stand for the same
    normalized text; each carries the text, step and item name of the
    first question asked under its normalized text and counts all the
    questions asked under it; a question whose normalized text is an
    inherited name such as [constructor] is in no group, every other
    question is in one; and the answer is the first [limit] groups of the
    ranking, ten when the query gives no limit or 0, while a negative limit
    cuts that many groups off its end. *)
Theorem top_questions_ranking (zone : Date.Zone) (now : Z) (a : Auth) (period : option string)
  (limit : option Z) (db : DB) (start : option Z) :
  window_start zone now (query_period period) = Ok start ->
  let qs := company_questions (req_companyId a) start db in
  let full := ranked_questions normalize db qs in
  let out := slice0 (query_limit limit) full in
  get_questions normalize zone now a period limit db = Sent 200 out
  /\ (exists rest, full = (out ++ rest)%list)
  /\ (0 < query_limit limit ->
      List.length out = Nat.min (Z.to_nat (query_limit limit)) (List.length full))
  /\ (query_limit limit < 0 ->
      Z.of_nat (List.length out)
      = Z.max 0 (Z.of_nat (List.length full) + query_limit limit))
  /\ StronglySorted (fun g1 g2 => group_count g2 <= group_count g1) full
  /\ NoDup (map (fun g => normalize (group_question g)) full)
  /\ (forall g, In g full ->
        let k := normalize (group_question g) in
        inherited_name k = false
        /\ group_count g = Z.of_nat (List.length (asked_as normalize k qs))
        /\ exists q,
             find (fun q' => String.eqb (normalize (question_text q')) k) qs = Some q
             /\ group_question g = question_text q /\ group_step g = step_number q
             /\ group_skuName g = question_sku_name db q)
  /\ (forall q, In q qs ->
        inherited_name (normalize (question_text q)) = false <->
        exists g, In g full /\ normalize (group_question g) = normalize (question_text q)).
Proof.
  intros Hstart. cbv zeta.
  set (qs := company_questions (req_companyId a) start db).
  destruct (group_questions_spec db qs) as [Hnd Hspec].
  set (grouped := group_questions normalize db qs) in *.
  assert (Hperm : Permutation (ranked_questions normalize db qs) (map snd grouped)).
  { unfold ranked_questions. eapply perm_trans; [apply sort_groups_perm|].
    apply object_values_perm. }
  assert (Hentry : forall k g, In (k, g) grouped ->
            k = normalize (group_question g)
            /\ inherited_name k = false
            /\ group_count g = Z.of_nat (List.length (asked_as normalize k qs))
            /\ exists q,
                 find (fun q' => String.eqb (normalize (question_text q')) k) qs = Some q
                 /\ group_question g = question_text q /\ group_step g = step_number q
                 /\ group_skuName g = question_sku_name db q).
  { intros k g Hin. apply (prop_get_In k g grouped Hnd) in Hin. rewrite Hspec in Hin.
    unfold group_of in Hin. destruct (inherited_name k) eqn:Hinh; [discriminate|].
    destruct (find _ qs) as [q|] eqn:Hfind; [|discriminate]. inversion Hin; subst g.
    cbn [group_question group_step group_skuName group_count].
    apply find_some in Hfind as Hq. destruct Hq as [_ Hq]. apply String.eqb_eq in Hq.
    split; [symmetry; exact Hq|]. split; [reflexivity|]. split; [reflexivity|].
    exists q. repeat split. }
  assert (Hkeys : map (fun g => normalize (group_question g)) (map snd grouped)
                  = map fst grouped).
  { rewrite map_map. apply map_ext_in. intros [k g] Hin. cbn [fst snd].
    symmetry. apply (Hentry k g Hin). }
  split; [unfold get_questions; rewrite Hstart; reflexivity|].
  split; [apply slice0_prefix|].
  split; [intros H; apply slice0_length; lia|].
  split; [intros H; apply slice0_length; exact H|].
  split; [apply sort_groups_sorted|].
  split; [|split].
  - eapply Permutation_NoDup; [apply Permutation_sym, Permutation_map; exact Hperm|].
    rewrite Hkeys. exact Hnd.
  - intros g Hg. apply (Permutation_in _ Hperm) in Hg. apply in_map_iff in Hg.
    destruct Hg as [[k g'] [E Hin]]. cbn [snd] in E. subst g'.
    destruct (Hentry k g Hin) as [Ek [H1 [H2 H3]]]. rewrite <- Ek.
    split; [exact H1|]. split; [exact H2|exact H3].
  - intros q Hq. split.
    + intros Hinh.
      assert (Hget : prop_get (normalize (question_text q)) grouped <> None).
      { rewrite Hspec. unfold group_of. rewrite Hinh.
        destruct (find _ qs) eqn:Hfind; [discriminate|].
        exfalso. pose proof (find_none _ _ Hfind q Hq) as Hno. cbv beta in Hno.
        rewrite String.eqb_refl in Hno. discriminate Hno. }
      destruct (prop_get (normalize (question_text q)) grouped) as [g|] eqn:Eg;
        [|contradiction].
      apply (prop_get_In _ g grouped Hnd) in Eg. exists g. split.
      * apply (Permutation_in _ (Permutation_sym Hperm)).
        change g with (snd (normalize (question_text q), g)). apply in_map. exact Eg.
      * symmetry. apply (Hentry _ g Eg).
    + intros [g [Hg Ek]]. apply (Permutation_in _ Hperm) in Hg. apply in_map_iff in Hg.
      destruct Hg as [[k g'] [E Hin]]. cbn [snd] in E. subst g'.
      destruct (Hentry k g Hin) as [Ek' [H1 _]]. rewrite <- Ek, <- Ek'. exact H1.
Qed.

End TopQuestionsProofs.

Lemma top_questions_ranking_witness :
  let ask (id : Id) (text : string) (step : option Z) :=
    mkQuestion id 0%nat 1%nat "k3x9" text step 1704103200000 in
  let db := mkDB [Demo.fresh] []
              [ask 1%nat "Which screw?" (Some 3); ask 2%nat "Why?" (Some 2);
               ask 3%nat "constructor" None; ask 4%nat "why? " None] [] 5%nat in
  get_questions normalize_ascii Date.utc 1704672000000 (mkAuth Demo.alice Demo.acme)
    (Some "all") None db
  = Sent 200 [mkGroup "Why?" (Some 2) (Some "Kallax shelf") 2;
              mkGroup "Which screw?" (Some 3) (Some "Kallax shelf") 1].
Proof.
  cbv zeta.
  match goal with |- get_questions ?n ?zone ?now ?a ?p ?l ?db = _ =>
    destruct (top_questions_ranking n zone now a p l db None eq_refl) as [H _] end.
  rewrite H. vm_compute. reflexivity.
Defined.

(** ** Billing *)

Lemma Forall2_map_same {A} (R : A -> A -> Prop) (g : A -> A) (l : list A) :
  (forall c, R c (g c)) -> Forall2 R l (map g l).
Proof. intros H. induction l; cbn [map]; constructor; auto. Qed.

Lemma billing_step_update id (P : CompanyRow -> CompanyRow -> Prop) f table :
  (forall c, row_id (f c) = row_id c) ->
  (forall c, row_id c = id -> P c (f c)) ->
  Forall2 (billing_step id P) table (update_company id f table).
Proof.
  intros Hid HP. unfold update_company. apply Forall2_map_same. intros c.
  unfold billing_step. destruct (Nat.eqb_spec (row_id c) id) as [E|N].
  - split; [apply Hid|]. split; [intros C; contradiction|]. intros _. apply HP. exact E.
  - split; [reflexivity|]. split; [reflexivity|]. intros C. contradiction.
Qed.

Lemma billing_step_update2 id (P : CompanyRow -> CompanyRow -> Prop) f1 f2 table :
  (forall c, row_id (f1 c) = row_id c) -> (forall c, row_id (f2 c) = row_id c) ->
  (forall c, row_id c = id -> P c (f2 (f1 c))) ->
  Forall2 (billing_step id P) table (update_company id f2 (update_company id f1 table)).
Proof.
  intros H1 H2 HP. unfold update_company. rewrite map_map. apply Forall2_map_same.
  intros c. unfold billing_step. destruct (Nat.eqb_spec (row_id c) id) as [E|N].
  - rewrite H1, E, Nat.eqb_refl. split; [rewrite H2, H1; exact E|].
    split; [intros C; contradiction|]. intros _. apply HP. exact E.
  - destruct (Nat.eqb_spec (row_id c) id); [contradiction|].
    split; [reflexivity|]. split; [reflexivity|]. intros C. contradiction.
Qed.

Lemma billing_step_same id (P : CompanyRow -> CompanyRow -> Prop) table :
  (forall c, P c c) -> Forall2 (billing_step id P) table table.
Proof.
  intros HP. rewrite <- (map_id table) at 2. apply Forall2_map_same. intros c.
  repeat split. intros _. apply HP.
Qed.

Lemma plan_found_false (p : string) :
  plan_found p = false <-> plan_sku_limit p = None /\ inherited_name p = false.
Proof.
  unfold plan_found. destruct (plan_sku_limit p).
  - split; [discriminate|intros [C _]; discriminate].
  - split; [intros H; split; [reflexivity|exact H]|intros [_ H]; exact H].
Qed.

Lemma inherited_no_limit (p : string) :
  inherited_name p = true -> plan_sku_limit p = None.
Proof.
  unfold plan_sku_limit.
  repeat (destruct (String.eqb p _) eqn:E;
          [apply String.eqb_eq in E; subst p; intros C; vm_compute in C; discriminate C
          |clear E]).
  reflexivity.
Qed.

(** The three ways in which [POST /subscribe] ends. *)
Lemma post_subscribe_cases (stripe : Stripe) (a : BillingAuth) (plan pm : option string)
  (table : list CompanyRow) :
  let out := post_subscribe stripe a plan pm table in
  let p := filter_text plan in
  let id := billing_companyId a in
  (plan_found p = false /\ out = (table, SubscribeError 400 "Invalid plan"))
  \/ (plan_found p = true
      /\ exists t, out = (t, SubscribeError 500 "Failed to create subscription")
                   /\ Forall2 (billing_step id plan_untouched) table t)
  \/ (plan_found p = true
      /\ exists sub t, out = (t, Subscribed sub p)
                       /\ Forall2 (billing_step id (plan_switched p sub)) table t).
Proof.
  cbv zeta. unfold post_subscribe. cbv zeta.
  assert (Hsame : Forall2 (billing_step (billing_companyId a) plan_untouched) table table)
    by (apply billing_step_same; intros c; repeat split).
  assert (Hcust : forall customer,
            Forall2 (billing_step (billing_companyId a) plan_untouched) table
              (update_company (billing_companyId a) (set_customer customer) table))
    by (intros customer; apply billing_step_update; intros c; repeat split).
  destruct (plan_found (filter_text plan)); cbn [negb];
    [right|left; split; reflexivity].
  destruct (no_customer (row_stripe_customer_id (billing_company a))).
  - destruct (customers_create stripe _ _ _) as [customer|e];
      [|left; split; [reflexivity|exists table; split; [reflexivity|exact Hsame]]].
    assert (Hend : forall price,
              (exists t,
                 match subscriptions_create stripe customer price with
                 | Ok subscription =>
                     (update_company (billing_companyId a)
                        (set_plan (filter_text plan) subscription)
                        (update_company (billing_companyId a) (set_customer customer) table),
                      Subscribed subscription (filter_text plan))
                 | Throw _ =>
                     (update_company (billing_companyId a) (set_customer customer) table,
                      SubscribeError 500 "Failed to create subscription")
                 end = (t, SubscribeError 500 "Failed to create subscription")
                 /\ Forall2 (billing_step (billing_companyId a) plan_untouched) table t)
              \/ (exists sub t,
                 match subscriptions_create stripe customer price with
                 | Ok subscription =>
                     (update_company (billing_companyId a)
                        (set_plan (filter_text plan) subscription)
                        (update_company (billing_companyId a) (set_customer customer) table),
                      Subscribed subscription (filter_text plan))
                 | Throw _ =>
                     (update_company (billing_companyId a) (set_customer customer) table,
                      SubscribeError 500 "Failed to create subscription")
                 end = (t, Subscribed sub (filter_text plan))
                 /\ Forall2 (billing_step (billing_companyId a)
                               (plan_switched (filter_text plan) sub)) table t)).
    { intros price. destruct (subscriptions_create stripe customer price) as [sub|e].
      - right. exists sub. eexists. split; [reflexivity|].
        apply billing_step_update2; intros c; repeat split.
      - left. eexists. split; [reflexivity|apply Hcust]. }
    destruct (falsy pm).
    + destruct (Hend (match plan_sku_limit (filter_text plan) with
                      | Some _ => price_id stripe (filter_text plan)
                      | None => None
                      end)) as [H|H]; [left|right]; (split; [reflexivity|exact H]).
    + destruct (paymentMethods_attach stripe _ customer) as [[]|e];
        [|left; split; [reflexivity|eexists; split; [reflexivity|apply Hcust]]].
      destruct (customers_update stripe customer _) as [[]|e];
        [|left; split; [reflexivity|eexists; split; [reflexivity|apply Hcust]]].
      destruct (Hend (match plan_sku_limit (filter_text plan) with
                      | Some _ => price_id stripe (filter_text plan)
                      | None => None
                      end)) as [H|H]; [left|right]; (split; [reflexivity|exact H]).
  - set (customer := or_default (row_stripe_customer_id (billing_company a)) "").
    assert (Hend : forall price,
              (exists t,
                 match subscriptions_create stripe customer price with
                 | Ok subscription =>
                     (update_company (billing_companyId a)
                        (set_plan (filter_text plan) subscription) table,
                      Subscribed subscription (filter_text plan))
                 | Throw _ => (table, SubscribeError 500 "Failed to create subscription")
                 end = (t, SubscribeError 500 "Failed to create subscription")
                 /\ Forall2 (billing_step (billing_companyId a) plan_untouched) table t)
              \/ (exists sub t,
                 match subscriptions_create stripe customer price with
                 | Ok subscription =>
                     (update_company (billing_companyId a)
                        (set_plan (filter_text plan) subscription) table,
                      Subscribed subscription (filter_text plan))
                 | Throw _ => (table, SubscribeError 500 "Failed to create subscription")
                 end = (t, Subscribed sub (filter_text plan))
                 /\ Forall2 (billing_step (billing_companyId a)
                               (plan_switched (filter_text plan) sub)) table t)).
    { intros price. destruct (subscriptions_create stripe customer price) as [sub|e].
      - right. exists sub. eexists. split; [reflexivity|].
        apply billing_step_update; intros c; repeat split.
      - left. eexists. split; [reflexivity|exact Hsame]. }
    destruct (falsy pm).
    + destruct (Hend (match plan_sku_limit (filter_text plan) with
                      | Some _ => price_id stripe (filter_text plan)
                      | None => None
                      end)) as [H|H]; [left|right]; (split; [reflexivity|exact H]).
    + destruct (paymentMethods_attach stripe _ customer) as [[]|e];
        [|left; split; [reflexivity|eexists; split; [reflexivity|exact Hsame]]].
      destruct (customers_update stripe customer _) as [[]|e];
        [|left; split; [reflexivity|eexists; split; [reflexivity|exact Hsame]]].
      destruct (Hend (match plan_sku_limit (filter_text plan) with
                      | Some _ => price_id stripe (filter_text plan)
                      | None => None
                      end)) as [H|H]; [left|right]; (split; [reflexivity|exact H]).
Qed.

(** Subscribing.  The request is answered 400 [Invalid plan], before
    anything is written or the provider is called, exactly when the plan
    name is none of [starter], [growth] and [scale] and is not a name that
    every object inherits either: under an inherited name such as
    [constructor] the lookup in the plan table finds something, the
    request goes on to the provider, and if the provider accepts it the
    company's row gets that name as its plan and keeps its limit.  Every
    other failure is answered 500.  Whatever happens, rows of other
    companies stay as they are.  When the request fails, the plan, limit,
    status and subscription of the company stay as they were.  When it
    succeeds, the company's row carries the plan, the status [active], the
    new subscription and the limit of the plan: 10 for [starter], 25 for
    [growth], and for [scale] the sentinel with which the quota check lets
    every upload through. *)
Theorem subscribe_effect (stripe : Stripe) (a : BillingAuth) (plan pm : option string)
  (table : list CompanyRow) :
  let out := post_subscribe stripe a plan pm table in
  (plan_sku_limit (filter_text plan) = None -> inherited_name (filter_text plan) = false ->
   out = (table, SubscribeError 400 "Invalid plan"))
  /\ (snd out = SubscribeError 400 "Invalid plan" ->
      plan_sku_limit (filter_text plan) = None /\ inherited_name (filter_text plan) = false)
  /\ (forall status e, snd out = SubscribeError status e ->
        (status = 400 /\ e = "Invalid plan")
        \/ (status = 500 /\ e = "Failed to create subscription"))
  /\ match snd out with
     | SubscribeError _ _ =>
         Forall2 (billing_step (billing_companyId a) plan_untouched) table (fst out)
     | Subscribed sub p =>
         p = filter_text plan
         /\ Forall2 (billing_step (billing_companyId a) (plan_switched p sub)) table
              (fst out)
         /\ (p = "scale" ->
             forall c' u db, In c' (fst out) -> row_id c' = billing_companyId a ->
               checkSkuLimit (mkAuth u (company_of_row c')) db = None)
         /\ (inherited_name p = true ->
             Forall2 (billing_step (billing_companyId a)
                        (fun c c' => row_plan c' = p /\ row_sku_limit c' = row_sku_limit c))
               table (fst out))
     end.
Proof.
  cbv zeta.
  destruct (post_subscribe_cases stripe a plan pm table)
    as [[Hf E]|[[Hf [t [E HF]]]|[Hf [sub [t [E HF]]]]]]; cbv zeta in E; rewrite E;
    cbn [fst snd].
  - split; [intros _ _; reflexivity|]. split; [intros _; apply plan_found_false; exact Hf|].
    split; [intros status e H; inversion H; left; split; reflexivity|].
    apply billing_step_same. intros c. repeat split.
  - assert (Hno : ~ (plan_sku_limit (filter_text plan) = None
                     /\ inherited_name (filter_text plan) = false)).
    { intros C. apply plan_found_false in C. congruence. }
    split; [intros H1 H2; exfalso; apply Hno; split; assumption|].
    split; [intros H; inversion H|].
    split; [intros status e H; inversion H; right; split; reflexivity|]. exact HF.
  - assert (Hno : ~ (plan_sku_limit (filter_text plan) = None
                     /\ inherited_name (filter_text plan) = false)).
    { intros C. apply plan_found_false in C. congruence. }
    split; [intros H1 H2; exfalso; apply Hno; split; assumption|].
    split; [intros H; inversion H|]. split; [intros status e H; inversion H|].
    split; [reflexivity|]. split; [exact HF|]. split.
    + intros Hp c' u db Hin Hid.
      apply checkSkuLimit_unlimited. cbn [req_company company_of_row company_sku_limit].
      clear - HF Hp Hin Hid. induction HF as [|c c1 l l1 [E1 [_ E3]] _ IH]; [contradiction|].
      destruct Hin as [E|Hin]; [subst c1|exact (IH Hin)].
      destruct (E3 ltac:(congruence)) as [_ [_ [_ El]]]. rewrite El, Hp. reflexivity.
    + intros Hinh. pose proof (inherited_no_limit _ Hinh) as Hnone.
      clear - HF Hnone. induction HF as [|c c1 l l1 [E1 [E2 E3]] _ IH]; constructor;
        [|exact IH].
      split; [exact E1|]. split; [exact E2|]. intros Hid.
      destruct (E3 Hid) as [Ep [_ [_ El]]]. rewrite Hnone in El. split; assumption.
Qed.

Lemma subscribe_effect_witness :
  let a := mkBillingAuth Demo.alice acme_row in
  post_subscribe stripe_ok a (Some "scale") (Some "pm_1") [acme_row; globex_row]
  = ([mkCompanyRow 1%nat "Acme" "scale" (-1) (Some "active") (Some "cus_1") (Some "sub_1");
      globex_row], Subscribed "sub_1" "scale")
  /\ post_subscribe stripe_ok a (Some "enterprise") None [acme_row; globex_row]
     = ([acme_row; globex_row], SubscribeError 400 "Invalid plan")
  /\ checkSkuLimit (mkAuth Demo.alice (company_of_row acme_row)) QuotaExample.db <> None
  /\ checkSkuLimit
       (mkAuth Demo.alice
          (company_of_row
             (mkCompanyRow 1%nat "Acme" "scale" (-1) (Some "active") (Some "cus_1")
                (Some "sub_1")))) QuotaExample.db = None
  /\ post_subscribe stripe_ok a (Some "constructor") None [acme_row; globex_row]
     = ([mkCompanyRow 1%nat "Acme" "constructor" 2 (Some "active") (Some "cus_1")
           (Some "sub_1"); globex_row], Subscribed "sub_1" "constructor")
  /\ post_subscribe stripe_down a (Some "growth") None [acme_row; globex_row]
     = ([acme_row; globex_row], SubscribeError 500 "Failed to create subscription")
  /\ post_subscribe stripe_ok a None None [acme_row; globex_row]
     = ([acme_row; globex_row], SubscribeError 400 "Invalid plan").
Proof.
  cbv zeta. split; [vm_compute; reflexivity|]. split; [|split; [|split]].
  - apply (proj1 (subscribe_effect stripe_ok (mkBillingAuth Demo.alice acme_row)
                    (Some "enterprise") None [acme_row; globex_row])); reflexivity.
  - vm_compute. discriminate.
  - pose proof (proj2 (proj2 (proj2
                  (subscribe_effect stripe_ok (mkBillingAuth Demo.alice acme_row)
                     (Some "scale") (Some "pm_1") [acme_row; globex_row])))) as H.
    cbv zeta in H.
    assert (E : post_subscribe stripe_ok (mkBillingAuth Demo.alice acme_row)
                  (Some "scale") (Some "pm_1") [acme_row; globex_row]
                = ([mkCompanyRow 1%nat "Acme" "scale" (-1) (Some "active") (Some "cus_1")
                      (Some "sub_1"); globex_row], Subscribed "sub_1" "scale"))
      by (vm_compute; reflexivity).
    rewrite E in H. cbn [fst snd] in H. destruct H as [_ [_ [H _]]].
    apply (H eq_refl); [left; reflexivity|reflexivity].
  - split; [vm_compute; reflexivity|]. split; [vm_compute; reflexivity|].
    apply (proj1 (subscribe_effect stripe_ok (mkBillingAuth Demo.alice acme_row)
                    None None [acme_row; globex_row])); reflexivity.
Defined.

(** The webhook.  An event whose signature does not verify is answered 400
    and writes nothing.  The deletion of a subscription puts every company
    holding that subscription on the [trial] plan with limit 2 and status
    [cancelled] and touches no other row, so that such a company is refused
    a new upload exactly when it has two or more live items; every other
    event leaves plan and limit of all rows as they are. *)
Theorem webhook_effect (table : list CompanyRow) :
  (forall m, post_webhook (Throw m) table = (table, 400))
  /\ (forall sub,
        let out := post_webhook (Ok (SubscriptionDeleted sub)) table in
        snd out = 200
        /\ Forall2 (fun c c' =>
             row_id c' = row_id c
             /\ row_stripe_subscription_id c' = row_stripe_subscription_id c
             /\ (row_stripe_subscription_id c = Some sub ->
                 row_plan c' = "trial" /\ row_sku_limit c' = 2
                 /\ row_plan_status c' = Some "cancelled")
             /\ (row_stripe_subscription_id c <> Some sub -> c' = c)) table (fst out)
        /\ forall c' u db, In c' (fst out) -> row_stripe_subscription_id c' = Some sub ->
             (checkSkuLimit (mkAuth u (company_of_row c')) db <> None
              <-> 2 <= liveCount (user_company_id u) db))
  /\ (forall e, (forall sub, e <> SubscriptionDeleted sub) ->
        snd (post_webhook (Ok e) table) = 200
        /\ Forall2 (fun c c' => row_id c' = row_id c /\ row_plan c' = row_plan c
                                /\ row_sku_limit c' = row_sku_limit c)
             table (fst (post_webhook (Ok e) table))).
Proof.
  split; [reflexivity|]. split.
  - intros sub. cbv zeta. cbn [post_webhook fst snd]. split; [reflexivity|].
    assert (Htext : forall c, text_is sub (row_stripe_subscription_id c) = true
                              <-> row_stripe_subscription_id c = Some sub).
    { intros c. unfold text_is. destruct (row_stripe_subscription_id c) as [s|].
      - rewrite String.eqb_eq. split; congruence.
      - split; discriminate. }
    assert (HF : Forall2 (fun c c' =>
             row_id c' = row_id c
             /\ row_stripe_subscription_id c' = row_stripe_subscription_id c
             /\ (row_stripe_subscription_id c = Some sub ->
                 row_plan c' = "trial" /\ row_sku_limit c' = 2
                 /\ row_plan_status c' = Some "cancelled")
             /\ (row_stripe_subscription_id c <> Some sub -> c' = c)) table
           (map (fun c => if text_is sub (row_stripe_subscription_id c)
                          then downgrade c else c) table)).
    { apply Forall2_map_same. intros c.
      destruct (text_is sub (row_stripe_subscription_id c)) eqn:E.
      - apply Htext in E. split; [reflexivity|]. split; [reflexivity|].
        split; [intros _; repeat split|]. intros C. contradiction.
      - split; [reflexivity|]. split; [reflexivity|].
        split; [intros C; apply Htext in C; congruence|]. intros _. reflexivity. }
    split; [exact HF|].
    intros c' u db Hin Hsub.
    assert (Hlim : row_sku_limit c' = 2).
    { clear - HF Hin Hsub. induction HF as [|c c1 l l1 [_ [E2 [E3 _]]] _ IH]; [contradiction|].
      destruct Hin as [E|Hin]; [subst c1|exact (IH Hin)].
      apply E3. rewrite <- E2. exact Hsub. }
    set (au := mkAuth u (company_of_row c')).
    assert (Hl : company_sku_limit (req_company au) = 2) by exact Hlim.
    change (user_company_id u) with (req_companyId au). split.
    + intros Hdeny.
      destruct (Z.le_gt_cases 2 (liveCount (req_companyId au) db)) as [Hle|Hlt];
        [exact Hle|].
      exfalso. apply Hdeny. apply checkSkuLimit_allow. rewrite Hl. lia.
    + intros Hle. rewrite (checkSkuLimit_deny au db); [discriminate|rewrite Hl; lia|].
      rewrite Hl. exact Hle.
  - intros e He. destruct e as [sub|customer|customer|type]; cbn [post_webhook fst snd].
    + exfalso. exact (He sub eq_refl).
    + split; [reflexivity|]. apply Forall2_map_same. intros c.
      destruct (text_is customer _); repeat split.
    + split; [reflexivity|]. apply Forall2_map_same. intros c.
      destruct (text_is customer _); repeat split.
    + split; [reflexivity|]. rewrite <- (map_id table) at 2.
      apply Forall2_map_same. intros c. repeat split.
Qed.

Lemma webhook_effect_witness :
  post_webhook (Ok (SubscriptionDeleted "sub_9")) [acme_row; globex_row]
  = ([acme_row;
      mkCompanyRow 2%nat "Globex" "trial" 2 (Some "cancelled") (Some "cus_9") (Some "sub_9")],
     200)
  /\ checkSkuLimit
       (mkAuth QuotaExample.alice
          (company_of_row
             (mkCompanyRow 1%nat "Acme" "trial" 2 (Some "cancelled") (Some "cus_9")
                (Some "sub_9")))) QuotaExample.db <> None.
Proof.
  split; [vm_compute; reflexivity|].
  destruct (webhook_effect
              [mkCompanyRow 1%nat "Acme" "growth" 25 (Some "active") (Some "cus_9")
                 (Some "sub_9")]) as [_ [H _]].
  destruct (H "sub_9") as [_ [_ Hq]]. cbv zeta in Hq.
  apply (Hq _ QuotaExample.alice QuotaExample.db (or_introl eq_refl) eq_refl).
  vm_compute. discriminate.
Defined.

(** Cancelling.  Without a subscription the request is answered 400; with
    one, it is answered 500 when the provider refuses and 200 when the
    provider accepts; in the first two cases nothing is written.  A
    successful cancellation only sets the status of the company to
    [cancelling]: plan and limit stay, so the quota check decides as before
    until the provider reports the deletion; rows of other companies are
    never touched. *)
Theorem cancel_effect (stripe : Stripe) (a : BillingAuth) (table : list CompanyRow) :
  let out := post_cancel stripe a table in
  let subscription := row_stripe_subscription_id (billing_company a) in
  (snd out <> 200 -> fst out = table)
  /\ (falsy subscription = true -> snd out = 400)
  /\ (falsy subscription = false ->
      forall e, subscriptions_update stripe (or_default subscription "") = Throw e ->
        out = (table, 500))
  /\ (falsy subscription = false ->
      forall u, subscriptions_update stripe (or_default subscription "") = Ok u ->
        out = (update_company (billing_companyId a) (set_status "cancelling") table, 200))
  /\ (snd out = 400 \/ snd out = 500 \/ snd out = 200)
  /\ Forall2 (billing_step (billing_companyId a)
                (fun c c' => row_plan c' = row_plan c /\ row_sku_limit c' = row_sku_limit c
                             /\ (snd out = 200 -> row_plan_status c' = Some "cancelling")))
       table (fst out)
  /\ Forall2 (fun c c' => forall u db,
                checkSkuLimit (mkAuth u (company_of_row c')) db
                = checkSkuLimit (mkAuth u (company_of_row c)) db) table (fst out).
Proof.
  cbv zeta. unfold post_cancel.
  assert (Hsame : forall (P : CompanyRow -> CompanyRow -> Prop),
            (forall c, P c c) -> Forall2 P table table).
  { intros P HP. rewrite <- (map_id table) at 2. apply Forall2_map_same. exact HP. }
  destruct (falsy (row_stripe_subscription_id (billing_company a))) eqn:Hnone;
    cbn [fst snd].
  - split; [reflexivity|]. split; [reflexivity|]. split; [discriminate|].
    split; [discriminate|]. split; [left; reflexivity|]. split.
    + apply billing_step_same. intros c. split; [reflexivity|]. split; [reflexivity|].
      discriminate.
    + apply Hsame. reflexivity.
  - destruct (subscriptions_update stripe _) as [[]|e]; cbn [fst snd].
    + split; [intros C; exfalso; apply C; reflexivity|]. split; [discriminate|].
      split; [intros _ e; discriminate|]. split; [intros _ u _; reflexivity|].
      split; [right; right; reflexivity|]. split.
      * apply billing_step_update; intros c; repeat split.
      * unfold update_company. apply Forall2_map_same. intros c u db.
        destruct (Nat.eqb (row_id c) (billing_companyId a)); reflexivity.
    + split; [reflexivity|]. split; [discriminate|].
      split; [intros _ e0 _; reflexivity|]. split; [intros _ u; discriminate|].
      split; [right; left; reflexivity|]. split.
      * apply billing_step_same. intros c. split; [reflexivity|]. split; [reflexivity|].
        discriminate.
      * apply Hsame. reflexivity.
Qed.

Lemma cancel_effect_witness :
  post_cancel stripe_ok (mkBillingAuth Demo.alice acme_row) [acme_row; globex_row]
  = ([acme_row; globex_row], 400)
  /\ post_cancel stripe_ok (mkBillingAuth Demo.bob globex_row) [acme_row; globex_row]
     = ([acme_row;
         mkCompanyRow 2%nat "Globex" "growth" 25 (Some "cancelling") (Some "cus_9")
           (Some "sub_9")], 200)
  /\ post_cancel stripe_down (mkBillingAuth Demo.bob globex_row) [acme_row; globex_row]
     = ([acme_row; globex_row], 500).
Proof.
  split; [|split].
  - destruct (cancel_effect stripe_ok (mkBillingAuth Demo.alice acme_row)
                [acme_row; globex_row]) as [Hsame [Hcode _]].
    rewrite (surjective_pairing (post_cancel _ _ _)).
    rewrite (Hcode eq_refl) in *. rewrite Hsame; [reflexivity|discriminate].
  - destruct (cancel_effect stripe_ok (mkBillingAuth Demo.bob globex_row)
                [acme_row; globex_row]) as [_ [_ [_ [Hok _]]]].
    rewrite (Hok eq_refl tt eq_refl). vm_compute. reflexivity.
  - destruct (cancel_effect stripe_down (mkBillingAuth Demo.bob globex_row)
                [acme_row; globex_row]) as [_ [_ [Hdown _]]].
    exact (Hdown eq_refl "StripeConnectionError" eq_refl).
Defined.
